(** * Boring Business Finder: a shallow embedding of the scoring pipeline

    The Python sources modelled here are
      - [src/utils/models.py]       (Review, Business, OpportunityScore),
      - [src/scraper/maps_scraper.py]   (GoogleMapsScraper),
      - [src/analyzer/opportunity_scorer.py] (OpportunityAnalyzer),
      - [src/content/newsletter_generator.py] (ContentGenerator),
      - [src/api/lead_export.py]    (LeadDatabase, LeadExporter).

    Conventions.  A Python [int] is a [Z]; a Python [float] is an IEEE-754
    binary64 number, represented by [spec_float] with precision 53 and
    maximal exponent 1024; a Python [str] is a [string] of one-byte
    characters, with the case mappings and the white-space class restricted
    to ASCII; [Optional[T]] is [option T]; a raised exception is the [Raise]
    branch of [result]; a method that updates [self] returns the new
    object next to its result.

    Where the model stops.  The records are typed as the dataclasses declare
    their fields, so a run that stores a value of another type in a field
    has no counterpart here.  The search API, the clock and MD5 are read off
    a [platform]; files are kept in a [world] as JSON documents and CSV rows,
    that is, [json.dump] followed by [json.load] is taken to give back the
    same JSON value, and the text written by the [csv] module is not
    modelled.  The SQLite database is kept as
    the rows of its [businesses] and [reviews] tables, with a float as a
    REAL column gives it back.  What is printed to the console is left out;
    whether Rich's renderer takes the text of a print that formats a
    category, a location, a file path or the name of a business (it raises
    MarkupError on a closing tag that closes nothing) and whether a file
    can be opened for writing are read off the [platform], for
    [save_results], [analyze], [save_analysis], [load_analysis],
    [generate_plan] and [insert_businesses].  In [save_results],
    [save_analysis] and the texts of the planner an int is written only when
    it has at most 4300 digits. *)

From Stdlib Require Import ZArith Bool Ascii String List Lia SpecFloat
  DecimalString Sorted.
From stdpp Require Import base option list gmap strings.

Local Open Scope Z_scope.

(** ** Exceptions and results *)

Module Py.

Inductive exn : Type :=
  | ValueError (msg : string)
  | ZeroDivisionError
  | OverflowError
  | TypeError
  | AttributeError
  | FileNotFoundError
  | OSError
  | MarkupError.

Inductive result (A : Type) : Type :=
  | Ok (a : A)
  | Raise (e : exn).
Arguments Ok {A} a.
Arguments Raise {A} e.

Definition bind {A B} (r : result A) (k : A -> result B) : result B :=
  match r with
  | Ok a => k a
  | Raise e => Raise e
  end.

End Py.

Import Py.

Global Instance result_ret : MRet result := @Ok.
Global Instance result_bind : MBind result := fun A B k r => Py.bind r k.

(** ** Floats: binary64 through [SpecFloat] *)

Module PyFloat.

Definition float := spec_float.

Definition prec : Z := 53.
Definition emax : Z := 1024.

(** The integer [z] as an exact (not normalised) binary number [z * 2^0];
    [SFdiv] normalises and rounds its result, so dividing two of these gives
    the correctly rounded quotient of the integers. *)
Definition exact_of_int (z : Z) : float :=
  match z with
  | Z0 => S754_zero false
  | Zpos p => S754_finite false p 0
  | Zneg p => S754_finite true p 0
  end.

(** [float(z)], rounded to nearest even. *)
Definition round_of_int (z : Z) : float := binary_normalize prec emax z 0 false.

(** The least magnitude that rounds (to nearest, ties to even) to
    [2^1024], that is, out of the range of a float. *)
Definition overflow_threshold : Z := 2 ^ 1024 - 2 ^ 970.

(** [a / b] on two ints (true division): the correctly rounded quotient;
    ZeroDivisionError on a zero divisor, OverflowError ("integer division
    result too large for a float") when the quotient rounds out of range. *)
Definition int_true_divide (a b : Z) : result float :=
  if b =? 0 then Raise ZeroDivisionError
  else if overflow_threshold * Z.abs b <=? Z.abs a then Raise OverflowError
  else Ok (SFdiv prec emax (exact_of_int a) (exact_of_int b)).

(** [float(n)]: OverflowError ("int too large to convert to float"). *)
Definition float_of_int (n : Z) : result float :=
  if overflow_threshold <=? Z.abs n then Raise OverflowError
  else Ok (round_of_int n).

(** [x / n] for a float [x] and an int [n]: [n] is converted first. *)
Definition float_truediv_int (x : float) (n : Z) : result float :=
  d ← float_of_int n;
  if n =? 0 then Raise ZeroDivisionError else Ok (SFdiv prec emax x d).

Definition add (x y : float) : float := SFadd prec emax x y.

Definition ltb (x y : float) : bool := SFltb x y.
Definition gtb (x y : float) : bool := SFltb y x.

(** Truth value of a float: everything but the two zeros. *)
Definition truthy (x : float) : bool :=
  match x with
  | S754_zero _ => false
  | _ => true
  end.

(** A decimal literal [n / d] denotes the float nearest to it. *)
Definition literal (n d : Z) : float :=
  SFdiv prec emax (exact_of_int n) (exact_of_int d).

Definition zero : float := S754_zero false.
Definition f0_1 : float := Eval vm_compute in literal 1 10.
Definition f0_3 : float := Eval vm_compute in literal 3 10.
Definition f0_5 : float := Eval vm_compute in literal 5 10.
Definition f2_9 : float := Eval vm_compute in literal 29 10.
Definition f3_1 : float := Eval vm_compute in literal 31 10.
Definition f3_5 : float := Eval vm_compute in literal 35 10.
Definition f4_0 : float := Eval vm_compute in literal 40 10.
Definition f4_2 : float := Eval vm_compute in literal 42 10.
Definition f4_3 : float := Eval vm_compute in literal 43 10.
Definition f4_5 : float := Eval vm_compute in literal 45 10.
Definition f4_8 : float := Eval vm_compute in literal 48 10.

End PyFloat.

Import PyFloat.


(** ** Strings: the [str] methods the sources call *)

Module PyStr.

Local Open Scope string_scope.

Definition code (c : ascii) : N := N_of_ascii c.

Definition is_upper (c : ascii) : bool := ((65 <=? code c) && (code c <=? 90))%N.
Definition is_lower (c : ascii) : bool := ((97 <=? code c) && (code c <=? 122))%N.
Definition is_alpha (c : ascii) : bool := is_upper c || is_lower c.

(** [str.isspace] on ASCII: TAB, LF, VT, FF, CR, FS, GS, RS, US and space. *)
Definition is_space (c : ascii) : bool :=
  (((9 <=? code c) && (code c <=? 13)) || ((28 <=? code c) && (code c <=? 32)))%N.

Definition to_lower (c : ascii) : ascii :=
  if is_upper c then ascii_of_N (code c + 32) else c.
Definition to_upper (c : ascii) : ascii :=
  if is_lower c then ascii_of_N (code c - 32) else c.

(** [s.lower()] *)
Fixpoint lower (s : string) : string :=
  match s with
  | EmptyString => EmptyString
  | String c r => String (to_lower c) (lower r)
  end.

(** [s.title()]: a letter is upper-cased when the character before it is
    not a letter, and lower-cased otherwise. *)
Fixpoint title_from (previous_is_cased : bool) (s : string) : string :=
  match s with
  | EmptyString => EmptyString
  | String c r =>
      String (if previous_is_cased then to_lower c else to_upper c)
             (title_from (is_alpha c) r)
  end.
Definition title (s : string) : string := title_from false s.

(** [s.split(sep)] for a one-character separator: never an empty list. *)
Fixpoint split_on (sep : ascii) (s : string) : list string :=
  match s with
  | EmptyString => [EmptyString]
  | String c r =>
      if Ascii.eqb c sep then EmptyString :: split_on sep r
      else match split_on sep r with
           | w :: ws => String c w :: ws
           | [] => [String c EmptyString]
           end
  end.

(** [s.split()]: the maximal runs of non-space characters.  The helper
    returns the word that is open at the head of [s] and the words after it. *)
Fixpoint split_go (s : string) : string * list string :=
  match s with
  | EmptyString => (EmptyString, [])
  | String c r =>
      let '(w, ws) := split_go r in
      if is_space c
      then (EmptyString, if String.eqb w EmptyString then ws else w :: ws)
      else (String c w, ws)
  end.
Definition split (s : string) : list string :=
  let '(w, ws) := split_go s in
  if String.eqb w EmptyString then ws else w :: ws.

Fixpoint lstrip (s : string) : string :=
  match s with
  | EmptyString => EmptyString
  | String c r => if is_space c then lstrip r else s
  end.
Fixpoint rstrip (s : string) : string :=
  match s with
  | EmptyString => EmptyString
  | String c r =>
      let r' := rstrip r in
      if is_space c && String.eqb r' EmptyString then EmptyString
      else String c r'
  end.
(** [s.strip()] *)
Definition strip (s : string) : string := rstrip (lstrip s).

(** [sub in s] *)
Fixpoint contains (sub s : string) : bool :=
  String.prefix sub s
  || match s with
     | EmptyString => false
     | String _ r => contains sub r
     end.

(** [sep.join(parts)] *)
Definition join (sep : string) (parts : list string) : string :=
  String.concat sep parts.

(** [x in xs] for a list of strings *)
Definition mem (x : string) (xs : list string) : bool :=
  existsb (String.eqb x) xs.

(** [bool(s)] *)
Definition truthy (s : string) : bool := negb (String.eqb s EmptyString).

(** [xs[0]] of a list that [split_on] returned *)
Definition first (xs : list string) : string := List.hd EmptyString xs.

(** [xs[:n]] with Python's reading of a negative bound. *)
Definition slice_to {A} (xs : list A) (n : Z) : list A :=
  if (n <? 0)%Z then take (Z.to_nat (Z.of_nat (length xs) + n)%Z) xs
  else take (Z.to_nat n) xs.

(** The decimal digit [d], for zero-padded fields. *)
Definition digit (d : Z) : ascii := ascii_of_N (48 + Z.to_N d)%N.


Definition is_digit (c : ascii) : bool := ((48 <=? code c) && (code c <=? 57))%N.

(** The class [\w] on ASCII: letters, digits and the underscore.  (On a
    text with other characters, [\w] also takes the letters and digits of
    Unicode; the statements below that depend on it are for ASCII text.) *)
Definition is_word (c : ascii) : bool :=
  is_alpha c || is_digit c || Ascii.eqb c "_".

(** [re.sub(r'[^\w\-]', '_', s)] *)
Fixpoint sub_non_word (s : string) : string :=
  match s with
  | EmptyString => EmptyString
  | String c r =>
      String (if is_word c || Ascii.eqb c "-" then c else "_"%char)
             (sub_non_word r)
  end.

(** [s[:n]] for [n] that is not negative *)
Definition slice_str (s : string) (n : nat) : string := String.substring 0 n s.

(** Every byte of [s] is an ASCII character. *)
Definition is_ascii (s : string) : bool :=
  forallb (fun c => (code c <? 128)%N) (list_ascii_of_string s).

(** The decimal text of an int. *)
Definition decimal (n : Z) : string := NilZero.string_of_int (Z.to_int n).

(** The first magnitude whose decimal text has more than 4300 digits, the
    limit of [sys.get_int_max_str_digits()] unless the interpreter is told
    otherwise. *)
Definition int_str_limit : Z := Eval vm_compute in (10 ^ 4300)%Z.

(** An int that [str], [repr] and the f-strings refuse to write. *)
Definition too_long (n : Z) : bool := (int_str_limit <=? Z.abs n)%Z.

Definition int_too_long_message : string :=
  "Exceeds the limit (4300 digits) for integer string conversion; use sys.set_int_max_str_digits() to increase the limit".

(** [str(n)] for an int, also inside an f-string: ValueError for an int
    of more than 4300 digits. *)
Definition str_of_int (n : Z) : result string :=
  if too_long n then Raise (ValueError int_too_long_message)
  else Ok (decimal n).

(** A line feed and a double quote, as one-character strings. *)
Definition nl : string := String (ascii_of_N 10) EmptyString.
Definition dq : string := String (ascii_of_N 34) EmptyString.

End PyStr.

Import PyStr.

(** [len(xs)] *)
Definition len {A} (xs : list A) : Z := Z.of_nat (length xs).

(** [sum(xs)] over ints *)
Definition sum_ints (xs : list Z) : Z := List.fold_left Z.add xs 0.

(** ** The data model ([src/utils/models.py]) *)

(** A naive [datetime.datetime]. *)
Record datetime : Type := mk_datetime {
  year : Z; month : Z; day : Z;
  hour : Z; minute : Z; second : Z; microsecond : Z
}.

Module Review.

Record t : Type := mk {
  rating : Z;
  text : string;
  date : option datetime;
  author : option string
}.

Definition is_negative (self : t) : bool := rating self <=? 2.
Definition is_positive (self : t) : bool := rating self >=? 4.

End Review.

Module Business.

Record t : Type := mk {
  name : string;
  place_id : string;
  category : string;
  address : string;
  city : string;
  state : string;
  zip_code : option string;
  latitude : option float;
  longitude : option float;
  phone : option string;
  website : option string;
  rating : option float;
  review_count : Z;
  reviews : list Review.t;
  scraped_at : datetime
}.

Definition has_reviews (self : t) : bool := review_count self >? 0.

Definition negative_reviews (self : t) : list Review.t :=
  List.filter Review.is_negative (reviews self).

Definition negative_review_ratio (self : t) : result float :=
  match reviews self with
  | [] => Ok PyFloat.zero
  | _ => int_true_divide (len (negative_reviews self)) (len (reviews self))
  end.

End Business.

Module OpportunityScore.

Record t : Type := mk {
  category : string;
  location : string;
  total_businesses : Z;
  total_reviews : Z;
  avg_reviews_per_business : float;
  avg_rating : float;
  low_rated_businesses : Z;
  businesses_without_website : Z;
  reviews_last_30_days : Z;
  review_velocity : float;
  common_complaints : list string;
  complaint_themes : list string;
  opportunity_score : Z
}.

(** The dataclass defaults: [OpportunityScore(category=..., location=...)]. *)
Definition init (category location : string) : t :=
  mk category location 0 0 PyFloat.zero PyFloat.zero 0 0 0 PyFloat.zero [] [] 0.

Definition set_opportunity_score (self : t) (score : Z) : t :=
  mk (category self) (location self) (total_businesses self)
     (total_reviews self) (avg_reviews_per_business self) (avg_rating self)
     (low_rated_businesses self) (businesses_without_website self)
     (reviews_last_30_days self) (review_velocity self)
     (common_complaints self) (complaint_themes self) score.

(** The four [if]/[elif] chains of [calculate_score], one per bucket. *)
Definition market_size_points (total_reviews : Z) : Z :=
  if total_reviews >? 1000 then 25
  else if total_reviews >? 500 then 20
  else if total_reviews >? 100 then 15
  else if total_reviews >? 50 then 10
  else 5.

Definition competition_gap_points (total_businesses : Z) : Z :=
  if total_businesses <? 10 then 25
  else if total_businesses <? 20 then 20
  else if total_businesses <? 50 then 15
  else 5.

Definition quality_gap_points (avg_rating : float) : Z :=
  if PyFloat.ltb avg_rating f3_5 then 25
  else if PyFloat.ltb avg_rating f4_0 then 20
  else if PyFloat.ltb avg_rating f4_3 then 15
  else 5.

Definition digital_gap_points (website_gap_ratio : float) : Z :=
  if PyFloat.gtb website_gap_ratio f0_5 then 25
  else if PyFloat.gtb website_gap_ratio f0_3 then 20
  else if PyFloat.gtb website_gap_ratio f0_1 then 15
  else 5.

(** [website_gap_ratio] of [calculate_score]. *)
Definition website_gap_ratio (self : t) : result float :=
  int_true_divide (businesses_without_website self)
                  (Z.max (total_businesses self) 1).

(** [calculate_score]: the returned score and the object after the
    assignment to [self.opportunity_score]. *)
Definition calculate_score (self : t) : result (Z * t) :=
  let score := 0 in
  let score := score + market_size_points (total_reviews self) in
  let score := score + competition_gap_points (total_businesses self) in
  let score := score + quality_gap_points (avg_rating self) in
  ratio ← website_gap_ratio self;
  let score := score + digital_gap_points ratio in
  Ok (score, set_opportunity_score self score).

End OpportunityScore.

(** ** The platform: what the program reads from outside *)

(** One entry of [local_results], typed by the search API's schema: the
    keys [_parse_result] reads, each with the type of the [Business] field it
    ends up in.  An absent key is [None]. *)
Module SerpApi.

Record gps : Type := mk_gps {
  latitude : option float;
  longitude : option float
}.

Record result : Type := mk {
  title : option string;
  place_id : option string;
  type : option string;
  address : option string;
  gps_coordinates : option gps;
  phone : option string;
  website : option string;
  rating : option float;
  reviews : option Z
}.

(** [Malformed] is an entry on which [_parse_result] raises and which it
    skips, such as an entry that is not an object or one whose address is
    not a string. *)
Inductive listing : Type :=
  | Malformed
  | Listing (r : result).

(** [Failed] is a [requests.RequestException]; [Page] is the
    [local_results] list of the response (empty when the key is absent). *)
Inductive response : Type :=
  | Failed
  | Page (local_results : list listing).

End SerpApi.

(** The JSON data model: what [json.load] returns and [json.dump] accepts. *)
#[local] Set Warnings "-register-all".
Inductive json : Type :=
  | JNull
  | JBool (b : bool)
  | JInt (n : Z)
  | JFloat (x : float)
  | JStr (s : string)
  | JList (items : list json)
  | JDict (entries : list (string * json)).

(** A file: a JSON document, or a CSV header with its rows of cells. *)
Inductive file : Type :=
  | JsonFile (doc : json)
  | CsvFile (header : list string) (rows : list (list json)).

(** The fixed part of the outside world: the n-th reading of the clock, the
    answer of the search API to the n-th request (by search string and
    [start]), MD5, the texts that Rich's markup renderer refuses (a closing
    tag that closes nothing, for one), and the exception with which a file
    cannot be opened for writing at a path, if there is one (OSError for a
    name that is too long, for one). *)
Record platform : Type := mk_platform {
  wall_clock : nat -> datetime;
  serpapi : nat -> string -> Z -> SerpApi.response;
  md5_hexdigest : string -> string;
  markup_error : string -> bool;
  open_error : string -> option exn
}.

(** The part that changes: clock readings and requests made so far, and
    the files written. *)
Record world : Type := mk_world {
  ticks : nat;
  requests : nat;
  files : gmap string file
}.

(** [datetime.now()] *)
Definition datetime_now (p : platform) (w : world) : datetime * world :=
  (wall_clock p (ticks w), mk_world (S (ticks w)) (requests w) (files w)).

(** [session.get(SERPAPI_BASE_URL, params)] followed by [response.json()] *)
Definition http_get (p : platform) (w : world) (q : string) (start : Z)
  : SerpApi.response * world :=
  (serpapi p (requests w) q start,
   mk_world (ticks w) (S (requests w)) (files w)).

Definition write_file (w : world) (path : string) (f : file) : world :=
  mk_world (ticks w) (requests w) (<[path := f]> (files w)).

(** [console.print(text)] with Rich's markup on: MarkupError when the
    renderer refuses the text. *)
Definition console_print (p : platform) (text : string) : result unit :=
  if markup_error p text then Raise MarkupError else Ok tt.

(** [open(path, "w")]: the exception of the platform when the file cannot
    be opened (FileNotFoundError for a directory that does not exist, the
    plain OSError of a name that is too long, and so on). *)
Definition open_for_writing (p : platform) (path : string) : result unit :=
  match open_error p path with
  | Some e => Raise e
  | None => Ok tt
  end.

(** ** Dates as text *)

Module DateTime.

Local Open Scope string_scope.
Local Open Scope Z_scope.

Definition is_leap (y : Z) : bool :=
  ((y mod 4 =? 0) && negb (y mod 100 =? 0)) || (y mod 400 =? 0).

Definition days_in_month (y m : Z) : Z :=
  if m =? 2 then (if is_leap y then 29 else 28)
  else if (m =? 4) || (m =? 6) || (m =? 9) || (m =? 11) then 30
  else 31.

(** The ranges the [datetime] constructor enforces. *)
Definition valid (d : datetime) : bool :=
  (1 <=? year d) && (year d <=? 9999)
  && (1 <=? month d) && (month d <=? 12)
  && (1 <=? day d) && (day d <=? days_in_month (year d) (month d))
  && (0 <=? hour d) && (hour d <=? 23)
  && (0 <=? minute d) && (minute d <=? 59)
  && (0 <=? second d) && (second d <=? 59)
  && (0 <=? microsecond d) && (microsecond d <=? 999999).

(** [width] decimal digits of [n], most significant first. *)
Fixpoint digits (width : nat) (n : Z) : string :=
  match width with
  | O => EmptyString
  | S w => String (digit (n / 10 ^ Z.of_nat w)) (digits w (n mod 10 ^ Z.of_nat w))
  end.

(** [d.isoformat()] *)
Definition isoformat (d : datetime) : string :=
  digits 4 (year d) ++ "-" ++ digits 2 (month d) ++ "-" ++ digits 2 (day d)
  ++ "T" ++ digits 2 (hour d) ++ ":" ++ digits 2 (minute d)
  ++ ":" ++ digits 2 (second d)
  ++ (if microsecond d =? 0 then "" else "." ++ digits 6 (microsecond d)).

(** [d.strftime("%Y%m%d_%H%M%S")], for a year of four digits (whether a
    shorter one is padded depends on the C library). *)
Definition strftime_compact (d : datetime) : string :=
  digits 4 (year d) ++ digits 2 (month d) ++ digits 2 (day d) ++ "_"
  ++ digits 2 (hour d) ++ digits 2 (minute d) ++ digits 2 (second d).

Definition digit_value (c : ascii) : option Z :=
  if ((48 <=? code c) && (code c <=? 57))%N
  then Some (Z.of_N (code c) - 48) else None.

(** Reads [width] digits off the front of [s]. *)
Fixpoint read_digits (width : nat) (acc : Z) (s : string) : option (Z * string) :=
  match width with
  | O => Some (acc, s)
  | S w =>
      match s with
      | String c r =>
          match digit_value c with
          | Some v => read_digits w (acc * 10 + v) r
          | None => None
          end
      | EmptyString => None
      end
  end.

Definition read_char (c : ascii) (s : string) : option string :=
  match s with
  | String c' r => if Ascii.eqb c c' then Some r else None
  | EmptyString => None
  end.

(** The fraction of a second: nothing, or a dot and six digits. *)
Definition read_fraction (s : string) : option Z :=
  match s with
  | EmptyString => Some 0
  | _ =>
      s ← read_char "." s;
      '(us, s) ← read_digits 6 0 s;
      if String.eqb s EmptyString then Some us else None
  end.

Definition parse (s : string) : option datetime :=
  '(y, s) ← read_digits 4 0 s; s ← read_char "-" s;
  '(mo, s) ← read_digits 2 0 s; s ← read_char "-" s;
  '(d, s) ← read_digits 2 0 s; s ← read_char "T" s;
  '(h, s) ← read_digits 2 0 s; s ← read_char ":" s;
  '(mi, s) ← read_digits 2 0 s; s ← read_char ":" s;
  '(sec, s) ← read_digits 2 0 s;
  us ← read_fraction s;
  Some (mk_datetime y mo d h mi sec us).

(** [datetime.fromisoformat(s)] on the two shapes [isoformat] writes;
    ValueError on any other text and on a date out of range. *)
Definition fromisoformat (s : string) : result datetime :=
  match parse s with
  | Some d =>
      if valid d then Ok d
      else Raise (ValueError "Invalid isoformat string")
  | None => Raise (ValueError "Invalid isoformat string")
  end.

End DateTime.

(** ** Operations on JSON values *)

Module Json.

Local Open Scope string_scope.
Local Open Scope Z_scope.

(** Look-up in an object; its keys are distinct. *)
Fixpoint dict_get (key : string) (entries : list (string * json)) : option json :=
  match entries with
  | [] => None
  | (k, v) :: rest => if String.eqb k key then Some v else dict_get key rest
  end.

(** [d.get(key, fallback)]: AttributeError unless [d] is an object. *)
Definition get (d : json) (key : string) (fallback : json) : result json :=
  match d with
  | JDict entries => Ok (default fallback (dict_get key entries))
  | _ => Raise AttributeError
  end.

(** [for x in v]: the items of a list, the keys of an object, the
    characters of a string; TypeError on anything else. *)
Definition iter (v : json) : result (list json) :=
  match v with
  | JList items => Ok items
  | JDict entries => Ok (List.map (fun e => JStr (fst e)) entries)
  | JStr s =>
      Ok (List.map (fun c => JStr (String c EmptyString)) (list_ascii_of_string s))
  | _ => Raise TypeError
  end.

(** [bool(v)] *)
Definition truthy (v : json) : bool :=
  match v with
  | JNull => false
  | JBool b => b
  | JInt n => negb (n =? 0)
  | JFloat x => PyFloat.truthy x
  | JStr s => PyStr.truthy s
  | JList items => match items with [] => false | _ => true end
  | JDict entries => match entries with [] => false | _ => true end
  end.

Definition of_opt_str (o : option string) : json :=
  match o with Some s => JStr s | None => JNull end.
Definition of_opt_float (o : option float) : json :=
  match o with Some x => JFloat x | None => JNull end.
(** A [datetime] goes through the [default=serialize] hook of [json.dump]. *)
Definition of_opt_datetime (o : option datetime) : json :=
  match o with Some d => JStr (DateTime.isoformat d) | None => JNull end.

(** A field of a declared type.  The dataclasses do not check their
    arguments; a value of another type than the declared one has no
    counterpart in the typed records here and is refused with TypeError. *)
Definition as_str (v : json) : result string :=
  match v with JStr s => Ok s | _ => Raise TypeError end.
Definition as_int (v : json) : result Z :=
  match v with JInt n => Ok n | _ => Raise TypeError end.
Definition as_opt_str (v : json) : result (option string) :=
  match v with JStr s => Ok (Some s) | JNull => Ok None | _ => Raise TypeError end.
Definition as_opt_float (v : json) : result (option float) :=
  match v with JFloat x => Ok (Some x) | JNull => Ok None | _ => Raise TypeError end.

(** No int of the document has more than 4300 digits. *)
Fixpoint dumpable (v : json) : bool :=
  match v with
  | JInt n => negb (too_long n)
  | JList items => forallb dumpable items
  | JDict entries => forallb (fun e => dumpable (snd e)) entries
  | _ => true
  end.

(** [json.dump(doc, f)] on the file opened at [path]: an int is written as
    [repr] writes it, so the call raises ValueError for an int of more than
    4300 digits.  (The file it has begun is then left cut short; a call that
    raises returns no world here.) *)
Definition dump (w : world) (path : string) (doc : json) : result world :=
  if dumpable doc then Ok (write_file w path (JsonFile doc))
  else Raise (ValueError int_too_long_message).

End Json.

(** [[f(x) for x in xs]] when [f] can raise. *)
Fixpoint map_result {A B} (f : A -> result B) (xs : list A) : result (list B) :=
  match xs with
  | [] => Ok []
  | x :: rest =>
      y ← f x;
      ys ← map_result f rest;
      Ok (y :: ys)
  end.

(** [DATA_DIR / filename] and [OUTPUT_DIR / filename], for a relative name. *)
Definition DATA_DIR : string := "data".
Definition OUTPUT_DIR : string := "output".
Definition path_join (dir filename : string) : string :=
  (dir ++ "/" ++ filename)%string.

(** [if not filename]: the name given, or one made from the clock. *)
Definition default_filename (p : platform) (w : world)
    (filename : option string) (stem extension : string) : string * world :=
  match filename with
  | Some f =>
      if PyStr.truthy f then (f, w)
      else let '(now, w) := datetime_now p w in
           ((stem ++ DateTime.strftime_compact now ++ extension)%string, w)
  | None =>
      let '(now, w) := datetime_now p w in
      ((stem ++ DateTime.strftime_compact now ++ extension)%string, w)
  end.

(** ** The collector ([src/scraper/maps_scraper.py]) *)

Module GoogleMapsScraper.

Local Open Scope string_scope.
Local Open Scope Z_scope.

Record t : Type := mk {
  api_key : option string;
  results_cache : gmap string (list Business.t)
}.

(** [__init__]: [api_key or config.serpapi_key], and an empty cache. *)
Definition init (api_key serpapi_key : option string) : t :=
  mk (match api_key with
      | Some k => if PyStr.truthy k then Some k else serpapi_key
      | None => serpapi_key
      end) ∅.

(** [not self.api_key] *)
Definition no_api_key (self : t) : bool :=
  match api_key self with
  | Some k => negb (PyStr.truthy k)
  | None => true
  end.

(** [SearchQuery.search_string] *)
Definition search_string (query location : string) : string :=
  query ++ " in " ++ location.

Definition cache_key (query location : string) : string :=
  query ++ ":" ++ location.

Definition demo_review (rating : Z) (text : string) : Review.t :=
  Review.mk rating text None None.

Definition _get_demo_reviews (negative : bool) : list Review.t :=
  if negative then
    [ demo_review 1 "Terrible service! They never showed up on time and the work was sloppy.";
      demo_review 2 "Overpriced and unprofessional. Would not recommend.";
      demo_review 2 "Communication was awful. Had to call multiple times to get updates.";
      demo_review 3 "Average work, but too expensive for what you get.";
      demo_review 1 "They damaged my property and refused to take responsibility." ]
  else
    [ demo_review 5 "Excellent service! Professional and on time.";
      demo_review 4 "Good work, fair prices. Would use again.";
      demo_review 5 "Best in the area. Highly recommend!";
      demo_review 4 "Quality work, though scheduling took a while.";
      demo_review 5 "Transformed my space. Very happy with the results." ].

(** [location.split(",")[0]] *)
Definition demo_city (location : string) : string :=
  PyStr.first (split_on "," location).

(** [location.split(",")[1].strip() if "," in location else "NC"] *)
Definition demo_state (location : string) : string :=
  if contains "," location
  then strip (List.nth 1 (split_on "," location) "")
  else "NC".

(** One [Business(...)] of the fixture; [scraped_at] is read off the clock
    when the object is built. *)
Definition demo_business (p : platform) (w : world)
    (name place_id query address location : string)
    (phone website : option string) (rating : float) (review_count : Z)
    (negative : bool) : Business.t * world :=
  let '(now, w) := datetime_now p w in
  (Business.mk name place_id query address
     (demo_city location) (demo_state location)
     None None None phone website (Some rating) review_count
     (_get_demo_reviews negative) now, w).

Definition _get_demo_data (p : platform) (w : world) (query location : string)
  : list Business.t * world :=
  let '(b1, w) :=
    demo_business p w ("Pro " ++ title query ++ " Services") "demo_1" query
      "123 Main St" location (Some "(555) 123-4567")
      (Some "https://example.com") f4_2 47 false in
  let '(b2, w) :=
    demo_business p w ("Budget " ++ title query ++ " Co") "demo_2" query
      "456 Oak Ave" location (Some "(555) 234-5678") None f3_1 23 true in
  let '(b3, w) :=
    demo_business p w ("Elite " ++ title query) "demo_3" query
      "789 Pine Rd" location (Some "(555) 345-6789")
      (Some "https://elite-example.com") f4_8 156 false in
  let '(b4, w) :=
    demo_business p w ("Local " ++ title query ++ " Experts") "demo_4" query
      "321 Elm St" location None None f2_9 12 true in
  let '(b5, w) :=
    demo_business p w ("Family " ++ title query ++ " Service") "demo_5" query
      "654 Maple Dr" location (Some "(555) 456-7890") None f4_5 89 false in
  ([b1; b2; b3; b4; b5], w).

Definition _parse_location (address default_location : string)
  : string * string :=
  let parts := split_on "," default_location in
  let default_city :=
    match parts with
    | p0 :: _ => strip p0
    | [] => "Unknown"
    end in
  let default_state :=
    if len parts >? 1 then strip (List.nth 1 parts "") else "Unknown" in
  let addr_parts := split_on "," address in
  if len addr_parts >=? 2 then
    let city := strip (List.nth (length addr_parts - 2)%nat addr_parts "") in
    let state_zip := split (strip (List.last addr_parts "")) in
    let state :=
      match state_zip with
      | s0 :: _ => s0
      | [] => default_state
      end in
    (city, state)
  else (default_city, default_state).

(** [_parse_result]: [None] for an entry that makes the parsing raise. *)
Definition _parse_result (p : platform) (w : world)
    (result : SerpApi.listing) (location : string)
  : option Business.t * world :=
  match result with
  | SerpApi.Malformed => (None, w)
  | SerpApi.Listing r =>
      let address := default "" (SerpApi.address r) in
      let '(city, state) := _parse_location address location in
      let gps := SerpApi.gps_coordinates r in
      let '(now, w) := datetime_now p w in
      (Some (Business.mk
               (default "Unknown" (SerpApi.title r))
               (default (md5_hexdigest p (default "" (SerpApi.title r)))
                        (SerpApi.place_id r))
               (default "Unknown" (SerpApi.type r))
               address city state None
               (gps ≫= SerpApi.latitude) (gps ≫= SerpApi.longitude)
               (SerpApi.phone r) (SerpApi.website r) (SerpApi.rating r)
               (default 0 (SerpApi.reviews r)) [] now), w)
  end.

(** The [for result in local_results] loop: the businesses appended. *)
Fixpoint parse_results (p : platform) (w : world)
    (local_results : list SerpApi.listing) (location : string)
  : list Business.t * world :=
  match local_results with
  | [] => ([], w)
  | result :: rest =>
      let '(business, w) := _parse_result p w result location in
      let '(parsed, w) := parse_results p w rest location in
      (match business with
       | Some b => b :: parsed
       | None => parsed
       end, w)
  end.

(** The [while len(businesses) < max_results] loop; [None] when [fuel]
    iterations were not enough to leave it. *)
Fixpoint search_pages (fuel : nat) (p : platform) (w : world)
    (query location : string) (max_results : Z)
    (businesses : list Business.t) (start : Z)
  : option (list Business.t * world) :=
  match fuel with
  | O => None
  | S fuel =>
      if len businesses <? max_results then
        let '(response, w) := http_get p w (search_string query location) start in
        match response with
        | SerpApi.Failed => Some (businesses, w)
        | SerpApi.Page [] => Some (businesses, w)
        | SerpApi.Page local_results =>
            let '(parsed, w) := parse_results p w local_results location in
            let businesses := (businesses ++ parsed)%list in
            if len local_results <? 20 then Some (businesses, w)
            else search_pages fuel p w query location max_results
                              businesses (start + 20)
        end
      else Some (businesses, w)
  end.

(** [search]: the list returned, the collector and the world afterwards. *)
Definition search (fuel : nat) (p : platform) (self : t) (w : world)
    (query location : string) (max_results : Z)
  : option (list Business.t * t * world) :=
  let key := cache_key query location in
  match results_cache self !! key with
  | Some cached => Some (cached, self, w)
  | None =>
      if no_api_key self then
        let '(demo, w) := _get_demo_data p w query location in
        Some (demo, self, w)
      else
        '(businesses, w) ← search_pages fuel p w query location max_results [] 0;
        let capped := slice_to businesses max_results in
        Some (capped,
              mk (api_key self) (<[key := capped]> (results_cache self)), w)
  end.

(** [asdict(review)], as [json.dump] writes it. *)
Definition asdict_review (r : Review.t) : json :=
  JDict [ ("rating", JInt (Review.rating r));
          ("text", JStr (Review.text r));
          ("date", Json.of_opt_datetime (Review.date r));
          ("author", Json.of_opt_str (Review.author r)) ].

(** [asdict(b)], as [json.dump] writes it: the fields in declaration order. *)
Definition asdict_business (b : Business.t) : json :=
  JDict [ ("name", JStr (Business.name b));
          ("place_id", JStr (Business.place_id b));
          ("category", JStr (Business.category b));
          ("address", JStr (Business.address b));
          ("city", JStr (Business.city b));
          ("state", JStr (Business.state b));
          ("zip_code", Json.of_opt_str (Business.zip_code b));
          ("latitude", Json.of_opt_float (Business.latitude b));
          ("longitude", Json.of_opt_float (Business.longitude b));
          ("phone", Json.of_opt_str (Business.phone b));
          ("website", Json.of_opt_str (Business.website b));
          ("rating", Json.of_opt_float (Business.rating b));
          ("review_count", JInt (Business.review_count b));
          ("reviews", JList (List.map asdict_review (Business.reviews b)));
          ("scraped_at", JStr (DateTime.isoformat (Business.scraped_at b))) ].

(** The text of the last line of [save_results]. *)
Definition saved_message (count filepath : string) : string :=
  "[green]✓ Saved " ++ count ++ " businesses to " ++ filepath ++ "[/green]".

(** [save_results]: the path written, and the world with the file in it.
    The file is opened, the document is written, and the path is printed. *)
Definition save_results (p : platform) (w : world)
    (businesses : list Business.t) (filename : option string)
  : result (string * world) :=
  let '(filename, w) := default_filename p w filename "scrape_" ".json" in
  let filepath := path_join DATA_DIR filename in
  let '(now, w) := datetime_now p w in
  let data :=
    JDict [ ("scraped_at", JStr (DateTime.isoformat now));
            ("count", JInt (len businesses));
            ("businesses", JList (List.map asdict_business businesses)) ] in
  _ ← open_for_writing p filepath;
  w ← Json.dump w filepath data;
  count ← str_of_int (len businesses);
  _ ← console_print p (saved_message count filepath);
  Ok (filepath, w).

End GoogleMapsScraper.

(** ** The scorer ([src/analyzer/opportunity_scorer.py]) *)

Module OpportunityAnalyzer.

Local Open Scope string_scope.
Local Open Scope Z_scope.

Record t : Type := mk { businesses : list Business.t }.

Definition COMPLAINT_KEYWORDS : list string :=
  [ "late"; "never showed"; "no show"; "unprofessional"; "rude";
    "expensive"; "overpriced"; "ripoff"; "rip off"; "scam";
    "poor quality"; "sloppy"; "messy"; "damaged"; "broke";
    "no response"; "didn't return"; "ignored"; "ghosted";
    "took forever"; "slow"; "delayed"; "waited";
    "wouldn't recommend"; "avoid"; "terrible"; "worst";
    "miscommunication"; "wrong"; "mistake"; "error" ].

Definition COMPLAINT_THEMES : list (string * list string) :=
  [ ("reliability", [ "late"; "never showed"; "no show"; "didn't show";
                      "took forever"; "slow"; "delayed"; "waited" ]);
    ("professionalism", [ "unprofessional"; "rude"; "ignored"; "ghosted";
                          "no response"; "didn't return" ]);
    ("pricing", [ "expensive"; "overpriced"; "ripoff"; "rip off"; "scam";
                  "too much" ]);
    ("quality", [ "poor quality"; "sloppy"; "messy"; "damaged"; "broke";
                  "wrong"; "mistake" ]);
    ("communication", [ "miscommunication"; "no response"; "didn't call";
                        "no update"; "couldn't reach" ]) ].

(** The inner [for sentence in sentences] loop with its [break]. *)
Definition first_sentence_with (keyword : string) (sentences : list string)
  : option string :=
  strip <$> List.find (fun sentence => contains keyword (lower sentence)) sentences.

Definition _extract_complaints (text : string) : list string :=
  let text_lower := lower text in
  List.flat_map
    (fun keyword =>
       if contains keyword text_lower
       then match first_sentence_with keyword (split_on "." text) with
            | Some sentence => [sentence]
            | None => []
            end
       else [])
    COMPLAINT_KEYWORDS.

(** [set(c.lower().split())] *)
Definition word_set (c : string) : gset string := list_to_set (split (lower c)).

(** [len(c_words & existing_words) / max(len(c_words | existing_words), 1)] *)
Definition overlap (c_words existing_words : gset string) : result float :=
  int_true_divide (Z.of_nat (size (c_words ∩ existing_words)))
                  (Z.max (Z.of_nat (size (c_words ∪ existing_words))) 1).

(** The [for existing in unique] loop: [is_duplicate] when it ends. *)
Fixpoint is_duplicate (c_words : gset string) (unique : list string)
  : result bool :=
  match unique with
  | [] => Ok false
  | existing :: rest =>
      o ← overlap c_words (word_set existing);
      if PyFloat.gtb o f0_5 then Ok true else is_duplicate c_words rest
  end.

(** The [for c in complaints] loop: [unique] when it ends. *)
Fixpoint dedup_loop (complaints unique : list string) : result (list string) :=
  match complaints with
  | [] => Ok unique
  | c :: rest =>
      dup ← is_duplicate (word_set c) unique;
      dedup_loop rest (if dup : bool then unique else (unique ++ [c])%list)
  end.

Definition _get_top_complaints (complaints : list string) (limit : Z)
  : result (list string) :=
  unique ← dedup_loop complaints [];
  Ok (slice_to unique limit).

(** A [collections.Counter] keeps its keys in insertion order. *)
Fixpoint counter_incr (key : string) (counts : list (string * Z))
  : list (string * Z) :=
  match counts with
  | [] => [(key, 1)]
  | (k, n) :: rest =>
      if String.eqb k key then (k, n + 1) :: rest
      else (k, n) :: counter_incr key rest
  end.

(** [most_common()]: a stable sort by decreasing count. *)
Fixpoint insert_by_count (x : string * Z) (sorted : list (string * Z))
  : list (string * Z) :=
  match sorted with
  | [] => [x]
  | y :: rest =>
      if snd y <=? snd x then x :: y :: rest
      else y :: insert_by_count x rest
  end.
Definition most_common (counts : list (string * Z)) : list (string * Z) :=
  List.fold_right insert_by_count [] counts.

Definition _categorize_complaints (complaints : list string) : list string :=
  let theme_counts :=
    List.fold_left
      (fun counts complaint =>
         let complaint_lower := lower complaint in
         List.fold_left
           (fun counts '(theme, keywords) =>
              if existsb (fun kw => contains kw complaint_lower) keywords
              then counter_incr theme counts
              else counts)
           COMPLAINT_THEMES counts)
      complaints [] in
  List.map fst (most_common theme_counts).

(** [sum(xs)] over floats, from the int [0]: the additions are made from
    left to right, each one rounded.  (An interpreter that compensates the
    rounding errors of [sum] can differ in the last bits; no statement below
    depends on the value of the sum.) *)
Definition sum_floats (xs : list float) : float :=
  List.fold_left PyFloat.add xs PyFloat.zero.

(** [b.rating and ...]: a rating that is neither [None] nor zero. *)
Definition rating_truthy (b : Business.t) : option float :=
  match Business.rating b with
  | Some r => if PyFloat.truthy r then Some r else None
  | None => None
  end.

Definition is_low_rated (b : Business.t) : bool :=
  match rating_truthy b with
  | Some r => PyFloat.ltb r f4_0
  | None => false
  end.

(** [not b.website] *)
Definition lacks_website (b : Business.t) : bool :=
  match Business.website b with
  | Some w => negb (PyStr.truthy w)
  | None => true
  end.

(** [sum(1 for b in bs if p(b))] *)
Definition count_if {A} (p : A -> bool) (xs : list A) : Z :=
  len (List.filter p xs).

(** The [avg_rating] expression of [analyze]. *)
Definition mean_rating (ratings : list float) : result float :=
  match ratings with
  | [] => Ok PyFloat.zero
  | _ => float_truediv_int (sum_floats ratings) (Z.max (len ratings) 1)
  end.

Definition no_businesses_message : string :=
  "No businesses loaded. Call load_data() first.".

(** The text [analyze] prints before it computes anything. *)
Definition analyzing_message (category location : string) : string :=
  nl ++ "[blue]Analyzing opportunity for:[/blue] " ++ category ++ " in "
     ++ location ++ nl.

Definition analyze (p : platform) (self : t) (category location : string)
  : result OpportunityScore.t :=
  match businesses self with
  | [] => Raise (ValueError no_businesses_message)
  | _ =>
      _ ← console_print p (analyzing_message category location);
      let bs := businesses self in
      let total_businesses := len bs in
      let total_reviews := sum_ints (List.map Business.review_count bs) in
      avg_reviews_per_business ←
        int_true_divide total_reviews (Z.max total_businesses 1);
      let ratings := omap rating_truthy bs in
      avg_rating ← mean_rating ratings;
      let low_rated_businesses := count_if is_low_rated bs in
      let businesses_without_website := count_if lacks_website bs in
      let all_complaints :=
        List.flat_map
          (fun biz =>
             List.flat_map (fun review => _extract_complaints (Review.text review))
                           (Business.negative_reviews biz))
          bs in
      common_complaints ← _get_top_complaints all_complaints 10;
      let complaint_themes := _categorize_complaints all_complaints in
      let score :=
        OpportunityScore.mk category location total_businesses total_reviews
          avg_reviews_per_business avg_rating low_rated_businesses
          businesses_without_website 0 PyFloat.zero
          common_complaints complaint_themes 0 in
      '(_, score) ← OpportunityScore.calculate_score score;
      Ok score
  end.

(** [Review(rating=r.get("rating", 3), text=r.get("text", ""),
    author=r.get("author"))] *)
Definition load_review (r : json) : result Review.t :=
  rating ← Json.get r "rating" (JInt 3);
  text ← Json.get r "text" (JStr "");
  author ← Json.get r "author" JNull;
  rating ← Json.as_int rating;
  text ← Json.as_str text;
  author ← Json.as_opt_str author;
  Ok (Review.mk rating text None author).

Definition BUSINESS_FIELDS : list string :=
  [ "name"; "place_id"; "category"; "address"; "city"; "state"; "zip_code";
    "latitude"; "longitude"; "phone"; "website"; "rating"; "review_count";
    "reviews"; "scraped_at" ].

(** A keyword argument without a default: TypeError when it is missing. *)
Definition required {A} (entries : list (string * json)) (key : string)
    (coerce : json -> result A) : result A :=
  match Json.dict_get key entries with
  | Some v => coerce v
  | None => Raise TypeError
  end.

(** A keyword argument with a default. *)
Definition optional {A} (entries : list (string * json)) (key : string)
    (coerce : json -> result A) (fallback : A) : result A :=
  match Json.dict_get key entries with
  | Some v => coerce v
  | None => Ok fallback
  end.

(** The body of the [for biz_data in ...] loop: the reviews are converted,
    [scraped_at] is parsed when it is a string, and the [Business] is built
    with the entries of [biz_data] as keyword arguments; an unknown key is
    a TypeError, and a missing [scraped_at] is read off the clock by the
    dataclass. *)
Definition load_business (p : platform) (w : world) (biz_data : json)
  : result (Business.t * world) :=
  reviews_json ← Json.get biz_data "reviews" (JList []);
  items ← Json.iter reviews_json;
  reviews ← map_result load_review items;
  let entries := match biz_data with JDict es => es | _ => [] end in
  scraped ←
    match Json.dict_get "scraped_at" entries with
    | Some (JStr s) => d ← DateTime.fromisoformat s; Ok (Some d)
    | Some _ => Raise TypeError
    | None => Ok None
    end;
  if negb (forallb (fun e => mem (fst e) BUSINESS_FIELDS) entries)
  then Raise TypeError
  else
    name ← required entries "name" Json.as_str;
    place_id ← required entries "place_id" Json.as_str;
    category ← required entries "category" Json.as_str;
    address ← required entries "address" Json.as_str;
    city ← required entries "city" Json.as_str;
    state ← required entries "state" Json.as_str;
    zip_code ← optional entries "zip_code" Json.as_opt_str None;
    latitude ← optional entries "latitude" Json.as_opt_float None;
    longitude ← optional entries "longitude" Json.as_opt_float None;
    phone ← optional entries "phone" Json.as_opt_str None;
    website ← optional entries "website" Json.as_opt_str None;
    rating ← optional entries "rating" Json.as_opt_float None;
    review_count ← optional entries "review_count" Json.as_int 0;
    let '(scraped_at, w) :=
      match scraped with
      | Some d => (d, w)
      | None => datetime_now p w
      end in
    Ok (Business.mk name place_id category address city state zip_code
          latitude longitude phone website rating review_count reviews
          scraped_at, w).

(** The [for biz_data in data.get("businesses", [])] loop. *)
Fixpoint load_businesses (p : platform) (w : world) (items : list json)
  : result (list Business.t * world) :=
  match items with
  | [] => Ok ([], w)
  | biz_data :: rest =>
      '(b, w) ← load_business p w biz_data;
      '(bs, w) ← load_businesses p w rest;
      Ok (b :: bs, w)
  end.

(** [load_data]: the list returned, the analyzer holding it, the world. *)
Definition load_data (p : platform) (w : world) (self : t) (filepath : string)
  : result (list Business.t * t * world) :=
  match files w !! filepath with
  | Some (JsonFile data) =>
      listed ← Json.get data "businesses" (JList []);
      items ← Json.iter listed;
      '(businesses, w) ← load_businesses p w items;
      Ok (businesses, mk businesses, w)
  | Some (CsvFile _ _) => Raise (ValueError "not a JSON document")
  | None => Raise FileNotFoundError
  end.


(** [asdict(score)], as [json.dump] writes it.  The float fields are
    written as floats; a run in which no business has a rating stores the
    int [0] in [avg_rating], which the record here holds as the float 0.0
    it is equal to. *)
Definition asdict_score (score : OpportunityScore.t) : json :=
  JDict [ ("category", JStr (OpportunityScore.category score));
          ("location", JStr (OpportunityScore.location score));
          ("total_businesses", JInt (OpportunityScore.total_businesses score));
          ("total_reviews", JInt (OpportunityScore.total_reviews score));
          ("avg_reviews_per_business",
           JFloat (OpportunityScore.avg_reviews_per_business score));
          ("avg_rating", JFloat (OpportunityScore.avg_rating score));
          ("low_rated_businesses",
           JInt (OpportunityScore.low_rated_businesses score));
          ("businesses_without_website",
           JInt (OpportunityScore.businesses_without_website score));
          ("reviews_last_30_days",
           JInt (OpportunityScore.reviews_last_30_days score));
          ("review_velocity", JFloat (OpportunityScore.review_velocity score));
          ("common_complaints",
           JList (List.map JStr (OpportunityScore.common_complaints score)));
          ("complaint_themes",
           JList (List.map JStr (OpportunityScore.complaint_themes score)));
          ("opportunity_score", JInt (OpportunityScore.opportunity_score score)) ].

(** The text of the last line of [save_analysis]. *)
Definition analysis_saved_message (filepath : string) : string :=
  nl ++ "[green]✓ Analysis saved to " ++ filepath ++ "[/green]".

(** [save_analysis]: the path written, and the world with the file in it.
    Without a file name, the name is made of the category, with every
    character that is no letter, digit, "_" or "-" replaced by "_", and of
    the time.  The file is opened, the document is written, and the path
    is printed. *)
Definition save_analysis (p : platform) (w : world)
    (score : OpportunityScore.t) (filename : option string)
  : result (string * world) :=
  let '(filename, w) :=
    default_filename p w filename
      ("analysis_" ++ sub_non_word (OpportunityScore.category score) ++ "_")
      ".json" in
  let filepath := path_join OUTPUT_DIR filename in
  _ ← open_for_writing p filepath;
  w ← Json.dump w filepath (asdict_score score);
  _ ← console_print p (analysis_saved_message filepath);
  Ok (filepath, w).


End OpportunityAnalyzer.

(** ** The content planner ([src/content/newsletter_generator.py]) *)

(** The dataclasses of the planner, and the entries of its e-mail lists. *)
Module ContentIdea.

Record t : Type := mk {
  title : string;
  content_type : string;
  hook : string;
  key_points : list string;
  target_audience : string;
  call_to_action : string;
  source_complaint : option string
}.

End ContentIdea.

(** An entry of [EMAIL_SEQUENCE_TEMPLATES]: its subject is a [str.format]
    template in the fields [niche] and [location], kept as the function of
    the two that [format] computes. *)
Module EmailTemplate.

Record t : Type := mk {
  subject : string -> string -> string;
  purpose : string;
  day : Z
}.

End EmailTemplate.

(** An entry of [plan.email_sequence]. *)
Module Email.

Record t : Type := mk {
  day : Z;
  subject : string;
  purpose : string;
  preview : string
}.

End Email.

Module NewsletterPlan.

Record t : Type := mk {
  niche : string;
  location : string;
  tagline : string;
  ideas : list ContentIdea.t;
  email_sequence : list Email.t;
  social_posts : list string
}.

End NewsletterPlan.

Module ContentGenerator.

Local Open Scope string_scope.

Record t : Type := mk { score : option OpportunityScore.t }.

Definition pricing_tagline (niche location : string) : string :=
  "Save Money on " ++ niche ++ " in " ++ location.
Definition reliability_tagline (niche location : string) : string :=
  "Find Reliable " ++ niche ++ " in " ++ location.
Definition quality_tagline (niche location : string) : string :=
  "Quality " ++ niche ++ " in " ++ location ++ " - The Insider Guide".
(** [taglines[0]] *)
Definition default_tagline (niche location : string) : string :=
  "The " ++ location ++ " " ++ niche ++ " Insider".

Definition _generate_tagline (self : t) : result string :=
  match score self with
  | None => Raise AttributeError
  | Some score =>
      let niche := title (OpportunityScore.category score) in
      let location :=
        PyStr.first (split_on "," (OpportunityScore.location score)) in
      let taglines :=
        [ default_tagline niche location;
          niche ++ " Tips for " ++ location ++ " Homeowners";
          "Your " ++ location ++ " " ++ niche ++ " Guide";
          "The Smart " ++ location ++ " " ++ niche ++ " Newsletter" ] in
      if mem "pricing" (OpportunityScore.complaint_themes score)
      then Ok (pricing_tagline niche location)
      else if mem "reliability" (OpportunityScore.complaint_themes score)
      then Ok (reliability_tagline niche location)
      else if mem "quality" (OpportunityScore.complaint_themes score)
      then Ok (quality_tagline niche location)
      else Ok (PyStr.first taglines)
  end.

(** A field of type [float] or [List[str]], read as the other typed
    fields are. *)
Definition as_float (v : json) : result float :=
  match v with JFloat x => Ok x | _ => Raise TypeError end.
Definition as_str_list (v : json) : result (list string) :=
  match v with
  | JList items => map_result Json.as_str items
  | _ => Raise TypeError
  end.

Definition SCORE_FIELDS : list string :=
  [ "category"; "location"; "total_businesses"; "total_reviews";
    "avg_reviews_per_business"; "avg_rating"; "low_rated_businesses";
    "businesses_without_website"; "reviews_last_30_days"; "review_velocity";
    "common_complaints"; "complaint_themes"; "opportunity_score" ].

(** The call of the dataclass with the entries of [data] as keyword
    arguments: an unknown key or a missing [category] or [location] is a
    TypeError, as is a document that is no object. *)
Definition load_score (data : json) : result OpportunityScore.t :=
  match data with
  | JDict entries =>
      if negb (forallb (fun e => mem (fst e) SCORE_FIELDS) entries)
      then Raise TypeError
      else
        category ← OpportunityAnalyzer.required entries "category" Json.as_str;
        location ← OpportunityAnalyzer.required entries "location" Json.as_str;
        total_businesses ←
          OpportunityAnalyzer.optional entries "total_businesses" Json.as_int 0%Z;
        total_reviews ←
          OpportunityAnalyzer.optional entries "total_reviews" Json.as_int 0%Z;
        avg_reviews_per_business ←
          OpportunityAnalyzer.optional entries "avg_reviews_per_business"
            as_float PyFloat.zero;
        avg_rating ←
          OpportunityAnalyzer.optional entries "avg_rating" as_float PyFloat.zero;
        low_rated_businesses ←
          OpportunityAnalyzer.optional entries "low_rated_businesses" Json.as_int 0%Z;
        businesses_without_website ←
          OpportunityAnalyzer.optional entries "businesses_without_website"
            Json.as_int 0%Z;
        reviews_last_30_days ←
          OpportunityAnalyzer.optional entries "reviews_last_30_days" Json.as_int 0%Z;
        review_velocity ←
          OpportunityAnalyzer.optional entries "review_velocity"
            as_float PyFloat.zero;
        common_complaints ←
          OpportunityAnalyzer.optional entries "common_complaints" as_str_list [];
        complaint_themes ←
          OpportunityAnalyzer.optional entries "complaint_themes" as_str_list [];
        opportunity_score ←
          OpportunityAnalyzer.optional entries "opportunity_score" Json.as_int 0%Z;
        Ok (OpportunityScore.mk category location total_businesses total_reviews
              avg_reviews_per_business avg_rating low_rated_businesses
              businesses_without_website reviews_last_30_days review_velocity
              common_complaints complaint_themes opportunity_score)
  | _ => Raise TypeError
  end.

(** The text of the print of [load_analysis]. *)
Definition loaded_message (category location : string) : string :=
  "[green]âœ“ Loaded analysis for " ++ category ++ " in " ++ location
    ++ "[/green]".

(** [load_analysis]: the score returned, and the planner holding it. *)
Definition load_analysis (p : platform) (w : world) (self : t)
    (filepath : string) : result (OpportunityScore.t * t) :=
  match files w !! filepath with
  | Some (JsonFile data) =>
      score ← load_score data;
      _ ← console_print p
            (loaded_message (OpportunityScore.category score)
                            (OpportunityScore.location score));
      Ok (score, mk (Some score))
  | Some (CsvFile _ _) => Raise (ValueError "not a JSON document")
  | None => Raise FileNotFoundError
  end.

(** [_summarize_complaint]: the first of its key words that the complaint
    contains, or a stock phrase. *)
Definition SUMMARY_KEYWORDS : list string :=
  [ "late"; "never"; "expensive"; "poor"; "rude"; "slow"; "damaged" ].

Definition _summarize_complaint (complaint : string) : string :=
  match List.find (fun kw => contains kw (lower complaint)) SUMMARY_KEYWORDS with
  | Some kw => "providers being " ++ kw
  | None => "poor service quality"
  end.

(** [theme_titles.get(theme, ...)] *)
Definition theme_title (niche location theme : string) : string :=
  if String.eqb theme "reliability" then
    "How to Find a " ++ title niche ++ " Provider Who Actually Shows Up"
  else if String.eqb theme "pricing" then
    "Don't Get Overcharged: " ++ title niche ++ " Pricing in " ++ location
  else if String.eqb theme "quality" then
    "Quality Check: What Good " ++ title niche ++ " Work Looks Like"
  else if String.eqb theme "professionalism" then
    "Signs of a Professional " ++ title niche ++ " Provider"
  else if String.eqb theme "communication" then
    "Getting Straight Answers from " ++ title niche ++ " Companies"
  else title theme ++ " Issues with " ++ title niche ++ " Providers".

(** Idea 1: complaint-based content *)
Definition complaint_idea (niche location top_complaint : string) : ContentIdea.t :=
  ContentIdea.mk
      ("Why " ++ location ++ " " ++ title niche ++ " Customers Are Frustrated (And How to Avoid It)")
      ("newsletter")
      ("We analyzed hundreds of reviews. The #1 complaint? " ++ _summarize_complaint top_complaint)
      [ "What customers are really saying";
        "Red flags to watch for";
        "Questions to ask before hiring";
        "How to verify quality" ]
      (location ++ " homeowners looking for " ++ niche)
      ("Get our free vetting checklist")
      (Some top_complaint).

(** Idea 2: the buyer's guide *)
Definition buyers_guide_idea (niche location : string) : ContentIdea.t :=
  ContentIdea.mk
      ("The Complete " ++ location ++ " " ++ title niche ++ " Buyer's Guide (2025 Edition)")
      ("newsletter")
      ("Everything you need to know before hiring a " ++ niche ++ " provider in " ++ location ++ "...")
      [ "Average costs in your area";
        "What affects pricing";
        "Timeline expectations";
        "DIY vs Professional decision tree" ]
      ("First-time " ++ niche ++ " customers in " ++ location)
      ("Download our pricing calculator")
      None.

(** Idea 3: theme-based content *)
Definition theme_idea (niche location theme : string) : ContentIdea.t :=
  ContentIdea.mk
      (theme_title niche location theme)
      ("newsletter")
      (title theme ++ " is the #1 issue " ++ location ++ " customers face with " ++ niche ++ " providers...")
      [ "Why " ++ theme ++ " problems are so common";
        "Warning signs to spot early";
        "How to protect yourself";
        "What to do if things go wrong" ]
      (location ++ " residents researching " ++ niche)
      ("Join our vetted provider network")
      None.

(** Idea 4: comparison and ranking; its hook writes an int. *)
Definition ranking_idea (score : OpportunityScore.t) (niche location : string)
  : result ContentIdea.t :=
  total_reviews ← str_of_int (OpportunityScore.total_reviews score);
  Ok (ContentIdea.mk
      ("Best " ++ title niche ++ " in " ++ location ++ ": What the Reviews Really Say")
      ("newsletter")
      ("We dug through " ++ total_reviews ++ "+ reviews to find the truth about " ++ location ++ " " ++ niche ++ " providers...")
      [ "Methodology: How we ranked them";
        "Top performers breakdown";
        "Hidden gems with fewer reviews";
        "Who to avoid (and why)" ]
      ("Anyone comparing " ++ niche ++ " options in " ++ location)
      ("Get quotes from our top-rated providers")
      None).

(** Idea 5: seasonal content *)
Definition timing_idea (niche location : string) : ContentIdea.t :=
  ContentIdea.mk
      ("When to Hire a " ++ title niche ++ " in " ++ location ++ " (Timing Guide)")
      ("newsletter")
      ("The best time to book " ++ niche ++ " in " ++ location ++ " might not be when you think...")
      [ "Peak vs off-season pricing";
        "How far ahead to book";
        "Weather considerations";
        "Getting priority scheduling" ]
      ("Planning-ahead homeowners in " ++ location)
      ("Set a reminder for optimal booking time")
      None.

(** [_generate_newsletter_ideas], on the loaded score. *)
Definition newsletter_ideas (score : OpportunityScore.t)
  : result (list ContentIdea.t) :=
  let ideas := [] in
  let niche := OpportunityScore.category score in
  let location := OpportunityScore.location score in
  let ideas :=
    match OpportunityScore.common_complaints score with
    | top_complaint :: _ =>
        (ideas ++ [complaint_idea niche location top_complaint])%list
    | [] => ideas
    end in
  let ideas := (ideas ++ [buyers_guide_idea niche location])%list in
  let ideas :=
    match OpportunityScore.complaint_themes score with
    | theme :: _ => (ideas ++ [theme_idea niche location theme])%list
    | [] => ideas
    end in
  ranking ← ranking_idea score niche location;
  let ideas := (ideas ++ [ranking])%list in
  let ideas := (ideas ++ [timing_idea niche location])%list in
  Ok ideas.

(** [_generate_email_preview]: [previews.get(purpose, ...)] *)
Definition _generate_email_preview (purpose niche location : string) : string :=
  if String.eqb purpose "Welcome + deliver lead magnet" then
    "Thanks for joining! Here's your free guide to finding the best " ++ niche ++ " in " ++ location ++ "..."
  else if String.eqb purpose "Problem awareness" then
    "Most people don't realize this until it's too late. When it comes to " ++ niche ++ "..."
  else if String.eqb purpose "Social proof + tips" then
    "Sarah from " ++ location ++ " was about to make a costly mistake. Then she found our checklist..."
  else if String.eqb purpose "Conversion - directory/lead gen" then
    "Ready to get started? Here are " ++ location ++ "'s highest-rated " ++ niche ++ " providers..."
  else "More tips about " ++ niche ++ " in " ++ location ++ "...".

(** [EMAIL_SEQUENCE_TEMPLATES]; the subject is a template of
    [str.format] in [niche] and [location]. *)
Definition EMAIL_SEQUENCE_TEMPLATES : list EmailTemplate.t :=
  [ EmailTemplate.mk
      (fun niche location => "Welcome! Here's your guide to finding the best " ++ niche ++ " in " ++ location)
      "Welcome + deliver lead magnet" 0;
    EmailTemplate.mk
      (fun niche location => "The #1 mistake people make when hiring " ++ niche ++ "...")
      "Problem awareness" 2;
    EmailTemplate.mk
      (fun niche location => "Real story: How one " ++ location ++ " resident saved $500 on " ++ niche)
      "Social proof + tips" 4;
    EmailTemplate.mk
      (fun niche location => "Ready to get quotes? Here's our vetted list")
      "Conversion - directory/lead gen" 7 ].

(** [_generate_email_sequence], on the loaded score. *)
Definition email_sequence (score : OpportunityScore.t) : list Email.t :=
  let niche := OpportunityScore.category score in
  let location :=
    PyStr.first (split_on "," (OpportunityScore.location score)) in
  List.map
    (fun template =>
       Email.mk (EmailTemplate.day template)
                (EmailTemplate.subject template niche location)
                (EmailTemplate.purpose template)
                (_generate_email_preview (EmailTemplate.purpose template)
                                         niche location))
    EMAIL_SEQUENCE_TEMPLATES.

(** Post 1: a hook with the numbers *)
Definition stat_post (score : OpportunityScore.t) (niche location : string)
  : result string :=
  total_reviews ← str_of_int (OpportunityScore.total_reviews score);
  low_rated ← str_of_int (OpportunityScore.low_rated_businesses score);
  total_businesses ← str_of_int (OpportunityScore.total_businesses score);
  Ok ("ðŸ” We analyzed " ++ total_reviews ++ "+ reviews of " ++ location ++ " " ++ niche ++ " companies." ++ nl ++ nl ++ "The results? " ++ low_rated ++ " out of " ++ total_businesses ++ " have ratings below 4 stars." ++ nl ++ nl ++ "Here's what customers are saying (thread ðŸ§µ)...").

(** Post 2: the first complaint, cut at 100 characters *)
Definition complaint_post (niche location top_complaint : string) : string :=
  "ðŸ’¬ Real review from a " ++ location ++ " " ++ niche ++ " customer:" ++ nl ++ nl ++ dq ++ slice_str top_complaint 100 ++ "..." ++ dq ++ nl ++ nl ++ "Don't let this happen to you. Here's what to look for â¬‡ï¸".

(** Post 3: three questions *)
Definition tip_post (niche location : string) : string :=
  "ðŸ  Hiring " ++ niche ++ " in " ++ location ++ "?" ++ nl ++ nl ++ "Ask these 3 questions BEFORE you sign:" ++ nl ++ "1. What's included in the quote?" ++ nl ++ "2. What's your timeline?" ++ nl ++ "3. Can I see recent work photos?" ++ nl ++ nl ++ "Save this for later ðŸ“Œ".

(** Post 4: the newsletter *)
Definition promo_post (niche location : string) : string :=
  "ðŸ“§ New: The " ++ location ++ " " ++ title niche ++ " Insider" ++ nl ++ nl ++ "Weekly tips on:" ++ nl ++ "âœ… Finding reliable providers" ++ nl ++ "âœ… Avoiding overcharges" ++ nl ++ "âœ… Getting quality work" ++ nl ++ nl ++ "Free. Unsubscribe anytime." ++ nl ++ "Link in bio ðŸ‘†".

(** [_generate_social_posts], on the loaded score. *)
Definition social_posts (score : OpportunityScore.t) : result (list string) :=
  let niche := OpportunityScore.category score in
  let location :=
    PyStr.first (split_on "," (OpportunityScore.location score)) in
  let posts := [] in
  stat ← stat_post score niche location;
  let posts := (posts ++ [stat])%list in
  let posts :=
    match OpportunityScore.common_complaints score with
    | top_complaint :: _ =>
        (posts ++ [complaint_post niche location top_complaint])%list
    | [] => posts
    end in
  let posts := (posts ++ [tip_post niche location])%list in
  let posts := (posts ++ [promo_post niche location])%list in
  Ok posts.

(** A method that reads [self.score]: AttributeError when it is [None]. *)
Definition on_score {A} (self : t) (body : OpportunityScore.t -> result A)
  : result A :=
  match score self with
  | Some score => body score
  | None => Raise AttributeError
  end.

Definition _generate_newsletter_ideas (self : t) : result (list ContentIdea.t) :=
  on_score self newsletter_ideas.
Definition _generate_email_sequence (self : t) : result (list Email.t) :=
  on_score self (fun score => Ok (email_sequence score)).
Definition _generate_social_posts (self : t) : result (list string) :=
  on_score self social_posts.

Definition no_analysis_message : string :=
  "No analysis loaded. Call load_analysis() first.".

(** The text [generate_plan] prints before it builds the plan. *)
Definition generating_message (category : string) : string :=
  nl ++ "[blue]Generating content plan for:[/blue] " ++ category.

(** [generate_plan]: the category is printed, the plan is built with its
    tagline, then its three lists are assigned. *)
Definition generate_plan (p : platform) (self : t) : result NewsletterPlan.t :=
  match score self with
  | None => Raise (ValueError no_analysis_message)
  | Some score =>
      _ ← console_print p (generating_message (OpportunityScore.category score));
      tagline ← _generate_tagline self;
      ideas ← _generate_newsletter_ideas self;
      email_sequence ← _generate_email_sequence self;
      social_posts ← _generate_social_posts self;
      Ok (NewsletterPlan.mk (OpportunityScore.category score)
            (OpportunityScore.location score) tagline
            ideas email_sequence social_posts)
  end.

End ContentGenerator.

(** ** The exporter ([src/api/lead_export.py]) *)

(** The SQLite database: the [businesses] table, keyed by [place_id], and
    the [reviews] table in the order of its row ids.  The [updated_at]
    column, which SQLite fills from its own clock, and the
    [search_history] table, which nothing writes, are left out. *)
Module LeadDatabase.

Local Open Scope string_scope.
Local Open Scope Z_scope.

Record business_row : Type := mk_business_row {
  name : string;
  category : string;
  address : string;
  city : string;
  state : string;
  zip_code : option string;
  phone : option string;
  website : option string;
  rating : option float;
  review_count : Z;
  latitude : option float;
  longitude : option float;
  scraped_at : option string
}.

Record review_row : Type := mk_review_row {
  place_id : string;
  review_rating : Z;
  text : string;
  author : option string
}.

Record t : Type := mk {
  businesses : gmap string business_row;
  reviews : list review_row
}.

(** [_init_db] on a file that does not exist yet: the tables are empty. *)
Definition init : t := mk ∅ [].

(** An int is bound as a 64-bit integer; a larger one raises
    OverflowError before the statement runs. *)
Definition fits_int64 (n : Z) : bool := (- 2 ^ 63 <=? n) && (n <? 2 ^ 63).

(** A float is bound as a REAL, and the value is kept as the column gives
    it back: SQLite stores a NaN as NULL, and a zero without its sign (a
    REAL that is a whole number is stored as an integer). *)
Definition bind_real (x : option float) : option float :=
  match x with
  | Some S754_nan => None
  | Some (S754_zero _) => Some (S754_zero false)
  | _ => x
  end.

(** The parameters of the [INSERT OR REPLACE] statement. *)
Definition row_of (biz : Business.t) : business_row :=
  mk_business_row (Business.name biz) (Business.category biz)
    (Business.address biz) (Business.city biz) (Business.state biz)
    (Business.zip_code biz) (Business.phone biz) (Business.website biz)
    (bind_real (Business.rating biz)) (Business.review_count biz)
    (bind_real (Business.latitude biz)) (bind_real (Business.longitude biz))
    (Some (DateTime.isoformat (Business.scraped_at biz))).

(** [INSERT OR REPLACE INTO businesses]: the row with this [place_id] is
    the new one. *)
Definition replace_business (db : t) (biz : Business.t) : result t :=
  if fits_int64 (Business.review_count biz)
  then Ok (mk (<[Business.place_id biz := row_of biz]> (businesses db))
              (reviews db))
  else Raise OverflowError.

(** [INSERT INTO reviews]: a new row after the others. *)
Definition insert_review (db : t) (place_id : string) (review : Review.t)
  : result t :=
  if fits_int64 (Review.rating review)
  then Ok (mk (businesses db)
              (reviews db
               ++ [mk_review_row place_id (Review.rating review)
                     (Review.text review) (Review.author review)])%list)
  else Raise OverflowError.

(** The [for review in biz.reviews] loop: the database when the loop ends
    or is left by an exception, and whether it ended. *)
Fixpoint insert_reviews (db : t) (place_id : string) (reviews : list Review.t)
  : t * bool :=
  match reviews with
  | [] => (db, true)
  | review :: rest =>
      match insert_review db place_id review with
      | Ok db => insert_reviews db place_id rest
      | Raise _ => (db, false)
      end
  end.

(** The body of the [try]: what was written before an exception stays,
    since nothing rolls the transaction back. *)
Definition insert_business (db : t) (biz : Business.t) : t * bool :=
  match replace_business db biz with
  | Ok db => insert_reviews db (Business.place_id biz) (Business.reviews biz)
  | Raise _ => (db, false)
  end.

(** The text of the warning of the [except] clause: the exception of the
    body is the OverflowError of the binding. *)
Definition int_too_large_message : string :=
  "Python int too large to convert to SQLite INTEGER".
Definition could_not_insert_message (name : string) : string :=
  "[yellow]Warning: Could not insert " ++ name ++ ": " ++ int_too_large_message
    ++ "[/yellow]".

(** The [for biz in businesses] loop, with [inserted] as it goes: a
    business that could not be written is reported with its name. *)
Fixpoint insert_loop (p : platform) (db : t) (businesses : list Business.t)
    (inserted : Z) : result (t * Z) :=
  match businesses with
  | [] => Ok (db, inserted)
  | biz :: rest =>
      let '(db, done) := insert_business db biz in
      if done : bool then insert_loop p db rest (inserted + 1)
      else
        _ ← console_print p (could_not_insert_message (Business.name biz));
        insert_loop p db rest inserted
  end.

(** [insert_businesses]: the database afterwards and the count returned.
    (An exception that leaves the [with] block, the MarkupError of a
    warning, rolls back what the call has written: the database is then the
    one the call started with.) *)
Definition insert_businesses (p : platform) (db : t)
    (businesses : list Business.t) : result (t * Z) :=
  insert_loop p db businesses 0.

End LeadDatabase.

Module LeadExporter.

Local Open Scope string_scope.
Local Open Scope Z_scope.

(** Python compares an int and a float by their exact values. *)
Definition signed (s : bool) (m : positive) : Z :=
  if s then Z.neg m else Z.pos m.

Definition int_ltb_float (n : Z) (x : float) : bool :=
  match x with
  | S754_nan => false
  | S754_infinity s => negb s
  | S754_zero _ => n <? 0
  | S754_finite s m e =>
      if 0 <=? e then n <? signed s m * 2 ^ e
      else n * 2 ^ (- e) <? signed s m
  end.

Definition float_ltb_int (x : float) (n : Z) : bool :=
  match x with
  | S754_nan => false
  | S754_infinity s => s
  | S754_zero _ => 0 <? n
  | S754_finite s m e =>
      if 0 <=? e then signed s m * 2 ^ e <? n
      else signed s m <? n * 2 ^ (- e)
  end.

(** [v < x] for a float [x]; TypeError unless [v] is a number. *)
Definition lt_float (v : json) (x : float) : result bool :=
  match v with
  | JFloat y => Ok (PyFloat.ltb y x)
  | JInt n => Ok (int_ltb_float n x)
  | JBool b => Ok (int_ltb_float (Z.b2z b) x)
  | _ => Raise TypeError
  end.

(** [v < n] for an int [n]; TypeError unless [v] is a number. *)
Definition lt_int (v : json) (n : Z) : result bool :=
  match v with
  | JInt m => Ok (m <? n)
  | JBool b => Ok (Z.b2z b <? n)
  | JFloat y => Ok (float_ltb_int y n)
  | _ => Raise TypeError
  end.

Definition OUTREACH_FIELDS : list string :=
  [ "name"; "phone"; "website"; "city"; "state";
    "rating"; "review_count"; "opportunity_notes" ].

Definition rating_note : string := "Below avg rating - may want help".
Definition website_note : string := "No website - digital marketing opportunity".
Definition review_note : string := "Low review count - reputation management".
Definition standard_note : string := "Standard outreach".

(** [biz.get("rating") and biz["rating"] < 4.0] *)
Definition rating_rule (biz : gmap string json) : result bool :=
  match biz !! "rating" with
  | Some v => if Json.truthy v then lt_float v f4_0 else Ok false
  | None => Ok false
  end.

(** [not biz.get("website")] *)
Definition website_rule (biz : gmap string json) : bool :=
  negb (Json.truthy (default JNull (biz !! "website"))).

(** [biz.get("review_count", 0) < 20] *)
Definition review_rule (biz : gmap string json) : result bool :=
  lt_int (default (JInt 0) (biz !! "review_count")) 20.

(** The [notes] list of one pass of the loop. *)
Definition notes_of (biz : gmap string json) : result (list string) :=
  let notes := [] in
  below ← rating_rule biz;
  let notes := if below : bool then (notes ++ [rating_note])%list else notes in
  let notes :=
    if website_rule biz then (notes ++ [website_note])%list else notes in
  low ← review_rule biz;
  let notes := if low : bool then (notes ++ [review_note])%list else notes in
  Ok notes.

(** ["; ".join(notes) if notes else "Standard outreach"] *)
Definition opportunity_notes (biz : gmap string json) : result string :=
  notes ← notes_of biz;
  Ok (match notes with
      | [] => standard_note
      | _ => join "; " notes
      end).

(** One pass of the loop: [biz["opportunity_notes"] = ...]. *)
Definition enrich (biz : gmap string json) : result (gmap string json) :=
  notes ← opportunity_notes biz;
  Ok (<["opportunity_notes" := JStr notes]> biz).

(** A row of [csv.DictWriter] with [extrasaction="ignore"]: the listed
    fields, an empty cell for a missing one. *)
Definition csv_row (fields : list string) (biz : gmap string json) : list json :=
  List.map (fun f => default (JStr "") (biz !! f)) fields.

(** [export_outreach_list]: the path written, the records as the loop left
    them (it updates them in place), and the world with the file in it. *)
Definition export_outreach_list (p : platform) (w : world)
    (businesses : list (gmap string json)) (filename : option string)
  : result (string * list (gmap string json) * world) :=
  let '(filename, w) :=
    default_filename p w filename "outreach_" ".csv" in
  let filepath := path_join OUTPUT_DIR filename in
  enriched ← map_result enrich businesses;
  Ok (filepath, enriched,
      write_file w filepath
        (CsvFile OUTREACH_FIELDS (List.map (csv_row OUTREACH_FIELDS) enriched))).

Definition DEFAULT_FIELDS : list string :=
  [ "name"; "category"; "address"; "city"; "state";
    "phone"; "website"; "rating"; "review_count" ].

(** [export_csv]: the path written, and the world with the file in it;
    [include_fields or default_fields] takes the default for [None] and for
    an empty list. *)
Definition export_csv (p : platform) (w : world)
    (businesses : list (gmap string json)) (filename : option string)
    (include_fields : option (list string)) : string * world :=
  let '(filename, w) := default_filename p w filename "leads_" ".csv" in
  let filepath := path_join OUTPUT_DIR filename in
  let fields :=
    match include_fields with
    | Some (f :: fs) => f :: fs
    | _ => DEFAULT_FIELDS
    end in
  (filepath,
   write_file w filepath (CsvFile fields (List.map (csv_row fields) businesses))).

End LeadExporter.

(** ** Vocabulary of the statements *)

(** The values a point bucket of [calculate_score] can take. *)
Definition bucket_values : list Z := [5; 10; 15; 20; 25].

(** The largest length of a list ([sys.maxsize]). *)
Definition sys_maxsize : Z := 2 ^ 63 - 1.

(** A score whose website count is too large for the ratio to be a float. *)
Definition overflowing_score : OpportunityScore.t :=
  OpportunityScore.mk "lawn care" "Austin, TX" 1 0 PyFloat.zero PyFloat.zero
    0 (2 ^ 1024) 0 PyFloat.zero [] [] 0.

(** A platform whose clock ticks one microsecond per reading, whose search
    API always fails, whose MD5 is a stand-in, whose console takes every
    text and whose files can all be opened. *)
Definition sample_platform : platform :=
  mk_platform (fun n => mk_datetime 2025 1 2 3 4 5 (Z.of_nat n))
              (fun _ _ _ => SerpApi.Failed)
              (fun s => s)
              (fun _ => false)
              (fun _ => None).

Definition empty_world : world := mk_world 0 0 ∅.

(** The demo fixture for one query, and the score fields [analyze] derives
    from it. *)
Definition sample_businesses : list Business.t :=
  fst (GoogleMapsScraper._get_demo_data sample_platform empty_world
         "lawn care" "Austin, TX").

Definition sample_score : OpportunityScore.t :=
  OpportunityScore.mk "lawn care" "Austin, TX" 5 327
    PyFloat.zero f4_0 2 3 0 PyFloat.zero [] [] 0.

(** [overlap > 0.5] as a test on two complaints. *)
Definition near_duplicate (c existing : string) : bool :=
  match OpportunityAnalyzer.overlap (OpportunityAnalyzer.word_set c)
                                    (OpportunityAnalyzer.word_set existing) with
  | Ok o => PyFloat.gtb o f0_5
  | Raise _ => false
  end.

(** No entry of the list is a near-duplicate of an earlier one. *)
Definition no_near_duplicates (complaints : list string) : Prop :=
  forall (i j : nat) (e c : string),
    (i < j)%nat -> complaints !! i = Some e -> complaints !! j = Some c ->
    near_duplicate c e = false.

(** [unique] at the end of the loop of [_get_top_complaints], as a
    function of the complaints and of [unique] at the start. *)
Fixpoint kept_after (complaints unique : list string) : list string :=
  match complaints with
  | [] => unique
  | c :: rest =>
      kept_after rest
        (if existsb (near_duplicate c) unique then unique else unique ++ [c])
  end.

(** Built by appending entries that are near-duplicates of nothing before. *)
Inductive distinct : list string -> Prop :=
  | distinct_nil : distinct []
  | distinct_snoc (u : list string) (c : string) :
      distinct u -> existsb (near_duplicate c) u = false -> distinct (u ++ [c]).

Definition f1_0 : float := Eval vm_compute in literal 1 1.

(** A listing with an astronomical review count. *)
Definition crowded_business : Business.t :=
  Business.mk "Pro Lawn Care Services" "demo_1" "lawn care" "123 Main St"
    "Austin" "TX" None None None None None (Some f4_2) (2 ^ 1024) []
    (mk_datetime 2025 1 2 3 4 5 0).

(** A score with the given complaint themes and nothing else of note. *)
Definition score_with_themes (themes : list string) : OpportunityScore.t :=
  OpportunityScore.mk "lawn care" "Austin, TX" 5 327
    PyFloat.zero f4_0 2 3 0 PyFloat.zero [] themes 0.

(** A row of the [businesses] table as the exporter reads it: the three
    columns the outreach rules look at, typed as in the schema, and the
    other columns. *)
Module Lead.

Record t : Type := mk {
  rating : option float;
  website : option string;
  review_count : Z;
  other : gmap string json
}.

Definition row (l : t) : gmap string json :=
  <["rating" := Json.of_opt_float (rating l)]>
    (<["website" := Json.of_opt_str (website l)]>
       (<["review_count" := JInt (review_count l)]> (other l))).

(** The rating rule as the code has it: a rating that is there, is not
    zero, and is below 4.0. *)
Definition rating_fires (l : t) : bool :=
  match rating l with
  | Some x => PyFloat.truthy x && PyFloat.ltb x f4_0
  | None => false
  end.

(** No website, or an empty one. *)
Definition website_fires (l : t) : bool :=
  match website l with
  | Some s => negb (PyStr.truthy s)
  | None => true
  end.

Definition review_fires (l : t) : bool := review_count l <? 20.

Definition fragments (l : t) : list string :=
  (if rating_fires l then [LeadExporter.rating_note] else [])
  ++ (if website_fires l then [LeadExporter.website_note] else [])
  ++ (if review_fires l then [LeadExporter.review_note] else []).

Definition notes (l : t) : string :=
  match fragments l with
  | [] => LeadExporter.standard_note
  | fs => join "; " fs
  end.

(** The row after the export loop. *)
Definition enriched (l : t) : gmap string json :=
  <["opportunity_notes" := JStr (notes l)]> (row l).

End Lead.

(** The rating rule as the specification words it: a rating below 4.0. *)
Definition rating_below_4 (l : Lead.t) : bool :=
  match Lead.rating l with
  | Some x => PyFloat.ltb x f4_0
  | None => false
  end.

(** What a demo record holds besides its name, category, city and state
    (and the time it was built). *)
Definition fixture_fields (b : Business.t) :=
  (Business.place_id b, Business.address b, Business.zip_code b,
   Business.latitude b, Business.longitude b, Business.phone b,
   Business.website b, Business.rating b, Business.review_count b,
   Business.reviews b).

(** What a demo record holds besides its name and category. *)
Definition all_but_name_and_category (b : Business.t) :=
  (fixture_fields b, Business.city b, Business.state b).

(** The collectors a program can hold: a new one, and one that made a
    search. *)
Inductive reachable (p : platform) : GoogleMapsScraper.t -> Prop :=
  | reachable_init (api_key serpapi_key : option string) :
      reachable p (GoogleMapsScraper.init api_key serpapi_key)
  | reachable_search (fuel : nat) (self : GoogleMapsScraper.t) (w : world)
      (query location : string) (max_results : Z)
      (found : list Business.t) (self' : GoogleMapsScraper.t) (w' : world) :
      reachable p self ->
      GoogleMapsScraper.search fuel p self w query location max_results
        = Some (found, self', w') ->
      reachable p self'.

(** A response after which the search loop stops. *)
Definition last_page (r : SerpApi.response) : bool :=
  match r with
  | SerpApi.Failed => true
  | SerpApi.Page local_results => len local_results <? 20
  end.

(** A platform whose search API answers every request with one listing. *)
Definition one_listing_platform : platform :=
  mk_platform (wall_clock sample_platform)
    (fun _ _ _ =>
       SerpApi.Page
         [ SerpApi.Listing
             (SerpApi.mk (Some "Green Lawns"%string) None None
                (Some "1 Elm St, Austin, TX 78701"%string) None None None
                (Some f4_5) (Some 31)) ])
    (md5_hexdigest sample_platform)
    (markup_error sample_platform) (open_error sample_platform).

(** A business as [load_data] gives it back: the dates of its reviews are
    not read. *)
Definition reloaded (b : Business.t) : Business.t :=
  Business.mk (Business.name b) (Business.place_id b) (Business.category b)
    (Business.address b) (Business.city b) (Business.state b)
    (Business.zip_code b) (Business.latitude b) (Business.longitude b)
    (Business.phone b) (Business.website b) (Business.rating b)
    (Business.review_count b)
    (List.map (fun r => Review.mk (Review.rating r) (Review.text r) None
                                  (Review.author r))
              (Business.reviews b))
    (Business.scraped_at b).

(** The businesses' complaints, as [analyze] collects them: those of the
    negative reviews, business by business. *)
Definition complaints_of (bs : list Business.t) : list string :=
  List.flat_map
    (fun biz =>
       List.flat_map
         (fun review => OpportunityAnalyzer._extract_complaints (Review.text review))
         (Business.negative_reviews biz))
    bs.

(** [counts[key]] of a Counter: 0 for a key it does not hold. *)
Fixpoint counter_get (key : string) (counts : list (string * Z)) : Z :=
  match counts with
  | [] => 0
  | (k, n) :: rest => if String.eqb k key then n else counter_get key rest
  end.

(** The test of the loop of [_categorize_complaints], for one entry of
    [COMPLAINT_THEMES] seen as the entry of theme [theme]. *)
Definition entry_hits (theme complaint : string)
    (entry : string * list string) : bool :=
  String.eqb (fst entry) theme
  && existsb (fun kw => contains kw (lower complaint)) (snd entry).

(** The complaint contains a key word of the theme. *)
Definition theme_hits (theme complaint : string) : bool :=
  existsb (entry_hits theme complaint) OpportunityAnalyzer.COMPLAINT_THEMES.

(** The number of complaints that contain a key word of the theme. *)
Definition theme_count (theme : string) (complaints : list string) : Z :=
  OpportunityAnalyzer.count_if (theme_hits theme) complaints.

(** The counters a run can hold: distinct keys, each with a count of at
    least 1. *)
Definition counter_ok (counts : list (string * Z)) : Prop :=
  List.NoDup (List.map fst counts) /\ List.Forall (fun e => 1 <= snd e) counts.

(** A business whose reviews all have four or five stars. *)
Definition well_reviewed_business : Business.t :=
  Business.mk "Pro Lawn Care Services" "demo_1" "lawn care" "123 Main St"
    "Austin" "TX" None None None (Some "(555) 123-4567"%string)
    (Some "https://example.com"%string) (Some f4_2) 47
    (GoogleMapsScraper._get_demo_reviews false)
    (mk_datetime 2025 1 2 3 4 5 0).

(** The entries of a page that [_parse_result] turns into a business. *)
Definition listings (local_results : list SerpApi.listing) : list SerpApi.result :=
  omap (fun entry =>
          match entry with
          | SerpApi.Listing r => Some r
          | SerpApi.Malformed => None
          end) local_results.

(** A response without an entry that [_parse_result] skips. *)
Definition well_formed (r : SerpApi.response) : bool :=
  match r with
  | SerpApi.Failed => true
  | SerpApi.Page local_results =>
      Nat.eqb (length (listings local_results)) (length local_results)
  end.

(** A full page of entries that [_parse_result] skips. *)
Definition junk_page (r : SerpApi.response) : bool :=
  match r with
  | SerpApi.Failed => false
  | SerpApi.Page local_results =>
      (20 <=? len local_results)
      && Nat.eqb (length (listings local_results)) 0
  end.

(** A platform whose search API answers every request with twenty entries
    that are no objects. *)
Definition junk_platform : platform :=
  mk_platform (wall_clock sample_platform)
    (fun _ _ _ => SerpApi.Page (List.repeat SerpApi.Malformed 20))
    (md5_hexdigest sample_platform)
    (markup_error sample_platform) (open_error sample_platform).

(** The score of the demo fixture: five businesses with 327 reviews, 65.4 on
    average, a mean rating of 3.9, two businesses below four stars and
    three without a web site. *)
Definition demo_score (query location : string) : OpportunityScore.t :=
  OpportunityScore.mk query location 5 327
    (S754_finite false 4602115869219226 (-46))
    (S754_finite false 8782019273372467 (-51))
    2 3 0 PyFloat.zero
    [ "Terrible service! They never showed up on time and the work was sloppy";
      "Overpriced and unprofessional";
      "They damaged my property and refused to take responsibility" ]%string
    [ "quality"; "reliability"; "professionalism"; "pricing" ]%string
    85.

(** A business all of whose integers fit a 64-bit column. *)
Definition storable (biz : Business.t) : bool :=
  LeadDatabase.fits_int64 (Business.review_count biz)
  && forallb (fun review => LeadDatabase.fits_int64 (Review.rating review))
             (Business.reviews biz).

(** The rows of the [reviews] table that a business brings. *)
Definition review_rows (biz : Business.t) : list LeadDatabase.review_row :=
  List.map
    (fun review =>
       LeadDatabase.mk_review_row (Business.place_id biz) (Review.rating review)
         (Review.text review) (Review.author review))
    (Business.reviews biz).

(** The [businesses] table after the rows of a list of businesses were
    written over it, one after the other. *)
Definition upserted (table : gmap string LeadDatabase.business_row)
    (businesses : list Business.t) : gmap string LeadDatabase.business_row :=
  List.fold_left
    (fun table biz => <[Business.place_id biz := LeadDatabase.row_of biz]> table)
    businesses table.

(** A business with a review whose rating does not fit a 64-bit column. *)
Definition overrated_business : Business.t :=
  Business.mk "Pro Lawn Care Services" "demo_1" "lawn care" "123 Main St"
    "Austin" "TX" None None None None None (Some f4_2) 2
    [ Review.mk 5 "Excellent service!" None None;
      Review.mk (2 ^ 63) "Off the scale." None None ]
    (mk_datetime 2025 1 2 3 4 5 0).

(** A business whose ints can be written: neither its review count nor a
    rating of one of its reviews has more than 4300 digits. *)
Definition writable (biz : Business.t) : bool :=
  negb (too_long (Business.review_count biz))
  && forallb (fun review => negb (too_long (Review.rating review)))
             (Business.reviews biz).

(** A score whose ints can be written. *)
Definition writable_score (score : OpportunityScore.t) : bool :=
  negb (too_long (OpportunityScore.total_businesses score))
  && negb (too_long (OpportunityScore.total_reviews score))
  && negb (too_long (OpportunityScore.low_rated_businesses score))
  && negb (too_long (OpportunityScore.businesses_without_website score))
  && negb (too_long (OpportunityScore.reviews_last_30_days score))
  && negb (too_long (OpportunityScore.opportunity_score score)).

(** The path [save_results] writes to. *)
Definition scrape_path (p : platform) (w : world) (filename : option string)
  : string :=
  path_join DATA_DIR (fst (default_filename p w filename "scrape_" ".json")).

(** The path [save_analysis] writes to. *)
Definition analysis_path (p : platform) (w : world)
    (score : OpportunityScore.t) (filename : option string) : string :=
  path_join OUTPUT_DIR
    (fst (default_filename p w filename
            ("analysis_" ++ sub_non_word (OpportunityScore.category score) ++ "_")
            ".json")).

(** A listing whose review count has 4301 digits. *)
Definition huge_business : Business.t :=
  Business.mk "Pro Lawn Care Services" "demo_1" "lawn care" "123 Main St"
    "Austin" "TX" None None None None None (Some f4_2) int_str_limit []
    (mk_datetime 2025 1 2 3 4 5 0).

(** The path of the scrape file of a run on demo data that starts in [w]:
    the search reads the clock five times, and the file is named after the
    next reading. *)
Definition demo_scrape_path (p : platform) (w : world) : string :=
  ("data/scrape_"
    ++ DateTime.strftime_compact (wall_clock p (ticks w + 5)%nat) ++ ".json")%string.

(** The path of its analysis file: [save_results] reads the clock twice, and
    the file is named after the category and the next reading. *)
Definition demo_analysis_path (p : platform) (w : world) (query : string)
  : string :=
  ("output/analysis_" ++ sub_non_word query ++ "_"
    ++ DateTime.strftime_compact (wall_clock p (ticks w + 7)%nat) ++ ".json")%string.

(** * Properties *)

(** ** Results *)

Lemma bind_Ok {A B} (a : A) (k : A -> result B) : (Ok a ≫= k) = k a.
Proof. reflexivity. Qed.

Lemma bind_Raise {A B} (e : exn) (k : A -> result B) : (Raise e ≫= k) = Raise e.
Proof. reflexivity. Qed.

(** ** The console, the files and the ints that are too long *)

Lemma console_print_accepts (p : platform) (text : string) :
  markup_error p text = false -> console_print p text = Ok tt.
Proof. unfold console_print. intros ->. reflexivity. Qed.

Lemma console_print_refuses (p : platform) (text : string) :
  markup_error p text = true -> console_print p text = Raise MarkupError.
Proof. unfold console_print. intros ->. reflexivity. Qed.

Lemma console_print_returns (p : platform) (text : string) (u : unit) :
  console_print p text = Ok u -> markup_error p text = false.
Proof. unfold console_print. destruct (markup_error p text); [discriminate | reflexivity]. Qed.

Lemma console_print_raises (p : platform) (text : string) (e : exn) :
  console_print p text = Raise e -> e = MarkupError /\ markup_error p text = true.
Proof.
  unfold console_print. destruct (markup_error p text); [| discriminate].
  intros [= <-]. split; reflexivity.
Qed.

Lemma open_for_writing_returns (p : platform) (path : string) (u : unit) :
  open_for_writing p path = Ok u -> open_error p path = None.
Proof. unfold open_for_writing. destruct (open_error p path); [discriminate | reflexivity]. Qed.

Lemma str_of_int_short (n : Z) : too_long n = false -> str_of_int n = Ok (decimal n).
Proof. unfold str_of_int. intros ->. reflexivity. Qed.

Lemma str_of_int_long (n : Z) :
  too_long n = true -> str_of_int n = Raise (ValueError int_too_long_message).
Proof. unfold str_of_int. intros ->. reflexivity. Qed.

Lemma int_str_limit_large : 2 ^ 63 <= int_str_limit.
Proof. vm_compute. discriminate. Qed.

Lemma short_below_limit (n : Z) : Z.abs n < int_str_limit -> too_long n = false.
Proof. unfold too_long. intros Hn. apply Z.leb_gt. exact Hn. Qed.

(** ** The string methods on a few inputs *)

Example title_words :
  title "garage organizers" = "Garage Organizers"%string
  /\ title "they're x1y ABC def" = "They'Re X1Y Abc Def"%string.
Proof. split; reflexivity. Qed.

Example split_on_white_space :
  split " a  b " = ["a"; "b"]%string /\ split "" = [].
Proof. split; reflexivity. Qed.

Example split_on_comma :
  split_on "," "a,b," = ["a"; "b"; ""]%string
  /\ split_on "," "" = [""%string]
  /\ split_on "," "Austin, TX" = ["Austin"; " TX"]%string.
Proof. repeat split; reflexivity. Qed.

Example strip_and_contains :
  strip "  a b  " = "a b"%string
  /\ contains "never showed" "they never showed up" = true
  /\ contains "late" "on time" = false.
Proof. repeat split; reflexivity. Qed.

Example slice_to_negative : slice_to [1; 2; 3] (-1) = [1; 2].
Proof. reflexivity. Qed.

(** The scorer on the demo fixture: three distinct complaints out of
    twelve raw ones, four themes, and a score of 85. *)
Example analyze_demo_fixture :
  (fun score =>
     (OpportunityScore.total_businesses score,
      OpportunityScore.total_reviews score,
      OpportunityScore.low_rated_businesses score,
      OpportunityScore.businesses_without_website score,
      OpportunityScore.common_complaints score,
      OpportunityScore.complaint_themes score,
      OpportunityScore.opportunity_score score))
    <$> match OpportunityAnalyzer.analyze sample_platform
                (OpportunityAnalyzer.mk sample_businesses)
                "lawn care" "Austin, TX" with
        | Ok score => Some score
        | Raise _ => None
        end
  = Some (5, 327, 2, 3,
          [ "Terrible service! They never showed up on time and the work was sloppy";
            "Overpriced and unprofessional";
            "They damaged my property and refused to take responsibility" ]%string,
          [ "quality"; "reliability"; "professionalism"; "pricing" ]%string,
          85).
Proof. vm_compute. reflexivity. Qed.

(** ** Float arithmetic *)

Example literal_0_3 : f0_3 = S754_finite false 5404319552844595 (-54).
Proof. reflexivity. Qed.
Example literal_4_3 : f4_3 = S754_finite false 4841369599423283 (-50).
Proof. reflexivity. Qed.
Example literal_0_1 : f0_1 = S754_finite false 7205759403792794 (-56).
Proof. reflexivity. Qed.
Example literal_3_5 : f3_5 = S754_finite false 7881299347898368 (-51).
Proof. reflexivity. Qed.

(** The threshold of [int_true_divide] is where the rounded quotient leaves
    the range: just below it the division gives the largest float. *)
Example overflow_threshold_is_first_infinite :
  SFdiv prec emax (exact_of_int overflow_threshold) (exact_of_int 1)
    = S754_infinity false
  /\ SFdiv prec emax (exact_of_int (overflow_threshold - 1)) (exact_of_int 1)
    = SFmax_float prec emax
  /\ round_of_int overflow_threshold = S754_infinity false
  /\ round_of_int (overflow_threshold - 1) = SFmax_float prec emax.
Proof. repeat split; vm_compute; reflexivity. Qed.

Example three_tenths_is_not_above_0_3 :
  int_true_divide 3 10 = Ok f0_3 /\ gtb f0_3 f0_3 = false.
Proof. split; vm_compute; reflexivity. Qed.

Lemma overflow_threshold_large : 2 ^ 64 <= overflow_threshold.
Proof. apply Z.leb_le. vm_compute. reflexivity. Qed.

Lemma int_true_divide_in_range (a b : Z) :
  b <> 0 -> Z.abs a < overflow_threshold * Z.abs b ->
  int_true_divide a b = Ok (SFdiv prec emax (exact_of_int a) (exact_of_int b)).
Proof.
  intros Hb Hlt. unfold int_true_divide.
  destruct (Z.eqb_spec b 0) as [->|_]; [congruence|].
  destruct (Z.leb_spec (overflow_threshold * Z.abs b) (Z.abs a)); [lia|reflexivity].
Qed.

Lemma int_true_divide_overflow (a b : Z) :
  b <> 0 -> overflow_threshold * Z.abs b <= Z.abs a ->
  int_true_divide a b = Raise OverflowError.
Proof.
  intros Hb Hle. unfold int_true_divide.
  destruct (Z.eqb_spec b 0) as [->|_]; [congruence|].
  destruct (Z.leb_spec (overflow_threshold * Z.abs b) (Z.abs a)); [reflexivity|lia].
Qed.

(** A part over a whole is always a float. *)
Lemma int_true_divide_fraction (a b : Z) :
  0 <= a <= b -> 1 <= b ->
  int_true_divide a b = Ok (SFdiv prec emax (exact_of_int a) (exact_of_int b)).
Proof.
  intros Ha Hb. apply int_true_divide_in_range; [lia|].
  pose proof overflow_threshold_large as Hbig.
  assert (2 <= overflow_threshold) by (change (2 ^ 64) with 18446744073709551616 in Hbig; lia).
  rewrite (Z.abs_eq a), (Z.abs_eq b) by lia. nia.
Qed.

Lemma float_truediv_int_in_range (x : float) (n : Z) :
  n <> 0 -> Z.abs n < overflow_threshold ->
  float_truediv_int x n = Ok (SFdiv prec emax x (round_of_int n)).
Proof.
  intros Hn Hlt. unfold float_truediv_int, float_of_int.
  destruct (Z.leb_spec overflow_threshold (Z.abs n)); [lia|].
  rewrite bind_Ok. destruct (Z.eqb_spec n 0); [congruence|reflexivity].
Qed.

(** ** The point buckets of [calculate_score] *)

Section Buckets.

Import OpportunityScore.

Lemma market_size_points_in (n : Z) : market_size_points n ∈ bucket_values.
Proof.
  unfold market_size_points, bucket_values.
  repeat case_match; set_solver.
Qed.

Lemma competition_gap_points_in (n : Z) : competition_gap_points n ∈ bucket_values.
Proof.
  unfold competition_gap_points, bucket_values.
  repeat case_match; set_solver.
Qed.

Lemma quality_gap_points_in (x : float) : quality_gap_points x ∈ bucket_values.
Proof.
  unfold quality_gap_points, bucket_values.
  repeat case_match; set_solver.
Qed.

Lemma digital_gap_points_in (x : float) : digital_gap_points x ∈ bucket_values.
Proof.
  unfold digital_gap_points, bucket_values.
  repeat case_match; set_solver.
Qed.

Lemma bucket_values_bounds (v : Z) : v ∈ bucket_values -> 5 <= v <= 25.
Proof.
  unfold bucket_values. rewrite !elem_of_cons, elem_of_nil. lia.
Qed.

(** [calculate_score] returns as soon as the website ratio is a float, and
    then its value is the sum of the four buckets. *)
Lemma calculate_score_sum (self : t) (ratio : float) :
  website_gap_ratio self = Ok ratio ->
  calculate_score self =
    Ok (market_size_points (total_reviews self)
        + competition_gap_points (total_businesses self)
        + quality_gap_points (avg_rating self)
        + digital_gap_points ratio,
        set_opportunity_score self
          (market_size_points (total_reviews self)
           + competition_gap_points (total_businesses self)
           + quality_gap_points (avg_rating self)
           + digital_gap_points ratio)).
Proof.
  intros Hratio. unfold calculate_score. rewrite Hratio, bind_Ok.
  reflexivity.
Qed.

Lemma website_gap_ratio_in_range (self : t) :
  Z.abs (businesses_without_website self)
    < overflow_threshold * Z.max (total_businesses self) 1 ->
  exists ratio, website_gap_ratio self = Ok ratio.
Proof.
  intros Hlt. eexists. unfold website_gap_ratio.
  apply int_true_divide_in_range; [lia|].
  rewrite (Z.abs_eq (Z.max _ 1)) by lia. exact Hlt.
Qed.

Lemma website_gap_ratio_overflow (self : t) :
  overflow_threshold * Z.max (total_businesses self) 1
    <= Z.abs (businesses_without_website self) ->
  calculate_score self = Raise OverflowError.
Proof.
  intros Hle. unfold calculate_score, website_gap_ratio.
  rewrite int_true_divide_overflow; [reflexivity|lia|].
  rewrite (Z.abs_eq (Z.max _ 1)) by lia. exact Hle.
Qed.

End Buckets.

(** ** C1 and C10: the composite score *)

Section CompositeScore.

Import OpportunityScore.

Lemma count_if_bounds {A} (p : A -> bool) (xs : list A) :
  0 <= OpportunityAnalyzer.count_if p xs <= len xs.
Proof.
  unfold OpportunityAnalyzer.count_if, len. pose proof (List.filter_length_le p xs). lia.
Qed.

(** C1, counterexample: with 100 reviews in total the market-size bucket
    is not 15 (it is 10: the test is [total_reviews > 100]). *)
Lemma C1_edge_100_is_not_15 : ~ (market_size_points 100 = 15).
Proof. vm_compute. discriminate. Qed.

(** C1, amended: for every non-empty list of businesses, on the score
    whose business count and website count are those of the list,
    [calculate_score] returns the sum of four bucket values, each of them
    in 5, 10, 15, 20, 25, hence between 0 and 100; at the edges of the
    market-size thresholds, 100 reviews give 10, 101 give 15 and 501 give
    20. *)
Theorem C1_calculate_score_buckets (bs : list Business.t) (self : t) :
  bs <> [] ->
  total_businesses self = len bs ->
  businesses_without_website self
    = OpportunityAnalyzer.count_if OpportunityAnalyzer.lacks_website bs ->
  exists market competition quality digital,
    calculate_score self
      = Ok (market + competition + quality + digital,
            set_opportunity_score self (market + competition + quality + digital))
    /\ market = market_size_points (total_reviews self)
    /\ competition = competition_gap_points (total_businesses self)
    /\ quality = quality_gap_points (avg_rating self)
    /\ (exists ratio, website_gap_ratio self = Ok ratio
                      /\ digital = digital_gap_points ratio)
    /\ market ∈ bucket_values /\ competition ∈ bucket_values
    /\ quality ∈ bucket_values /\ digital ∈ bucket_values
    /\ 0 <= market + competition + quality + digital <= 100
    /\ market_size_points 100 = 10
    /\ market_size_points 101 = 15
    /\ market_size_points 501 = 20.
Proof.
  intros Hne Htotal Hweb.
  pose proof (count_if_bounds OpportunityAnalyzer.lacks_website bs) as Hcount.
  assert (1 <= len bs) as Hlen.
  { unfold len. destruct bs; [congruence|]. simpl length. lia. }
  assert (website_gap_ratio self
          = Ok (SFdiv prec emax
                  (exact_of_int (businesses_without_website self))
                  (exact_of_int (Z.max (total_businesses self) 1)))) as Hratio.
  { unfold website_gap_ratio. apply int_true_divide_fraction; lia. }
  eexists _, _, _, _. split; [apply (calculate_score_sum _ _ Hratio)|].
  pose proof (market_size_points_in (total_reviews self)) as Hm.
  pose proof (competition_gap_points_in (total_businesses self)) as Hc.
  pose proof (quality_gap_points_in (avg_rating self)) as Hq.
  pose proof (digital_gap_points_in
                (SFdiv prec emax
                   (exact_of_int (businesses_without_website self))
                   (exact_of_int (Z.max (total_businesses self) 1)))) as Hd.
  pose proof (bucket_values_bounds _ Hm).
  pose proof (bucket_values_bounds _ Hc).
  pose proof (bucket_values_bounds _ Hq).
  pose proof (bucket_values_bounds _ Hd).
  repeat split; try assumption; try reflexivity; try lia.
  eexists; split; [exact Hratio|reflexivity].
Qed.

Lemma C1_calculate_score_buckets_witness :
  exists market competition quality digital,
    calculate_score sample_score
      = Ok (market + competition + quality + digital,
            set_opportunity_score sample_score
              (market + competition + quality + digital))
    /\ market = market_size_points (total_reviews sample_score)
    /\ competition = competition_gap_points (total_businesses sample_score)
    /\ quality = quality_gap_points (avg_rating sample_score)
    /\ (exists ratio, website_gap_ratio sample_score = Ok ratio
                      /\ digital = digital_gap_points ratio)
    /\ market ∈ bucket_values /\ competition ∈ bucket_values
    /\ quality ∈ bucket_values /\ digital ∈ bucket_values
    /\ 0 <= market + competition + quality + digital <= 100
    /\ market_size_points 100 = 10
    /\ market_size_points 101 = 15
    /\ market_size_points 501 = 20.
Proof.
  apply (C1_calculate_score_buckets sample_businesses sample_score).
  - vm_compute. discriminate.
  - reflexivity.
  - reflexivity.
Defined.

(** C10, counterexample: with [2^1024] businesses without a website out of
    one, the ratio is too large for a float and [calculate_score] raises
    OverflowError; it returns no score, let alone one of at least 20. *)
Lemma C10_overflowing_score_raises :
  calculate_score overflowing_score = Raise OverflowError
  /\ ~ (exists r, calculate_score overflowing_score = Ok r /\ 20 <= fst r).
Proof.
  assert (calculate_score overflowing_score = Raise OverflowError) as H.
  { vm_compute. reflexivity. }
  split; [exact H|]. intros [r [Hr _]]. rewrite H in Hr. discriminate.
Qed.

(** C10, amended: for every score whose count of businesses without a
    website is, in magnitude, below [2^1024 - 2^970] times
    [max(total_businesses, 1)], [calculate_score] returns a value between
    20 and 100, whatever the other fields are: each of the four buckets
    gives at least 5 and at most 25. *)
Theorem C10_score_between_20_and_100 (self : t) :
  Z.abs (businesses_without_website self)
    < overflow_threshold * Z.max (total_businesses self) 1 ->
  exists score,
    calculate_score self = Ok (score, set_opportunity_score self score)
    /\ 20 <= score <= 100.
Proof.
  intros Hrange.
  destruct (website_gap_ratio_in_range self Hrange) as [ratio Hratio].
  eexists. split; [apply (calculate_score_sum _ _ Hratio)|].
  pose proof (bucket_values_bounds _ (market_size_points_in (total_reviews self))).
  pose proof (bucket_values_bounds _ (competition_gap_points_in (total_businesses self))).
  pose proof (bucket_values_bounds _ (quality_gap_points_in (avg_rating self))).
  pose proof (bucket_values_bounds _ (digital_gap_points_in ratio)).
  lia.
Qed.

Lemma C10_score_between_20_and_100_witness :
  exists score,
    calculate_score sample_score = Ok (score, set_opportunity_score sample_score score)
    /\ 20 <= score <= 100.
Proof.
  apply (C10_score_between_20_and_100 sample_score).
  vm_compute. reflexivity.
Defined.

End CompositeScore.

(** ** C7 and C8: deduplication of complaints *)

Section Deduplication.

Import OpportunityAnalyzer.

(** The quotient of a positive int by itself is the float 1.0. *)
Lemma SFdiv_self (n : positive) :
  SFdiv prec emax (exact_of_int (Z.pos n)) (exact_of_int (Z.pos n)) = f1_0.
Proof.
  unfold exact_of_int, SFdiv, SFdiv_core_binary.
  replace (Zdigits2 (Z.pos n) + 0 - (Zdigits2 (Z.pos n) + 0)) with 0 by lia.
  change (Z.min (fexp prec emax 0) (0 - 0)) with (-53).
  change (0 - 0 - -53) with 53.
  cbv iota beta.
  rewrite Z.shiftl_mul_pow2 by lia.
  rewrite (Z.mul_comm (Z.pos n)).
  pose proof (Z.div_mul (2 ^ 53) (Z.pos n) ltac:(lia)) as Hdiv.
  pose proof (Z.mod_mul (2 ^ 53) (Z.pos n) ltac:(lia)) as Hmod.
  unfold Z.div, Z.modulo in Hdiv, Hmod.
  destruct (Z.div_eucl (2 ^ 53 * Z.pos n) (Z.pos n)) as [q r].
  subst q r.
  unfold new_location, new_location_even, new_location_odd.
  destruct (Z.even (Z.pos n)); vm_compute; reflexivity.
Qed.

Lemma overlap_returns (a b : gset string) :
  overlap a b
    = Ok (SFdiv prec emax
            (exact_of_int (Z.of_nat (size (a ∩ b))))
            (exact_of_int (Z.max (Z.of_nat (size (a ∪ b))) 1))).
Proof.
  unfold overlap. apply int_true_divide_fraction; [|lia].
  assert (size (a ∩ b) <= size (a ∪ b))%nat.
  { apply subseteq_size. etrans; [apply intersection_subseteq_l|apply union_subseteq_l]. }
  lia.
Qed.

(** Jaccard overlap of a non-empty word set with itself: 1.0, above 0.5. *)
Lemma overlap_self (a : gset string) :
  a <> ∅ -> overlap a a = Ok f1_0.
Proof.
  intros Hne. rewrite overlap_returns.
  rewrite intersection_idemp_L, union_idemp_L.
  assert (size a <> 0)%nat as Hsize.
  { intros H0. apply size_empty_iff in H0. apply Hne. apply leibniz_equiv, H0. }
  replace (Z.max (Z.of_nat (size a)) 1) with (Z.of_nat (size a)) by lia.
  destruct (Z.of_nat (size a)) as [|n|n] eqn:Hn; [lia| |lia].
  rewrite SFdiv_self. reflexivity.
Qed.

(** Of an empty word set with itself: 0.0, because of [max(.., 1)]. *)
Lemma overlap_empty : overlap ∅ ∅ = Ok PyFloat.zero.
Proof. rewrite overlap_returns. vm_compute. reflexivity. Qed.

Lemma near_duplicate_same_words (c e : string) :
  word_set c = word_set e -> word_set c <> ∅ -> near_duplicate c e = true.
Proof.
  intros Heq Hne. unfold near_duplicate. rewrite <- Heq.
  rewrite (overlap_self _ Hne). reflexivity.
Qed.

Lemma near_duplicate_words (c c' e : string) :
  word_set c = word_set c' -> near_duplicate c e = near_duplicate c' e.
Proof. intros Heq. unfold near_duplicate. rewrite Heq. reflexivity. Qed.

Lemma existsb_near_duplicate_words (c c' : string) (unique : list string) :
  word_set c = word_set c' ->
  existsb (near_duplicate c) unique = existsb (near_duplicate c') unique.
Proof.
  intros Heq. induction unique as [|e rest IH]; [reflexivity|].
  simpl. rewrite IH, (near_duplicate_words c c' e Heq). reflexivity.
Qed.

Lemma is_duplicate_eq (c : string) (unique : list string) :
  is_duplicate (word_set c) unique = Ok (existsb (near_duplicate c) unique).
Proof.
  induction unique as [|e rest IH]; [reflexivity|].
  cbn [is_duplicate existsb]. unfold near_duplicate at 1.
  rewrite overlap_returns, bind_Ok.
  destruct (PyFloat.gtb _ f0_5); [reflexivity|exact IH].
Qed.

Lemma dedup_loop_eq (complaints unique : list string) :
  dedup_loop complaints unique = Ok (kept_after complaints unique).
Proof.
  revert unique. induction complaints as [|c rest IH]; intros unique.
  - reflexivity.
  - cbn [dedup_loop kept_after]. rewrite is_duplicate_eq, bind_Ok. apply IH.
Qed.

(** [_get_top_complaints] never raises. *)
Lemma get_top_complaints_eq (complaints : list string) (limit : Z) :
  _get_top_complaints complaints limit
    = Ok (slice_to (kept_after complaints []) limit).
Proof.
  unfold _get_top_complaints. rewrite dedup_loop_eq. reflexivity.
Qed.

Lemma kept_after_app (xs ys unique : list string) :
  kept_after (xs ++ ys) unique = kept_after ys (kept_after xs unique).
Proof.
  revert unique. induction xs as [|x xs IH]; intros unique; [reflexivity|].
  simpl. apply IH.
Qed.

(** The loop only appends to [unique]. *)
Lemma kept_after_extends (complaints unique : list string) :
  exists more, kept_after complaints unique = unique ++ more.
Proof.
  revert unique. induction complaints as [|c rest IH]; intros unique.
  - exists []. simpl. rewrite app_nil_r. reflexivity.
  - simpl. destruct (existsb (near_duplicate c) unique).
    + apply IH.
    + destruct (IH (unique ++ [c])) as [more Hmore].
      exists (c :: more). rewrite Hmore, <- app_assoc. reflexivity.
Qed.

Lemma kept_after_distinct (complaints unique : list string) :
  distinct unique -> distinct (kept_after complaints unique).
Proof.
  revert unique. induction complaints as [|c rest IH]; intros unique Hd.
  - exact Hd.
  - simpl. destruct (existsb (near_duplicate c) unique) eqn:Hdup.
    + apply IH, Hd.
    + apply IH. constructor; assumption.
Qed.

Lemma distinct_app_l (xs ys : list string) : distinct (xs ++ ys) -> distinct xs.
Proof.
  induction ys as [|y ys IH] using rev_ind; intros Hd.
  - rewrite app_nil_r in Hd. exact Hd.
  - rewrite app_assoc in Hd. inversion Hd as [Hnil|u c Hu Hc Heq].
    + destruct (xs ++ ys); discriminate.
    + apply app_inj_tail in Heq as [-> ->]. apply IH, Hu.
Qed.

Lemma distinct_last (xs : list string) (c : string) :
  distinct (xs ++ [c]) -> existsb (near_duplicate c) xs = false.
Proof.
  intros Hd. inversion Hd as [Hnil|u c' Hu Hc Heq].
  - destruct xs; discriminate.
  - apply app_inj_tail in Heq as [-> ->]. exact Hc.
Qed.

(** A distinct list goes through the loop unchanged. *)
Lemma kept_after_of_distinct (complaints unique : list string) :
  distinct (unique ++ complaints) ->
  kept_after complaints unique = unique ++ complaints.
Proof.
  revert unique. induction complaints as [|c rest IH]; intros unique Hd.
  - simpl. rewrite app_nil_r. reflexivity.
  - replace (unique ++ c :: rest) with ((unique ++ [c]) ++ rest) in *
      by (rewrite <- app_assoc; reflexivity).
    simpl. rewrite (distinct_last unique c (distinct_app_l _ _ Hd)).
    apply IH, Hd.
Qed.

Lemma no_near_duplicates_distinct (complaints : list string) :
  no_near_duplicates complaints -> distinct complaints.
Proof.
  induction complaints as [|c cs IH] using rev_ind; intros Hno.
  - constructor.
  - constructor.
    + apply IH. intros i j e c' Hij Hi Hj.
      apply (Hno i j e c' Hij).
      * apply lookup_app_l_Some, Hi.
      * apply lookup_app_l_Some, Hj.
    + apply not_true_is_false. intros Hex.
      apply existsb_exists in Hex as [e [Hin Hnd]].
      apply list_elem_of_In, list_elem_of_lookup in Hin as [i Hi].
      pose proof (lookup_lt_Some _ _ _ Hi) as Hlt.
      rewrite (Hno i (length cs) e c Hlt) in Hnd; [discriminate| |].
      * apply lookup_app_l_Some, Hi.
      * rewrite lookup_app_r by lia. rewrite Nat.sub_diag. reflexivity.
Qed.

Lemma slice_to_nonneg {A} (xs : list A) (n : Z) :
  0 <= n -> slice_to xs n = take (Z.to_nat n) xs.
Proof.
  intros Hn. unfold slice_to. destruct (Z.ltb_spec n 0); [lia|reflexivity].
Qed.

(** C7, counterexample: two complaints without a word have identical
    (empty) word sets, their overlap is 0.0 and both are kept; and the first
    of two complaints with the same words is itself dropped when an earlier
    complaint is close to it. *)
Lemma C7_same_words_both_kept_or_first_dropped :
  (word_set "" = word_set " "
   /\ _get_top_complaints [""; " "] 10 = Ok [""; " "]
   /\ _get_top_complaints [""; " "] 10 <> Ok [""])
  /\ (word_set "a b c" = word_set "A  b c"
      /\ _get_top_complaints ["a b c d"; "a b c"; "A  b c"] 10 = Ok ["a b c d"]
      /\ ~ In "a b c" ["a b c d"]).
Proof.
  repeat split; try (rewrite get_top_complaints_eq);
    try (vm_compute; reflexivity); try (vm_compute; congruence).
  intros [H|[]]. discriminate.
Qed.

(** C7, amended: when two complaints of the list have the same lower-cased
    word set and that set is not empty, their Jaccard overlap is 1.0, above
    0.5, and the second is dropped: the result is the one for the list
    without it.  The first is kept (right after what was kept before it)
    when it is a near-duplicate of nothing kept before it; a list of just
    the two is reduced to the first. *)
Theorem C7_second_of_same_words_dropped
    (l1 l2 l3 : list string) (c1 c2 : string) (limit : Z) :
  word_set c1 = word_set c2 ->
  word_set c1 <> ∅ ->
  overlap (word_set c2) (word_set c1) = Ok f1_0
  /\ PyFloat.gtb f1_0 f0_5 = true
  /\ _get_top_complaints (l1 ++ c1 :: l2 ++ c2 :: l3) limit
     = _get_top_complaints (l1 ++ c1 :: l2 ++ l3) limit
  /\ (is_duplicate (word_set c1) (kept_after l1 []) = Ok false ->
      exists more,
        dedup_loop (l1 ++ c1 :: l2 ++ c2 :: l3) []
          = Ok (kept_after l1 [] ++ c1 :: more))
  /\ _get_top_complaints [c1; c2] 10 = Ok [c1].
Proof.
  intros Hsame Hne.
  assert (near_duplicate c2 c1 = true) as Hnd.
  { apply near_duplicate_same_words; [symmetry; exact Hsame|].
    rewrite <- Hsame. exact Hne. }
  assert (near_duplicate c1 c1 = true) as Hrefl
    by (apply near_duplicate_same_words; [reflexivity|exact Hne]).
  split; [rewrite <- Hsame; apply overlap_self, Hne|].
  split; [reflexivity|].
  split; [|split].
  - rewrite !get_top_complaints_eq. f_equal. f_equal.
    rewrite !kept_after_app. cbn [kept_after].
    rewrite !kept_after_app. cbn [kept_after].
    set (u1 := kept_after l1 []).
    set (u2 := if existsb (near_duplicate c1) u1 then u1 else u1 ++ [c1]).
    assert (existsb (near_duplicate c1) u2 = true) as Hu2.
    { subst u2. destruct (existsb (near_duplicate c1) u1) eqn:Hu1; [exact Hu1|].
      rewrite existsb_app. cbn [existsb]. rewrite Hrefl.
      rewrite orb_true_r. reflexivity. }
    destruct (kept_after_extends l2 u2) as [more Hmore]. rewrite Hmore.
    assert (existsb (near_duplicate c2) (u2 ++ more) = true) as Hdup.
    { rewrite (existsb_near_duplicate_words c2 c1 _ (eq_sym Hsame)).
      rewrite existsb_app, Hu2. reflexivity. }
    rewrite Hdup. reflexivity.
  - intros Hfresh. rewrite is_duplicate_eq in Hfresh.
    injection Hfresh as Hfresh.
    rewrite dedup_loop_eq, kept_after_app. cbn [kept_after]. rewrite Hfresh.
    destruct (kept_after_extends (l2 ++ c2 :: l3) (kept_after l1 [] ++ [c1]))
      as [more Hmore].
    exists more. rewrite Hmore, <- app_assoc. reflexivity.
  - rewrite get_top_complaints_eq. cbn [kept_after existsb app].
    rewrite Hnd. reflexivity.
Qed.

Lemma C7_second_of_same_words_dropped_witness :
  overlap (word_set "Never  showed UP") (word_set "never showed up") = Ok f1_0
  /\ PyFloat.gtb f1_0 f0_5 = true
  /\ _get_top_complaints
       (["rude staff"] ++ "never showed up"
          :: ["too expensive"] ++ "Never  showed UP" :: ["sloppy work"]) 10
     = _get_top_complaints
         (["rude staff"] ++ "never showed up"
            :: ["too expensive"] ++ ["sloppy work"]) 10
  /\ (is_duplicate (word_set "never showed up") (kept_after ["rude staff"] [])
        = Ok false ->
      exists more,
        dedup_loop
          (["rude staff"] ++ "never showed up"
             :: ["too expensive"] ++ "Never  showed UP" :: ["sloppy work"]) []
          = Ok (kept_after ["rude staff"] [] ++ "never showed up" :: more))
  /\ _get_top_complaints ["never showed up"; "Never  showed UP"] 10
     = Ok ["never showed up"].
Proof.
  apply (C7_second_of_same_words_dropped
           ["rude staff"] ["too expensive"] ["sloppy work"]
           "never showed up" "Never  showed UP" 10).
  - vm_compute. reflexivity.
  - vm_compute. discriminate.
Defined.

(** C8: for a limit that is not negative (the default is 10),
    [_get_top_complaints] returns a list on which it returns that same list
    again; and a list without near-duplicates is returned as it is, cut at
    the limit, so that a second run changes nothing. *)
Theorem C8_deduplication_idempotent (complaints : list string) (limit : Z) :
  0 <= limit ->
  exists kept,
    _get_top_complaints complaints limit = Ok kept
    /\ _get_top_complaints kept limit = Ok kept
    /\ (no_near_duplicates complaints -> kept = slice_to complaints limit).
Proof.
  intros Hlimit. exists (slice_to (kept_after complaints []) limit).
  rewrite !get_top_complaints_eq, !slice_to_nonneg by exact Hlimit.
  assert (distinct (kept_after complaints [])) as Hd
    by (apply kept_after_distinct; constructor).
  split; [reflexivity|]. split.
  - f_equal.
    assert (distinct (take (Z.to_nat limit) (kept_after complaints []))) as Hdt.
    { apply (distinct_app_l _ (drop (Z.to_nat limit) (kept_after complaints []))).
      rewrite take_drop. exact Hd. }
    rewrite (kept_after_of_distinct _ [] Hdt). simpl.
    rewrite take_take, Nat.min_id. reflexivity.
  - intros Hno. f_equal.
    apply (kept_after_of_distinct complaints []).
    apply no_near_duplicates_distinct, Hno.
Qed.

Lemma C8_deduplication_idempotent_witness :
  exists kept,
    _get_top_complaints ["never showed up"; "too expensive"; "Never showed  up"] 10
      = Ok kept
    /\ _get_top_complaints kept 10 = Ok kept
    /\ (no_near_duplicates ["never showed up"; "too expensive"; "Never showed  up"]
        -> kept = slice_to ["never showed up"; "too expensive"; "Never showed  up"] 10).
Proof.
  apply (C8_deduplication_idempotent
           ["never showed up"; "too expensive"; "Never showed  up"] 10).
  lia.
Defined.

End Deduplication.

(** ** C5: when [analyze] raises *)

Section Analyze.

Import OpportunityAnalyzer.

Lemma int_true_divide_raises (a b : Z) (e : exn) :
  int_true_divide a b = Raise e -> e = ZeroDivisionError \/ e = OverflowError.
Proof.
  unfold int_true_divide. repeat case_match; intros Hr; inversion Hr; auto.
Qed.

Lemma float_truediv_int_raises (x : float) (n : Z) (e : exn) :
  float_truediv_int x n = Raise e -> e = ZeroDivisionError \/ e = OverflowError.
Proof.
  unfold float_truediv_int, float_of_int.
  destruct (overflow_threshold <=? Z.abs n); [intros Hr; inversion Hr; auto|].
  rewrite bind_Ok. case_match; intros Hr; inversion Hr; auto.
Qed.

Lemma omap_length_le {A B} (f : A -> option B) (xs : list A) :
  (length (omap f xs) <= length xs)%nat.
Proof.
  induction xs as [|x xs IH]; simpl; [lia|].
  change (list_omap A B f xs) with (omap f xs).
  destruct (f x); simpl; lia.
Qed.

Lemma sys_maxsize_small : sys_maxsize < overflow_threshold.
Proof.
  pose proof overflow_threshold_large as Hbig.
  apply Z.lt_le_trans with (2 ^ 64); [|exact Hbig].
  apply Z.ltb_lt. vm_compute. reflexivity.
Qed.

Lemma mean_rating_returns (ratings : list float) :
  len ratings <= sys_maxsize -> exists avg, mean_rating ratings = Ok avg.
Proof.
  intros Hlen. pose proof sys_maxsize_small.
  pose proof overflow_threshold_large.
  destruct ratings as [|r rs]; [eexists; reflexivity|].
  unfold mean_rating. rewrite float_truediv_int_in_range; [eexists; reflexivity| |].
  - unfold len in *. lia.
  - unfold len in *. lia.
Qed.

Lemma mean_rating_raises (ratings : list float) (e : exn) :
  mean_rating ratings = Raise e -> e = ZeroDivisionError \/ e = OverflowError.
Proof.
  destruct ratings; [discriminate|]. apply float_truediv_int_raises.
Qed.

Lemma calculate_score_raises (self : OpportunityScore.t) (e : exn) :
  OpportunityScore.calculate_score self = Raise e ->
  e = ZeroDivisionError \/ e = OverflowError.
Proof.
  unfold OpportunityScore.calculate_score, OpportunityScore.website_gap_ratio.
  destruct (int_true_divide _ _) as [ratio|e'] eqn:Hdiv; [discriminate|].
  intros H. inversion H; subst. eapply int_true_divide_raises, Hdiv.
Qed.

(** On a non-empty list [analyze] prints its line and goes through its
    steps in order. *)
Lemma analyze_nonempty (p : platform) (bs : list Business.t)
    (category location : string) :
  bs <> [] ->
  analyze p (mk bs) category location =
    (_ ← console_print p (analyzing_message category location);
     avg_reviews_per_business ←
       int_true_divide (sum_ints (List.map Business.review_count bs))
                       (Z.max (len bs) 1);
     avg_rating ← mean_rating (omap rating_truthy bs);
     common_complaints ←
       _get_top_complaints
         (List.flat_map
            (fun biz =>
               List.flat_map (fun review => _extract_complaints (Review.text review))
                             (Business.negative_reviews biz)) bs) 10;
     '(_, score) ←
       OpportunityScore.calculate_score
         (OpportunityScore.mk category location (len bs)
            (sum_ints (List.map Business.review_count bs))
            avg_reviews_per_business avg_rating
            (count_if is_low_rated bs) (count_if lacks_website bs)
            0 PyFloat.zero common_complaints
            (_categorize_complaints
               (List.flat_map
                  (fun biz =>
                     List.flat_map
                       (fun review => _extract_complaints (Review.text review))
                       (Business.negative_reviews biz)) bs)) 0);
     Ok score).
Proof.
  intros Hne. destruct bs as [|b bs]; [congruence|]. reflexivity.
Qed.

(** The score [analyze] returns carries the counts of the list and the
    value [calculate_score] computed from them. *)
Lemma analyze_scored (p : platform) (bs : list Business.t)
    (category location : string) (score : OpportunityScore.t) :
  analyze p (mk bs) category location = Ok score ->
  OpportunityScore.total_businesses score = len bs
  /\ OpportunityScore.total_reviews score
     = sum_ints (List.map Business.review_count bs)
  /\ OpportunityScore.businesses_without_website score
     = count_if lacks_website bs
  /\ exists ratio,
       OpportunityScore.website_gap_ratio score = Ok ratio
       /\ OpportunityScore.opportunity_score score
          = OpportunityScore.market_size_points (OpportunityScore.total_reviews score)
            + OpportunityScore.competition_gap_points
                (OpportunityScore.total_businesses score)
            + OpportunityScore.quality_gap_points (OpportunityScore.avg_rating score)
            + OpportunityScore.digital_gap_points ratio.
Proof.
  intros Hok. destruct bs as [|b bs'] eqn:Hbs; [discriminate|].
  rewrite <- Hbs in *. rewrite analyze_nonempty in Hok by (subst; discriminate).
  destruct (console_print _ _) as [[]|]; [|discriminate].
  rewrite bind_Ok in Hok.
  destruct (int_true_divide _ _) as [arpb|]; [|discriminate].
  rewrite bind_Ok in Hok.
  destruct (mean_rating _) as [avg|]; [|discriminate].
  rewrite bind_Ok, get_top_complaints_eq, bind_Ok in Hok.
  match type of Hok with
  | context [OpportunityScore.calculate_score ?sc] =>
      destruct (OpportunityScore.website_gap_ratio sc) as [ratio|e] eqn:Hratio;
      [rewrite (calculate_score_sum sc ratio Hratio), bind_Ok in Hok
      |unfold OpportunityScore.calculate_score in Hok; rewrite Hratio in Hok;
       discriminate]
  end.
  inversion Hok; subst score. cbn.
  repeat split; try reflexivity. exists ratio. split; [exact Hratio|reflexivity].
Qed.

(** C5, counterexample: a non-empty list on which [analyze] raises: the
    mean of a review count of [2^1024] over one business is no float, and
    the division raises OverflowError. *)
Lemma C5_analyze_raises_on_nonempty :
  [crowded_business] <> []
  /\ analyze sample_platform (mk [crowded_business]) "lawn care" "Austin, TX"
     = Raise OverflowError
  /\ ~ (exists score,
          analyze sample_platform (mk [crowded_business]) "lawn care" "Austin, TX"
            = Ok score).
Proof.
  assert (analyze sample_platform (mk [crowded_business]) "lawn care" "Austin, TX"
          = Raise OverflowError) as H by (vm_compute; reflexivity).
  split; [discriminate|]. split; [exact H|].
  intros [score Hs]. rewrite H in Hs. discriminate.
Qed.

(** C5, amended: [analyze] raises ValueError exactly when the list of
    businesses is empty.  On a non-empty list it first prints the category
    and the location, and raises MarkupError when Rich refuses that text.
    When Rich takes it, [analyze] (on a list of at most [sys.maxsize]
    entries, as every list is) returns an OpportunityScore when the sum of
    the review counts is, in magnitude, below [2^1024 - 2^970] times the
    number of businesses, and raises OverflowError otherwise. *)
Theorem C5_analyze_raises_when_empty (p : platform)
    (bs : list Business.t) (category location : string) :
  analyze p (mk []) category location = Raise (ValueError no_businesses_message)
  /\ (forall msg,
        analyze p (mk bs) category location = Raise (ValueError msg) -> bs = [])
  /\ (bs <> [] ->
      markup_error p (analyzing_message category location) = true ->
      analyze p (mk bs) category location = Raise MarkupError)
  /\ (bs <> [] ->
      markup_error p (analyzing_message category location) = false ->
      len bs <= sys_maxsize ->
      Z.abs (sum_ints (List.map Business.review_count bs))
        < overflow_threshold * len bs ->
      exists score, analyze p (mk bs) category location = Ok score)
  /\ (bs <> [] ->
      markup_error p (analyzing_message category location) = false ->
      overflow_threshold * len bs
        <= Z.abs (sum_ints (List.map Business.review_count bs)) ->
      analyze p (mk bs) category location = Raise OverflowError).
Proof.
  split; [reflexivity|].
  assert (bs <> [] -> 1 <= len bs) as Hlen1.
  { intros Hne. unfold len. destruct bs; [congruence|]. simpl length. lia. }
  split; [|split; [|split]].
  - intros msg Hraise. destruct bs as [|b bs'] eqn:Hbs; [reflexivity|].
    exfalso. rewrite <- Hbs in Hraise.
    rewrite analyze_nonempty in Hraise by (subst; discriminate).
    destruct (console_print _ _) as [[]|e0] eqn:H0.
    2:{ inversion Hraise; subst.
        destruct (console_print_raises _ _ _ H0); discriminate. }
    rewrite bind_Ok in Hraise.
    destruct (int_true_divide _ _) as [arpb|e1] eqn:H1.
    2:{ inversion Hraise; subst.
        destruct (int_true_divide_raises _ _ _ H1); discriminate. }
    rewrite bind_Ok in Hraise.
    destruct (mean_rating _) as [avg|e2] eqn:H2.
    2:{ inversion Hraise; subst.
        destruct (mean_rating_raises _ _ H2); discriminate. }
    rewrite bind_Ok in Hraise.
    rewrite get_top_complaints_eq, bind_Ok in Hraise.
    destruct (OpportunityScore.calculate_score _) as [[s sc]|e3] eqn:H3.
    + discriminate.
    + inversion Hraise; subst.
      destruct (calculate_score_raises _ _ H3); discriminate.
  - intros Hne Hrefused.
    rewrite (analyze_nonempty _ _ _ _ Hne).
    rewrite (console_print_refuses _ _ Hrefused). reflexivity.
  - intros Hne Haccepted Hmax Hsum. specialize (Hlen1 Hne).
    rewrite (analyze_nonempty _ _ _ _ Hne).
    rewrite (console_print_accepts _ _ Haccepted), bind_Ok.
    rewrite int_true_divide_in_range, bind_Ok.
    2:{ lia. }
    2:{ rewrite (Z.abs_eq (Z.max _ 1)) by lia.
        replace (Z.max (len bs) 1) with (len bs) by lia. exact Hsum. }
    destruct (mean_rating_returns (omap rating_truthy bs)) as [avg Havg].
    { pose proof (omap_length_le rating_truthy bs). unfold len in *. lia. }
    rewrite Havg, bind_Ok, get_top_complaints_eq, bind_Ok.
    match goal with
    | |- context [OpportunityScore.calculate_score ?sc] =>
        destruct (website_gap_ratio_in_range sc) as [ratio Hratio];
        [|rewrite (calculate_score_sum sc ratio Hratio), bind_Ok;
          eexists; reflexivity]
    end.
    cbn [OpportunityScore.businesses_without_website
           OpportunityScore.total_businesses].
    pose proof (count_if_bounds lacks_website bs).
    pose proof overflow_threshold_large. nia.
  - intros Hne Haccepted Hsum. specialize (Hlen1 Hne).
    rewrite (analyze_nonempty _ _ _ _ Hne).
    rewrite (console_print_accepts _ _ Haccepted), bind_Ok.
    rewrite int_true_divide_overflow; [reflexivity|lia|].
    rewrite (Z.abs_eq (Z.max _ 1)) by lia.
    replace (Z.max (len bs) 1) with (len bs) by lia. exact Hsum.
Qed.

Lemma C5_analyze_raises_when_empty_witness :
  exists score,
    analyze sample_platform (mk sample_businesses) "lawn care" "Austin, TX"
      = Ok score.
Proof.
  apply (C5_analyze_raises_when_empty sample_platform sample_businesses
           "lawn care" "Austin, TX").
  - vm_compute. discriminate.
  - reflexivity.
  - vm_compute. discriminate.
  - vm_compute. reflexivity.
Defined.

End Analyze.

(** ** C4: the tagline *)

Section Tagline.

Import ContentGenerator.
Local Open Scope string_scope.

(** The tagline for a loaded score, by the themes that occur in it. *)
Lemma generate_tagline_eq (score : OpportunityScore.t) :
  _generate_tagline (mk (Some score)) =
    let niche := title (OpportunityScore.category score) in
    let location := PyStr.first (split_on "," (OpportunityScore.location score)) in
    let themes := OpportunityScore.complaint_themes score in
    Ok (if mem "pricing" themes then pricing_tagline niche location
        else if mem "reliability" themes then reliability_tagline niche location
        else if mem "quality" themes then quality_tagline niche location
        else default_tagline niche location).
Proof.
  unfold _generate_tagline. cbn [ContentGenerator.score].
  cbv zeta. repeat case_match; reflexivity.
Qed.

(** C4, counterexample: with "reliability" ranked first and "pricing"
    second the tagline is the pricing one, not the reliability one; with
    "professionalism" first and "quality" second it is the quality one, not
    the default. *)
Lemma C4_tagline_ignores_rank :
  _generate_tagline (mk (Some (score_with_themes ["reliability"; "pricing"])))
    = Ok "Save Money on Lawn Care in Austin"
  /\ "Save Money on Lawn Care in Austin"
     <> reliability_tagline "Lawn Care" "Austin"
  /\ _generate_tagline (mk (Some (score_with_themes ["professionalism"; "quality"])))
     = Ok "Quality Lawn Care in Austin - The Insider Guide"
  /\ "Quality Lawn Care in Austin - The Insider Guide"
     <> default_tagline "Lawn Care" "Austin".
Proof. repeat split; vm_compute; congruence. Qed.

(** C4, amended: the tagline is chosen by which themes occur anywhere in
    [complaint_themes], in the fixed order pricing, reliability, quality,
    and is the default one when none of the three occurs.  So it matches
    the top-ranked theme when that is "pricing", when it is "reliability"
    and "pricing" does not occur, and when it is "quality" and neither
    "pricing" nor "reliability" occurs; it is the default one for an empty
    list and for a list in which none of the three occurs. *)
Theorem C4_tagline_by_occurrence (score : OpportunityScore.t) :
  let niche := title (OpportunityScore.category score) in
  let location := PyStr.first (split_on "," (OpportunityScore.location score)) in
  let themes := OpportunityScore.complaint_themes score in
  let tagline := _generate_tagline (mk (Some score)) in
  (mem "pricing" themes = true -> tagline = Ok (pricing_tagline niche location))
  /\ (mem "pricing" themes = false -> mem "reliability" themes = true ->
      tagline = Ok (reliability_tagline niche location))
  /\ (mem "pricing" themes = false -> mem "reliability" themes = false ->
      mem "quality" themes = true ->
      tagline = Ok (quality_tagline niche location))
  /\ (mem "pricing" themes = false -> mem "reliability" themes = false ->
      mem "quality" themes = false ->
      tagline = Ok (default_tagline niche location))
  /\ (forall rest, themes = "pricing" :: rest ->
      tagline = Ok (pricing_tagline niche location))
  /\ (forall rest, themes = "reliability" :: rest -> mem "pricing" rest = false ->
      tagline = Ok (reliability_tagline niche location))
  /\ (forall rest, themes = "quality" :: rest -> mem "pricing" rest = false ->
      mem "reliability" rest = false ->
      tagline = Ok (quality_tagline niche location))
  /\ (themes = [] -> tagline = Ok (default_tagline niche location)).
Proof.
  intros niche location themes tagline.
  subst tagline. rewrite generate_tagline_eq. cbv zeta.
  subst niche location themes.
  repeat split.
  - intros Hp. rewrite Hp. reflexivity.
  - intros Hp Hr. rewrite Hp, Hr. reflexivity.
  - intros Hp Hr Hq. rewrite Hp, Hr, Hq. reflexivity.
  - intros Hp Hr Hq. rewrite Hp, Hr, Hq. reflexivity.
  - intros rest Heq. rewrite Heq. reflexivity.
  - intros rest Heq Hp. rewrite Heq. unfold mem in *. cbn [existsb].
    rewrite Hp. reflexivity.
  - intros rest Heq Hp Hr. rewrite Heq. unfold mem in *. cbn [existsb].
    rewrite Hp, Hr. reflexivity.
  - intros Heq. rewrite Heq. reflexivity.
Qed.

Lemma C4_tagline_by_occurrence_witness :
  _generate_tagline (mk (Some (score_with_themes ["reliability"; "quality"])))
    = Ok (reliability_tagline "Lawn Care" "Austin").
Proof.
  apply (C4_tagline_by_occurrence (score_with_themes ["reliability"; "quality"]));
    reflexivity.
Defined.

End Tagline.

(** ** C6: outreach notes *)

Section Outreach.

Import LeadExporter.
Local Open Scope string_scope.

Lemma rating_rule_row (l : Lead.t) :
  rating_rule (Lead.row l) = Ok (Lead.rating_fires l).
Proof.
  unfold rating_rule, Lead.row, Lead.rating_fires.
  rewrite lookup_insert_eq.
  destruct (Lead.rating l) as [x|]; [|reflexivity].
  cbn [Json.of_opt_float Json.truthy lt_float].
  destruct (PyFloat.truthy x); reflexivity.
Qed.

Lemma website_rule_row (l : Lead.t) :
  website_rule (Lead.row l) = Lead.website_fires l.
Proof.
  unfold website_rule, Lead.row, Lead.website_fires.
  rewrite lookup_insert_ne by discriminate. rewrite lookup_insert_eq.
  destruct (Lead.website l); reflexivity.
Qed.

Lemma review_rule_row (l : Lead.t) :
  review_rule (Lead.row l) = Ok (Lead.review_fires l).
Proof.
  unfold review_rule, Lead.row, Lead.review_fires.
  rewrite !lookup_insert_ne by discriminate. rewrite lookup_insert_eq.
  reflexivity.
Qed.

Lemma opportunity_notes_row (l : Lead.t) :
  opportunity_notes (Lead.row l) = Ok (Lead.notes l).
Proof.
  unfold opportunity_notes, notes_of.
  rewrite rating_rule_row, bind_Ok, website_rule_row, review_rule_row, bind_Ok.
  rewrite bind_Ok. unfold Lead.notes, Lead.fragments.
  destruct (Lead.rating_fires l), (Lead.website_fires l), (Lead.review_fires l);
    reflexivity.
Qed.

Lemma enrich_row (l : Lead.t) : enrich (Lead.row l) = Ok (Lead.enriched l).
Proof. unfold enrich. rewrite opportunity_notes_row. reflexivity. Qed.

Lemma map_result_enrich (leads : list Lead.t) :
  map_result enrich (List.map Lead.row leads) = Ok (List.map Lead.enriched leads).
Proof.
  induction leads as [|l rest IH]; [reflexivity|].
  cbn [List.map map_result]. rewrite enrich_row, bind_Ok, IH. reflexivity.
Qed.

Lemma export_outreach_list_rows (p : platform) (w : world)
    (leads : list Lead.t) (filename : option string) :
  export_outreach_list p w (List.map Lead.row leads) filename =
    let '(name, w1) := default_filename p w filename "outreach_" ".csv" in
    Ok (path_join OUTPUT_DIR name, List.map Lead.enriched leads,
        write_file w1 (path_join OUTPUT_DIR name)
          (CsvFile OUTREACH_FIELDS
             (List.map (csv_row OUTREACH_FIELDS) (List.map Lead.enriched leads)))).
Proof.
  unfold export_outreach_list.
  destruct (default_filename p w filename "outreach_" ".csv") as [name w1].
  rewrite map_result_enrich, bind_Ok. reflexivity.
Qed.

(** C6, counterexample: a record with rating 0.0 has a rating below 4.0,
    but the rule, which first asks for a rating that is true, does not fire:
    with a website and 200 reviews the record gets "Standard outreach". *)
Lemma C6_zero_rating_is_not_noted :
  rating_below_4 (Lead.mk (Some PyFloat.zero) (Some "https://x.com") 200 ∅) = true
  /\ opportunity_notes
       (Lead.row (Lead.mk (Some PyFloat.zero) (Some "https://x.com") 200 ∅))
     = Ok "Standard outreach"
  /\ opportunity_notes
       (Lead.row (Lead.mk (Some PyFloat.zero) (Some "https://x.com") 200 ∅))
     <> Ok rating_note.
Proof.
  split; [reflexivity|]. rewrite opportunity_notes_row.
  split; [reflexivity|]. vm_compute. congruence.
Qed.

(** C6, amended: the outreach export returns, for rows with a rating that
    is a float or missing, a website that is a string or missing and an
    integer review count, the rows with [opportunity_notes] added, and
    writes them.  The note is made of the fragments of three rules, each
    looked at on its own: the rating is there, is not zero and is below
    4.0; the website is missing or empty; the review count is below 20.
    The fragments are joined by "; " in that order, and the note is
    "Standard outreach" when no rule fires.  A record with rating 3.5, no
    website and 5 reviews gets the three fragments; one with rating 4.8,
    website "https://x.com" and 200 reviews gets "Standard outreach". *)
Theorem C6_outreach_notes (p : platform) (w : world)
    (leads : list Lead.t) (filename : option string)
    (other : gmap string json) :
  (exists path w',
     export_outreach_list p w (List.map Lead.row leads) filename
       = Ok (path, List.map Lead.enriched leads, w')
     /\ files w' !! path
        = Some (CsvFile OUTREACH_FIELDS
                  (List.map (csv_row OUTREACH_FIELDS)
                            (List.map Lead.enriched leads))))
  /\ (forall l,
        Lead.enriched l !! "opportunity_notes" = Some (JStr (Lead.notes l))
        /\ List.last (csv_row OUTREACH_FIELDS (Lead.enriched l)) JNull
           = JStr (Lead.notes l)
        /\ Lead.notes l =
             match
               ((if Lead.rating_fires l then [rating_note] else [])
                ++ (if Lead.website_fires l then [website_note] else [])
                ++ (if Lead.review_fires l then [review_note] else []))%list
             with
             | [] => "Standard outreach"
             | fs => join "; " fs
             end)
  /\ Lead.notes (Lead.mk (Some f3_5) None 5 other)
     = "Below avg rating - may want help; No website - digital marketing opportunity; Low review count - reputation management"
  /\ Lead.notes (Lead.mk (Some f4_8) (Some "https://x.com") 200 other)
     = "Standard outreach".
Proof.
  split; [|split; [|split]].
  - rewrite export_outreach_list_rows.
    destruct (default_filename p w filename "outreach_" ".csv") as [name w1].
    eexists _, _. split; [reflexivity|].
    unfold write_file. cbn [files]. apply lookup_insert_eq.
  - intros l. split; [apply lookup_insert_eq|]. split; [|reflexivity].
    unfold csv_row, OUTREACH_FIELDS. cbn [List.map List.last].
    unfold Lead.enriched. rewrite lookup_insert_eq. reflexivity.
  - reflexivity.
  - reflexivity.
Qed.

End Outreach.

(** ** C2 and C3: the collector *)

Section Collector.

Import GoogleMapsScraper.
Local Open Scope string_scope.
Local Open Scope Z_scope.

(** The five records of the fixture, and five readings of the clock. *)
Lemma get_demo_data_eq (p : platform) (w : world) (query location : string) :
  _get_demo_data p w query location =
    (let at_tick n :=
       wall_clock p (ticks w + n)%nat in
     let record name place_id address phone website rating review_count negative n :=
       Business.mk name place_id query address
         (demo_city location) (demo_state location)
         None None None phone website (Some rating) review_count
         (_get_demo_reviews negative) (at_tick n) in
     [ record ("Pro " ++ title query ++ " Services") "demo_1" "123 Main St"
         (Some "(555) 123-4567") (Some "https://example.com") f4_2 47 false 0%nat;
       record ("Budget " ++ title query ++ " Co") "demo_2" "456 Oak Ave"
         (Some "(555) 234-5678") None f3_1 23 true 1%nat;
       record ("Elite " ++ title query) "demo_3" "789 Pine Rd"
         (Some "(555) 345-6789") (Some "https://elite-example.com") f4_8 156 false 2%nat;
       record ("Local " ++ title query ++ " Experts") "demo_4" "321 Elm St"
         None None f2_9 12 true 3%nat;
       record ("Family " ++ title query ++ " Service") "demo_5" "654 Maple Dr"
         (Some "(555) 456-7890") None f4_5 89 false 4%nat ],
     mk_world (ticks w + 5)%nat (requests w) (files w)).
Proof.
  unfold _get_demo_data, demo_business, datetime_now. cbn [ticks requests files].
  cbv zeta. repeat f_equal; lia.
Qed.

(** A collector without a credential never fills its cache. *)
Lemma reachable_no_key_cache (p : platform) (self : t) :
  reachable p self -> no_api_key self = true -> results_cache self = ∅.
Proof.
  induction 1 as [api_key serpapi_key
                 |fuel self w query location max_results found self' w' Hreach IH Hsearch];
    intros Hno.
  - reflexivity.
  - unfold search in Hsearch.
    destruct (results_cache self !! cache_key query location) as [cached|].
    + inversion Hsearch; subst. apply IH, Hno.
    + destruct (no_api_key self) eqn:Hkey.
      * destruct (_get_demo_data p w query location) as [demo w1].
        inversion Hsearch; subst. apply IH. reflexivity.
      * destruct (search_pages _ _ _ _ _ _ _ _) as [[bs w1]|]; [|discriminate].
        cbn in Hsearch. inversion Hsearch; subst.
        unfold no_api_key in *. cbn [api_key] in Hno. congruence.
Qed.

Lemma search_demo (fuel : nat) (p : platform) (self : t) (w : world)
    (query location : string) (max_results : Z) :
  results_cache self !! cache_key query location = None ->
  no_api_key self = true ->
  search fuel p self w query location max_results
    = Some (fst (_get_demo_data p w query location), self,
            snd (_get_demo_data p w query location)).
Proof.
  intros Hmiss Hno. unfold search. rewrite Hmiss, Hno.
  destruct (_get_demo_data p w query location); reflexivity.
Qed.

(** C2, counterexample: the city of the demo records follows the location
    text, so more than the name and the category varies. *)
Lemma C2_city_varies_with_location :
  exists found1 found2 w1 w2,
    search 0 sample_platform (init None None) empty_world
           "lawn care" "Austin, TX" 20
      = Some (found1, init None None, w1)
    /\ search 0 sample_platform (init None None) empty_world
              "lawn care" "Charlotte, NC" 20
       = Some (found2, init None None, w2)
    /\ List.map all_but_name_and_category found1
       <> List.map all_but_name_and_category found2
    /\ List.map Business.city found1 <> List.map Business.city found2.
Proof.
  eexists _, _, _, _.
  split; [vm_compute; reflexivity|].
  split; [vm_compute; reflexivity|].
  split; vm_compute; discriminate.
Qed.

(** C2, amended: a collector without a credential answers every search
    with five records whose [place_id]s are demo_1 to demo_5 in this order.
    The query text decides the names and the category, the location text
    decides the city and the state, and every other field but the time of
    creation is the same for all queries and locations. *)
Theorem C2_demo_search (fuel : nat) (p : platform) (self : t) (w : world)
    (query location : string) (max_results : Z) :
  reachable p self ->
  no_api_key self = true ->
  exists found w',
    search fuel p self w query location max_results = Some (found, self, w')
    /\ length found = 5%nat
    /\ List.map Business.place_id found
       = ["demo_1"; "demo_2"; "demo_3"; "demo_4"; "demo_5"]
    /\ List.map Business.name found
       = [ "Pro " ++ title query ++ " Services";
           "Budget " ++ title query ++ " Co";
           "Elite " ++ title query;
           "Local " ++ title query ++ " Experts";
           "Family " ++ title query ++ " Service" ]
    /\ List.map Business.category found = [query; query; query; query; query]
    /\ List.map Business.city found = List.repeat (demo_city location) 5
    /\ List.map Business.state found = List.repeat (demo_state location) 5
    /\ List.map fixture_fields found = List.map fixture_fields sample_businesses.
Proof.
  intros Hreach Hno.
  pose proof (reachable_no_key_cache p self Hreach Hno) as Hcache.
  rewrite search_demo; [|rewrite Hcache; apply lookup_empty|exact Hno].
  eexists _, _. split; [reflexivity|].
  rewrite get_demo_data_eq. cbn [fst]. cbv zeta.
  repeat split; reflexivity.
Qed.

Lemma C2_demo_search_witness :
  exists found w',
    search 0 sample_platform (init (Some "") None) empty_world
           "pool service" "Tampa, FL" 20
      = Some (found, init (Some "") None, w')
    /\ length found = 5%nat
    /\ List.map Business.place_id found
       = ["demo_1"; "demo_2"; "demo_3"; "demo_4"; "demo_5"]
    /\ List.map Business.name found
       = [ "Pro " ++ title "pool service" ++ " Services";
           "Budget " ++ title "pool service" ++ " Co";
           "Elite " ++ title "pool service";
           "Local " ++ title "pool service" ++ " Experts";
           "Family " ++ title "pool service" ++ " Service" ]
    /\ List.map Business.category found
       = ["pool service"; "pool service"; "pool service"; "pool service";
          "pool service"]
    /\ List.map Business.city found = List.repeat (demo_city "Tampa, FL") 5
    /\ List.map Business.state found = List.repeat (demo_state "Tampa, FL") 5
    /\ List.map fixture_fields found = List.map fixture_fields sample_businesses.
Proof.
  apply (C2_demo_search 0 sample_platform (init (Some "") None) empty_world
           "pool service" "Tampa, FL" 20).
  - apply reachable_init.
  - reflexivity.
Defined.

Lemma parse_results_requests (p : platform) (w : world)
    (local_results : list SerpApi.listing) (location : string) :
  requests (snd (parse_results p w local_results location)) = requests w.
Proof.
  revert w. induction local_results as [|r rest IH]; intros w; [reflexivity|].
  cbn [parse_results].
  destruct r as [|r]; cbn [_parse_result].
  - specialize (IH w). destruct (parse_results p w rest location). exact IH.
  - destruct (_parse_location _ _) as [city state].
    cbn [datetime_now].
    match goal with
    | |- context [parse_results p ?w1 rest location] =>
        specialize (IH w1); destruct (parse_results p w1 rest location)
    end.
    exact IH.
Qed.

(** The loop is left at the latest on the first failed or short page. *)
Lemma search_pages_returns (k : nat) :
  forall (fuel : nat) (p : platform) (w : world) (query location : string)
         (max_results : Z) (businesses : list Business.t) (start : Z),
    (k < fuel)%nat ->
    last_page (serpapi p (requests w + k)%nat (search_string query location)
                       (start + 20 * Z.of_nat k)) = true ->
    exists r, search_pages fuel p w query location max_results businesses start
              = Some r.
Proof.
  induction k as [|k IH]; intros fuel p w query location max_results
                                 businesses start Hfuel Hlast;
    (destruct fuel as [|fuel]; [lia|]); cbn [search_pages];
    (destruct (len businesses <? max_results); [|eexists; reflexivity]);
    unfold http_get;
    replace (requests w + 0)%nat with (requests w) in * by lia;
    replace (start + 20 * Z.of_nat 0)%Z with start in * by lia.
  - destruct (serpapi p (requests w) (search_string query location) start)
      as [|[|r rest]]; try (eexists; reflexivity).
    cbn [last_page] in Hlast.
    destruct (parse_results _ _ _ _) as [parsed w1].
    rewrite Hlast. eexists; reflexivity.
  - destruct (serpapi p (requests w) (search_string query location) start)
      as [|[|r rest]] eqn:Hresp; try (eexists; reflexivity).
    destruct (parse_results p _ (r :: rest) location) as [parsed w1] eqn:Hparse.
    destruct (len (r :: rest) <? 20); [eexists; reflexivity|].
    apply IH; [lia|].
    pose proof (parse_results_requests p
                  (mk_world (ticks w) (S (requests w)) (files w))
                  (r :: rest) location) as Hreq.
    rewrite Hparse in Hreq. cbn [snd requests] in Hreq. rewrite Hreq.
    replace (S (requests w) + k)%nat with (requests w + S k)%nat by lia.
    replace (start + 20 + 20 * Z.of_nat k)%Z
      with (start + 20 * Z.of_nat (S k))%Z by lia.
    exact Hlast.
Qed.

Lemma slice_to_length {A} (xs : list A) (n : Z) :
  (0 <= n)%Z -> (len (slice_to xs n) <= n)%Z.
Proof.
  intros Hn. rewrite slice_to_nonneg by exact Hn.
  unfold len. rewrite length_take. lia.
Qed.

(** C3, counterexample: without a credential a search for at most three
    results returns the five demo records; with a credential, a search for
    at most -1 results returns the empty list, which is longer than -1; and
    a list of one record that a search for at most 20 results stored in the
    cache is returned as it is by a later search for at most 0 results. *)
Lemma C3_search_exceeds_max_results :
  (exists found w',
     search 0 sample_platform (init None None) empty_world
            "lawn care" "Austin, TX" 3
       = Some (found, init None None, w')
     /\ len found = 5
     /\ ~ (len found <= 3))
  /\ (exists self' w',
        search 1 one_listing_platform (init (Some "key") None) empty_world
               "lawn care" "Austin, TX" (-1)
          = Some ([], self', w')
        /\ ~ (len (@nil Business.t) <= -1))
  /\ (exists found self' w' w'',
        search 1 one_listing_platform (init (Some "key") None) empty_world
               "lawn care" "Austin, TX" 20
          = Some (found, self', w')
        /\ search 1 one_listing_platform self' w' "lawn care" "Austin, TX" 0
           = Some (found, self', w'')
        /\ len found = 1
        /\ ~ (len found <= 0)).
Proof.
  split; [|split].
  - eexists _, _. split; [vm_compute; reflexivity|].
    split; [reflexivity|]. vm_compute. congruence.
  - eexists _, _. split; [vm_compute; reflexivity|]. vm_compute. congruence.
  - eexists _, _, _, _. split; [vm_compute; reflexivity|].
    split; [vm_compute; reflexivity|].
    split; [reflexivity|]. vm_compute. congruence.
Qed.

(** C3, amended: with a credential, a [max_results] that is not negative
    and no cached answer for the query and location, the list that
    [search] returns has at most [max_results] records; and [search] does
    return, at the latest when a request fails or a page has fewer than 20
    entries.  A cached answer is returned as it was stored, and without a
    credential the list is the five demo records, whatever [max_results]
    is. *)
Theorem C3_search_capped (p : platform) (self : t) (w : world)
    (query location : string) (max_results : Z) :
  (0 <= max_results ->
   results_cache self !! cache_key query location = None ->
   no_api_key self = false ->
   (forall fuel found self' w',
      search fuel p self w query location max_results = Some (found, self', w') ->
      len found <= max_results)
   /\ (forall k,
         last_page (serpapi p (requests w + k)%nat (search_string query location)
                            (20 * Z.of_nat k)) = true ->
         exists found self' w',
           search (S k) p self w query location max_results
             = Some (found, self', w')
           /\ len found <= max_results))
  /\ (forall cached fuel,
        results_cache self !! cache_key query location = Some cached ->
        search fuel p self w query location max_results = Some (cached, self, w))
  /\ (forall fuel,
        results_cache self !! cache_key query location = None ->
        no_api_key self = true ->
        exists found w',
          search fuel p self w query location max_results = Some (found, self, w')
          /\ len found = 5).
Proof.
  split; [|split].
  - intros Hmax Hmiss Hkey.
    assert (forall fuel found self' w',
              search fuel p self w query location max_results
                = Some (found, self', w') ->
              len found <= max_results) as Hcap.
    { intros fuel found self' w' Hsearch. unfold search in Hsearch.
      rewrite Hmiss, Hkey in Hsearch.
      destruct (search_pages _ _ _ _ _ _ _ _) as [[bs w1]|]; [|discriminate].
      cbn in Hsearch. inversion Hsearch; subst.
      apply slice_to_length, Hmax. }
    split; [exact Hcap|].
    intros k Hlast.
    destruct (search_pages_returns k (S k) p w query location max_results [] 0)
      as [[bs w1] Hpages]; [lia|exact Hlast|].
    assert (search (S k) p self w query location max_results
            = Some (slice_to bs max_results,
                    mk (api_key self)
                       (<[cache_key query location := slice_to bs max_results]>
                          (results_cache self)), w1)) as Hsearch.
    { unfold search. rewrite Hmiss, Hkey, Hpages. reflexivity. }
    eexists _, _, _. split; [exact Hsearch|]. exact (Hcap _ _ _ _ Hsearch).
  - intros cached fuel Hhit. unfold search. rewrite Hhit. reflexivity.
  - intros fuel Hmiss Hno. rewrite (search_demo _ _ _ _ _ _ _ Hmiss Hno).
    eexists _, _. split; [reflexivity|].
    rewrite get_demo_data_eq. reflexivity.
Qed.

Lemma C3_search_capped_witness :
  exists found self' w',
    search 1 one_listing_platform (init (Some "key") None) empty_world
           "lawn care" "Austin, TX" 20
      = Some (found, self', w')
    /\ len found <= 20.
Proof.
  apply (C3_search_capped one_listing_platform (init (Some "key") None)
           empty_world "lawn care" "Austin, TX" 20).
  - lia.
  - apply lookup_empty.
  - reflexivity.
  - reflexivity.
Defined.

End Collector.

(** ** C9: the scrape file, written and read back *)

Section ScrapeFile.

Local Open Scope string_scope.
Local Open Scope Z_scope.

Lemma digit_value_digit (d : Z) :
  0 <= d <= 9 -> DateTime.digit_value (digit d) = Some d.
Proof.
  intros Hd.
  assert (d = 0 \/ d = 1 \/ d = 2 \/ d = 3 \/ d = 4 \/ d = 5 \/ d = 6
          \/ d = 7 \/ d = 8 \/ d = 9) as Hcases by lia.
  repeat (destruct Hcases as [->|Hcases]; [reflexivity|]).
  subst. reflexivity.
Qed.

Lemma append_cons (c : ascii) (s rest : string) :
  String c s ++ rest = String c (s ++ rest).
Proof. reflexivity. Qed.

Lemma append_empty (rest : string) : "" ++ rest = rest.
Proof. reflexivity. Qed.

Lemma append_empty_r (s : string) : s ++ "" = s.
Proof. induction s as [|c s IH]; [reflexivity|]. rewrite append_cons, IH. reflexivity. Qed.

Lemma some_bind {A B} (x : A) (f : A -> option B) : (Some x ≫= f) = f x.
Proof. reflexivity. Qed.

(** After a field was read: step over the separator that follows it. *)
Ltac next_field :=
  rewrite some_bind; cbv beta iota;
  rewrite append_cons, append_empty;
  cbn [DateTime.read_char Ascii.eqb Bool.eqb];
  rewrite some_bind; cbv beta.

Lemma read_digits_digits (width : nat) :
  forall (acc n : Z) (rest : string),
    0 <= n < 10 ^ Z.of_nat width ->
    DateTime.read_digits width acc (DateTime.digits width n ++ rest)
      = Some (acc * 10 ^ Z.of_nat width + n, rest).
Proof.
  induction width as [|width IH]; intros acc n rest Hn.
  - cbn [DateTime.read_digits DateTime.digits]. rewrite append_empty.
    change (10 ^ Z.of_nat 0) with 1 in *. do 2 f_equal. lia.
  - cbn [DateTime.read_digits DateTime.digits]. rewrite append_cons.
    set (pw := 10 ^ Z.of_nat width) in *.
    assert (0 < pw) as Hpw by (apply Z.pow_pos_nonneg; lia).
    assert (10 ^ Z.of_nat (S width) = 10 * pw) as Hs.
    { rewrite Nat2Z.inj_succ, Z.pow_succ_r by lia. reflexivity. }
    rewrite Hs in *.
    pose proof (Z.div_mod n pw ltac:(lia)) as Hdm.
    pose proof (Z.mod_pos_bound n pw Hpw) as Hmod.
    assert (0 <= n / pw <= 9) as Hq.
    { split; [apply Z.div_pos; lia|].
      assert (n / pw < 10); [|lia]. apply Z.div_lt_upper_bound; lia. }
    rewrite (digit_value_digit _ Hq).
    rewrite (IH _ _ _ Hmod). do 2 f_equal. nia.
Qed.

Lemma valid_bounds (d : datetime) :
  DateTime.valid d = true ->
  0 <= year d < 10 ^ 4 /\ 0 <= month d < 10 ^ 2 /\ 0 <= day d < 10 ^ 2
  /\ 0 <= hour d < 10 ^ 2 /\ 0 <= minute d < 10 ^ 2 /\ 0 <= second d < 10 ^ 2
  /\ 0 <= microsecond d < 10 ^ 6.
Proof.
  unfold DateTime.valid. rewrite !andb_true_iff, !Z.leb_le.
  intros Hv.
  assert (DateTime.days_in_month (year d) (month d) <= 31) as Hdays.
  { unfold DateTime.days_in_month. repeat case_match; lia. }
  change (10 ^ 4) with 10000. change (10 ^ 2) with 100.
  change (10 ^ 6) with 1000000. lia.
Qed.

Lemma parse_isoformat (d : datetime) :
  DateTime.valid d = true -> DateTime.parse (DateTime.isoformat d) = Some d.
Proof.
  intros Hv. destruct (valid_bounds d Hv) as (Hy & Hmo & Hd & Hh & Hmi & Hs & Hus).
  unfold DateTime.parse, DateTime.isoformat.
  rewrite (read_digits_digits 4 0 (year d)) by exact Hy. next_field.
  rewrite (read_digits_digits 2 0 (month d)) by exact Hmo. next_field.
  rewrite (read_digits_digits 2 0 (day d)) by exact Hd. next_field.
  rewrite (read_digits_digits 2 0 (hour d)) by exact Hh. next_field.
  rewrite (read_digits_digits 2 0 (minute d)) by exact Hmi. next_field.
  rewrite (read_digits_digits 2 0 (second d)) by exact Hs.
  rewrite some_bind. cbv beta iota.
  assert (DateTime.read_fraction
            (if microsecond d =? 0 then "" else "." ++ DateTime.digits 6 (microsecond d))
          = Some (microsecond d)) as Hfrac.
  { destruct (Z.eqb_spec (microsecond d) 0) as [Hz|Hnz].
    - rewrite Hz. reflexivity.
    - rewrite append_cons, append_empty.
      cbn [DateTime.read_fraction DateTime.read_char Ascii.eqb Bool.eqb].
      rewrite some_bind.
      rewrite <- (append_empty_r (DateTime.digits 6 (microsecond d))).
      rewrite (read_digits_digits 6 0 (microsecond d) "") by exact Hus.
      rewrite some_bind. cbv beta iota. cbn [String.eqb]. f_equal. }
  rewrite Hfrac, some_bind. destruct d. simpl.
  do 2 f_equal; lia.
Qed.

(** A date in the ranges of [datetime] is read back from its ISO text. *)
Lemma fromisoformat_isoformat (d : datetime) :
  DateTime.valid d = true ->
  DateTime.fromisoformat (DateTime.isoformat d) = Ok d.
Proof.
  intros Hv. unfold DateTime.fromisoformat.
  rewrite (parse_isoformat d Hv), Hv. reflexivity.
Qed.

Import OpportunityAnalyzer.

Lemma load_review_asdict (r : Review.t) :
  load_review (GoogleMapsScraper.asdict_review r)
    = Ok (Review.mk (Review.rating r) (Review.text r) None (Review.author r)).
Proof.
  destruct r as [rating text date author]. destruct author; reflexivity.
Qed.

Lemma load_reviews_asdict (rs : list Review.t) :
  map_result load_review (List.map GoogleMapsScraper.asdict_review rs)
    = Ok (List.map (fun r => Review.mk (Review.rating r) (Review.text r) None
                                        (Review.author r)) rs).
Proof.
  induction rs as [|r rs IH]; [reflexivity|].
  cbn [List.map map_result]. rewrite load_review_asdict, bind_Ok, IH.
  reflexivity.
Qed.

Lemma load_business_asdict (p : platform) (w : world) (b : Business.t) :
  DateTime.valid (Business.scraped_at b) = true ->
  load_business p w (GoogleMapsScraper.asdict_business b) = Ok (reloaded b, w).
Proof.
  intros Hv. unfold load_business, GoogleMapsScraper.asdict_business.
  cbn [Json.get Json.dict_get String.eqb Ascii.eqb Bool.eqb default from_option id].
  rewrite bind_Ok. cbn [Json.iter]. rewrite bind_Ok.
  rewrite load_reviews_asdict, bind_Ok.
  rewrite (fromisoformat_isoformat _ Hv), !bind_Ok.
  destruct b as [name place_id category address city state zip_code latitude
                 longitude phone website rating review_count reviews scraped_at].
  destruct zip_code, latitude, longitude, phone, website, rating; reflexivity.
Qed.

Lemma load_businesses_asdict (p : platform) (w : world) (bs : list Business.t) :
  Forall (fun b => DateTime.valid (Business.scraped_at b) = true) bs ->
  load_businesses p w (List.map GoogleMapsScraper.asdict_business bs)
    = Ok (List.map reloaded bs, w).
Proof.
  induction 1 as [|b bs Hb Hbs IH]; [reflexivity|].
  cbn [List.map load_businesses].
  rewrite (load_business_asdict p w b Hb), bind_Ok. cbv beta iota.
  rewrite IH, bind_Ok. reflexivity.
Qed.

Lemma dumpable_reviews (rs : list Review.t) :
  forallb Json.dumpable (List.map GoogleMapsScraper.asdict_review rs)
    = forallb (fun review => negb (too_long (Review.rating review))) rs.
Proof.
  induction rs as [| r rs IH]; [reflexivity |].
  cbn [List.map forallb]. rewrite IH. f_equal.
  unfold GoogleMapsScraper.asdict_review.
  destruct (Review.date r), (Review.author r); cbn;
    rewrite ?andb_true_r; reflexivity.
Qed.

Lemma dumpable_business (b : Business.t) :
  Json.dumpable (GoogleMapsScraper.asdict_business b) = writable b.
Proof.
  unfold GoogleMapsScraper.asdict_business, writable.
  cbn [Json.dumpable forallb snd]. rewrite dumpable_reviews.
  destruct (Business.zip_code b), (Business.latitude b), (Business.longitude b),
    (Business.phone b), (Business.website b), (Business.rating b);
    cbn [Json.of_opt_str Json.of_opt_float Json.dumpable andb];
    rewrite ?andb_true_r; reflexivity.
Qed.

Lemma dumpable_businesses (bs : list Business.t) :
  forallb Json.dumpable (List.map GoogleMapsScraper.asdict_business bs)
    = forallb writable bs.
Proof.
  induction bs as [| b bs IH]; [reflexivity |].
  cbn [List.map forallb]. rewrite IH, dumpable_business. reflexivity.
Qed.

(** The document of [save_results] can be written exactly when the
    businesses can (the count is the length of a list). *)
Lemma dumpable_scrape (stamp : string) (bs : list Business.t) :
  Json.dumpable
    (JDict [ ("scraped_at", JStr stamp);
             ("count", JInt (len bs));
             ("businesses", JList (List.map GoogleMapsScraper.asdict_business bs)) ])
    = negb (too_long (len bs)) && forallb writable bs.
Proof.
  cbn [Json.dumpable forallb snd andb]. rewrite dumpable_businesses, andb_true_r.
  reflexivity.
Qed.

Lemma short_length {A} (xs : list A) :
  len xs <= sys_maxsize -> too_long (len xs) = false.
Proof.
  intros Hlen. apply short_below_limit.
  pose proof int_str_limit_large. unfold sys_maxsize, len in *. lia.
Qed.

(** [save_results], step by step, from the world after the clock was read. *)
Lemma save_results_eq (p : platform) (w : world) (bs : list Business.t)
    (filename : option string) :
  exists (w1 : world) (stamp : string),
    files w1 = files w
    /\ requests w1 = requests w
    /\ GoogleMapsScraper.save_results p w bs filename
       = (_ ← open_for_writing p (scrape_path p w filename);
          w2 ← Json.dump w1 (scrape_path p w filename)
                 (JDict [ ("scraped_at", JStr stamp);
                          ("count", JInt (len bs));
                          ("businesses",
                           JList (List.map GoogleMapsScraper.asdict_business bs)) ]);
          count ← str_of_int (len bs);
          _ ← console_print p
                (GoogleMapsScraper.saved_message count (scrape_path p w filename));
          Ok (scrape_path p w filename, w2)).
Proof.
  unfold GoogleMapsScraper.save_results, scrape_path.
  destruct (default_filename p w filename "scrape_" ".json") as [name w0] eqn:Hname.
  assert (Hframe : files w0 = files w /\ requests w0 = requests w).
  { unfold default_filename in Hname.
    destruct filename as [f |]; [destruct (PyStr.truthy f) |];
      cbn [datetime_now] in Hname; injection Hname as <- <-; split; reflexivity. }
  destruct Hframe as [Hfiles Hrequests].
  cbn [datetime_now fst].
  eexists _, _. split; [| split; [| reflexivity]]; cbn [files requests]; assumption.
Qed.

(** What [save_results] has written when it returns, and where. *)
Lemma save_results_file (p : platform) (w : world) (bs : list Business.t)
    (filename : option string) (path : string) (w' : world) :
  GoogleMapsScraper.save_results p w bs filename = Ok (path, w') ->
  path = scrape_path p w filename
  /\ requests w' = requests w
  /\ (forall other, other <> path -> files w' !! other = files w !! other)
  /\ forallb writable bs = true
  /\ open_error p path = None
  /\ markup_error p (GoogleMapsScraper.saved_message (decimal (len bs)) path) = false
  /\ exists stamp,
       files w' !! path
       = Some (JsonFile
                 (JDict [ ("scraped_at", JStr stamp);
                          ("count", JInt (len bs));
                          ("businesses",
                           JList (List.map GoogleMapsScraper.asdict_business bs)) ])).
Proof.
  destruct (save_results_eq p w bs filename)
    as (w1 & stamp & Hfiles & Hrequests & ->).
  destruct (open_for_writing p _) as [[] |] eqn:Hopen; [| discriminate].
  rewrite bind_Ok. unfold Json.dump. rewrite dumpable_scrape.
  destruct (too_long (len bs)) eqn:Hlen; [discriminate |].
  destruct (forallb writable bs) eqn:Hwritable; [| discriminate].
  cbn [negb andb]. rewrite bind_Ok, (str_of_int_short _ Hlen), bind_Ok.
  destruct (console_print p _) as [[] |] eqn:Hprint; [| discriminate].
  rewrite bind_Ok. intros [= <- <-].
  split; [reflexivity |]. split; [exact Hrequests |].
  split; [intros other Hother; cbn [write_file files];
          rewrite lookup_insert_ne by congruence; rewrite Hfiles; reflexivity |].
  split; [reflexivity |].
  split; [apply (open_for_writing_returns _ _ _ Hopen) |].
  split; [apply (console_print_returns _ _ _ Hprint) |].
  exists stamp. cbn [write_file files]. apply lookup_insert_eq.
Qed.

(** When [save_results] returns. *)
Lemma save_results_returns (p : platform) (w : world) (bs : list Business.t)
    (filename : option string) :
  forallb writable bs = true ->
  len bs <= sys_maxsize ->
  open_error p (scrape_path p w filename) = None ->
  markup_error p
    (GoogleMapsScraper.saved_message (decimal (len bs)) (scrape_path p w filename))
    = false ->
  exists w', GoogleMapsScraper.save_results p w bs filename
             = Ok (scrape_path p w filename, w').
Proof.
  intros Hwritable Hlen Hopen Hprint.
  destruct (save_results_eq p w bs filename) as (w1 & stamp & _ & _ & ->).
  unfold open_for_writing. rewrite Hopen, bind_Ok.
  unfold Json.dump. rewrite dumpable_scrape, (short_length bs Hlen), Hwritable.
  cbn [negb andb]. rewrite bind_Ok, (str_of_int_short _ (short_length bs Hlen)), bind_Ok.
  rewrite (console_print_accepts _ _ Hprint), bind_Ok.
  eexists. reflexivity.
Qed.

Lemma load_data_file (p : platform) (w : world) (self : OpportunityAnalyzer.t)
    (path stamp : string) (bs : list Business.t) :
  List.Forall (fun b => DateTime.valid (Business.scraped_at b) = true) bs ->
  files w !! path
    = Some (JsonFile
              (JDict [ ("scraped_at", JStr stamp);
                       ("count", JInt (len bs));
                       ("businesses",
                        JList (List.map GoogleMapsScraper.asdict_business bs)) ])) ->
  OpportunityAnalyzer.load_data p w self path
    = Ok (List.map reloaded bs, OpportunityAnalyzer.mk (List.map reloaded bs), w).
Proof.
  intros Hvalid Hfile. unfold OpportunityAnalyzer.load_data. rewrite Hfile.
  cbn [Json.get Json.dict_get String.eqb Ascii.eqb Bool.eqb default from_option id].
  rewrite bind_Ok. cbn [Json.iter]. rewrite bind_Ok.
  rewrite (load_businesses_asdict p _ bs Hvalid), bind_Ok. reflexivity.
Qed.

(** C9, counterexample: a list that [save_results] does not write.  The
    review count of its business has 4301 digits, and [json.dump] raises
    ValueError on it, so there is no file to load. *)
Lemma C9_huge_review_count_is_not_saved :
  GoogleMapsScraper.save_results sample_platform empty_world [huge_business]
    (Some "scrape_demo.json")
  = Raise (ValueError int_too_long_message)
  /\ ~ (exists path w',
          GoogleMapsScraper.save_results sample_platform empty_world
            [huge_business] (Some "scrape_demo.json")
          = Ok (path, w')).
Proof.
  assert (H : GoogleMapsScraper.save_results sample_platform empty_world
                [huge_business] (Some "scrape_demo.json")
              = Raise (ValueError int_too_long_message))
    by (vm_compute; reflexivity).
  split; [exact H |]. intros (path & w' & Hsaved). rewrite H in Hsaved.
  discriminate Hsaved.
Qed.

(** C9, amended: a list of businesses whose ints have at most 4300 digits
    (and whose creation times are in the ranges of [datetime]) is written
    by [save_results], when the file can be opened and Rich takes the line
    that names it, and is then read back by [load_data] as a list of the
    same length, in which every record has the [place_id], the rating and
    the review count of the original, and the texts of its reviews in the
    same order. *)
Theorem C9_scrape_file_round_trip (p : platform) (w : world)
    (bs : list Business.t) (filename : option string)
    (self : OpportunityAnalyzer.t) :
  List.Forall (fun b => DateTime.valid (Business.scraped_at b) = true) bs ->
  forallb writable bs = true ->
  len bs <= sys_maxsize ->
  open_error p (scrape_path p w filename) = None ->
  markup_error p
    (GoogleMapsScraper.saved_message (decimal (len bs)) (scrape_path p w filename))
    = false ->
  exists path w' loaded w'',
    GoogleMapsScraper.save_results p w bs filename = Ok (path, w')
    /\ OpportunityAnalyzer.load_data p w' self path
       = Ok (loaded, OpportunityAnalyzer.mk loaded, w'')
    /\ length loaded = length bs
    /\ Forall2
         (fun b b' =>
            Business.place_id b' = Business.place_id b
            /\ Business.rating b' = Business.rating b
            /\ Business.review_count b' = Business.review_count b
            /\ List.map Review.text (Business.reviews b')
               = List.map Review.text (Business.reviews b))
         bs loaded.
Proof.
  intros Hvalid Hwritable Hlen Hopen Hprint.
  destruct (save_results_returns p w bs filename Hwritable Hlen Hopen Hprint)
    as [w' Hsaved].
  destruct (save_results_file p w bs filename _ _ Hsaved)
    as (_ & _ & _ & _ & _ & _ & stamp & Hfile).
  exists (scrape_path p w filename), w', (List.map reloaded bs), w'.
  split; [exact Hsaved |]. split; [| split].
  - apply (load_data_file p w' self _ stamp bs Hvalid Hfile).
  - apply List.length_map.
  - clear. induction bs as [|b bs IH]; constructor; [|exact IH].
    destruct b. cbn. repeat split; try reflexivity.
    rewrite List.map_map. reflexivity.
Qed.

Lemma C9_scrape_file_round_trip_witness :
  exists path w' loaded w'',
    GoogleMapsScraper.save_results sample_platform empty_world sample_businesses
      (Some "scrape_demo.json")
      = Ok (path, w')
    /\ OpportunityAnalyzer.load_data sample_platform w' (OpportunityAnalyzer.mk []) path
       = Ok (loaded, OpportunityAnalyzer.mk loaded, w'')
    /\ length loaded = length sample_businesses
    /\ Forall2
         (fun b b' =>
            Business.place_id b' = Business.place_id b
            /\ Business.rating b' = Business.rating b
            /\ Business.review_count b' = Business.review_count b
            /\ List.map Review.text (Business.reviews b')
               = List.map Review.text (Business.reviews b))
         sample_businesses loaded.
Proof.
  apply (C9_scrape_file_round_trip sample_platform empty_world
           sample_businesses (Some "scrape_demo.json") (OpportunityAnalyzer.mk [])).
  - repeat constructor.
  - vm_compute. reflexivity.
  - vm_compute. discriminate.
  - reflexivity.
  - reflexivity.
Defined.

End ScrapeFile.

(** ** The data model: ratios and buckets *)

Section Models.

Import OpportunityScore.

Lemma bucket_values_multiple (v : Z) :
  v ∈ bucket_values -> exists k, v = 5 * k /\ 1 <= k <= 5.
Proof.
  unfold bucket_values. rewrite !elem_of_cons, elem_of_nil.
  intros [-> | [-> | [-> | [-> | [-> | []]]]]];
    [exists 1 | exists 2 | exists 3 | exists 4 | exists 5]; lia.
Qed.

Lemma SFdiv_zero (n : positive) :
  SFdiv prec emax (exact_of_int 0) (exact_of_int (Z.pos n)) = PyFloat.zero.
Proof. reflexivity. Qed.

Lemma filter_length_le {A} (f : A -> bool) (xs : list A) :
  (length (List.filter f xs) <= length xs)%nat.
Proof.
  induction xs as [| x xs IH]; simpl; [lia |].
  destruct (f x); simpl; lia.
Qed.

(** X1.  [negative_review_ratio] never raises: without reviews it is 0.0
    by the guard, and otherwise the number of negative reviews is at most
    the number of reviews, so the division has a result.  It is 0.0 when no
    review is negative and 1.0 when all of a non-empty list are. *)
Theorem negative_review_ratio_returns (self : Business.t) :
  exists ratio,
    Business.negative_review_ratio self = Ok ratio
    /\ (Business.negative_reviews self = [] -> ratio = PyFloat.zero)
    /\ (Business.reviews self <> [] ->
        Business.negative_reviews self = Business.reviews self ->
        ratio = f1_0).
Proof.
  unfold Business.negative_review_ratio.
  destruct (Business.reviews self) as [| r rs] eqn:Hreviews.
  - exists PyFloat.zero. repeat split; try reflexivity. intros Hne; congruence.
  - pose proof (filter_length_le Review.is_negative (Business.reviews self)) as Hle.
    fold (Business.negative_reviews self) in Hle. rewrite Hreviews in Hle.
    rewrite int_true_divide_fraction
      by (unfold len; simpl length in *; lia).
    eexists; split; [reflexivity |]. split.
    + intros ->. unfold len. simpl length.
      rewrite Nat2Z.inj_succ, <- Z.add_1_r.
      destruct (Z.of_nat (length rs) + 1) eqn:Hn; try lia. apply SFdiv_zero.
    + intros _ ->. unfold len. simpl length.
      rewrite Nat2Z.inj_succ, <- Z.add_1_r.
      destruct (Z.of_nat (length rs) + 1) eqn:Hn; try lia. apply SFdiv_self.
Qed.

(** X2.  Whenever [calculate_score] returns, the score is a multiple of 5
    between 20 and 100, the object returned is [self] with the score stored
    in [opportunity_score], and running [calculate_score] again on that
    object gives the same score and the same object: the stored score is
    not an input of the computation. *)
Theorem calculate_score_rerun (self self' : t) (score : Z) :
  calculate_score self = Ok (score, self') ->
  self' = set_opportunity_score self score
  /\ opportunity_score self' = score
  /\ score mod 5 = 0
  /\ 20 <= score <= 100
  /\ calculate_score self' = Ok (score, self').
Proof.
  intros Hscore.
  destruct (website_gap_ratio self) as [ratio | e] eqn:Hratio.
  2: { unfold calculate_score in Hscore. rewrite Hratio in Hscore. discriminate. }
  rewrite (calculate_score_sum self ratio Hratio) in Hscore.
  injection Hscore as Hs Hself. subst self'.
  destruct (bucket_values_multiple _ (market_size_points_in (total_reviews self)))
    as (k1 & H1 & B1).
  destruct (bucket_values_multiple _
              (competition_gap_points_in (total_businesses self)))
    as (k2 & H2 & B2).
  destruct (bucket_values_multiple _ (quality_gap_points_in (avg_rating self)))
    as (k3 & H3 & B3).
  destruct (bucket_values_multiple _ (digital_gap_points_in ratio))
    as (k4 & H4 & B4).
  rewrite Hs. repeat split; try (subst score; lia).
  - subst score. rewrite H1, H2, H3, H4.
    replace (5 * k1 + 5 * k2 + 5 * k3 + 5 * k4) with ((k1 + k2 + k3 + k4) * 5) by lia.
    apply Z_mod_mult.
  - rewrite (calculate_score_sum (set_opportunity_score self score) ratio).
    + simpl. rewrite Hs. reflexivity.
    + exact Hratio.
Qed.

Lemma calculate_score_rerun_witness :
  exists self', 
    self' = set_opportunity_score sample_score 80
    /\ opportunity_score self' = 80
    /\ 80 mod 5 = 0
    /\ 20 <= 80 <= 100
    /\ calculate_score self' = Ok (80, self').
Proof.
  eexists. apply (calculate_score_rerun sample_score). vm_compute. reflexivity.
Defined.

(** X3.  The market-size bucket never falls when the number of reviews
    grows, and the competition bucket never rises when the number of
    businesses grows. *)
Theorem buckets_monotone (n n' : Z) :
  n <= n' ->
  market_size_points n <= market_size_points n'
  /\ competition_gap_points n' <= competition_gap_points n.
Proof.
  intros Hle. unfold market_size_points, competition_gap_points.
  rewrite !Z.gtb_ltb.
  repeat match goal with
         | |- context [?a <? ?b] => destruct (Z.ltb_spec a b)
         end; lia.
Qed.

Lemma buckets_monotone_witness :
  market_size_points 100 <= market_size_points 101
  /\ competition_gap_points 101 <= competition_gap_points 100.
Proof. apply (buckets_monotone 100 101). lia. Defined.

End Models.
(** ** Complaints: extraction, deduplication, themes *)

Section Complaints.

Import OpportunityAnalyzer.
Local Open Scope string_scope.
Local Open Scope Z_scope.

Lemma flat_map_length_le {A B} (f : A -> list B) (xs : list A) :
  (forall x, length (f x) <= 1)%nat ->
  (length (List.flat_map f xs) <= length xs)%nat.
Proof.
  intros Hf. induction xs as [| x xs IH]; simpl; [lia |].
  rewrite length_app. specialize (Hf x). lia.
Qed.

Lemma flat_map_nil {A B} (f : A -> list B) (xs : list A) :
  (forall x, In x xs -> f x = []) -> List.flat_map f xs = [].
Proof.
  intros Hf. induction xs as [| x xs IH]; simpl; [reflexivity |].
  rewrite (Hf x) by (left; reflexivity). simpl.
  apply IH. intros y Hy. apply Hf. right. exact Hy.
Qed.

(** X4.  [_extract_complaints] returns at most one complaint per key word
    of [COMPLAINT_KEYWORDS]; each complaint is a sentence of the text (a
    piece between full stops), stripped, that contains a key word when
    lower-cased; and a text that contains no key word gives no complaint. *)
Theorem extract_complaints_sentences (text : string) :
  (length (_extract_complaints text) <= length COMPLAINT_KEYWORDS)%nat
  /\ (forall complaint,
        In complaint (_extract_complaints text) ->
        exists keyword sentence,
          In keyword COMPLAINT_KEYWORDS
          /\ In sentence (split_on "." text)
          /\ contains keyword (lower text) = true
          /\ contains keyword (lower sentence) = true
          /\ complaint = strip sentence)
  /\ (forallb (fun keyword => negb (contains keyword (lower text)))
              COMPLAINT_KEYWORDS = true ->
      _extract_complaints text = []).
Proof.
  unfold _extract_complaints. repeat split.
  - apply flat_map_length_le. intros keyword.
    destruct (contains keyword (lower text)); [| simpl; lia].
    destruct (first_sentence_with keyword (split_on "." text)); simpl; lia.
  - intros complaint Hin. apply in_flat_map in Hin as (keyword & Hkeyword & Hin).
    destruct (contains keyword (lower text)) eqn:Hcontains; [| destruct Hin].
    unfold first_sentence_with in Hin.
    destruct (List.find _ (split_on "." text)) as [sentence |] eqn:Hfind;
      simpl in Hin; [| destruct Hin].
    destruct Hin as [<- | []].
    apply find_some in Hfind as [Hsentence Hhas].
    exists keyword, sentence. repeat split; assumption.
  - intros Hnone. apply flat_map_nil. intros keyword Hkeyword.
    rewrite forallb_forall in Hnone. specialize (Hnone keyword Hkeyword).
    apply negb_true_iff in Hnone. rewrite Hnone. reflexivity.
Qed.

Lemma kept_after_sublist (complaints unique : list string) :
  exists more, kept_after complaints unique = (unique ++ more)%list
               /\ sublist more complaints.
Proof.
  revert unique. induction complaints as [| c rest IH]; intros unique; simpl.
  - exists []. rewrite app_nil_r. split; [reflexivity | constructor].
  - destruct (existsb (near_duplicate c) unique).
    + destruct (IH unique) as (more & -> & Hsub).
      exists more. split; [reflexivity |]. apply sublist_cons. exact Hsub.
    + destruct (IH (unique ++ [c])%list) as (more & -> & Hsub).
      exists (c :: more). rewrite <- app_assoc. split; [reflexivity |].
      apply sublist_skip. exact Hsub.
Qed.

Lemma slice_to_sublist {A} (xs : list A) (n : Z) : sublist (slice_to xs n) xs.
Proof. unfold slice_to. destruct (n <? 0); apply sublist_take. Qed.

(** X5.  [_get_top_complaints] never raises, whatever the limit; what it
    returns is the list of complaints with some entries left out (the order
    is kept and nothing is added); for a limit that is not negative it has
    at most [limit] entries; and for a limit of at least 1 the first
    complaint is always kept, as the first entry. *)
Theorem get_top_complaints_sublist (complaints : list string) (limit : Z) :
  exists kept,
    _get_top_complaints complaints limit = Ok kept
    /\ sublist kept complaints
    /\ (0 <= limit -> len kept <= limit)
    /\ (forall c rest,
          complaints = c :: rest -> 1 <= limit ->
          exists more, kept = c :: more).
Proof.
  rewrite get_top_complaints_eq. eexists. split; [reflexivity |].
  destruct (kept_after_sublist complaints []) as (more & Hkept & Hsub).
  simpl in Hkept. rewrite Hkept. repeat split.
  - etransitivity; [apply slice_to_sublist | exact Hsub].
  - intros Hlimit. apply slice_to_length. exact Hlimit.
  - intros c rest -> Hlimit. simpl in Hkept.
    destruct (kept_after_extends rest [c]) as (tail & Htail).
    rewrite Htail in Hkept. subst more. simpl.
    rewrite slice_to_nonneg by lia.
    destruct (Z.to_nat limit) as [| k] eqn:Hk; [lia |].
    simpl. eexists. reflexivity.
Qed.

End Complaints.
(** ** The themes of the complaints *)

Section Themes.

Import OpportunityAnalyzer.
Local Open Scope string_scope.
Local Open Scope Z_scope.

Lemma counter_get_incr (key key' : string) (counts : list (string * Z)) :
  counter_get key (counter_incr key' counts)
    = counter_get key counts + Z.b2z (String.eqb key' key).
Proof.
  induction counts as [| [k n] rest IH]; simpl.
  - destruct (String.eqb key' key); reflexivity.
  - destruct (String.eqb_spec k key') as [-> | Hk]; simpl.
    + destruct (String.eqb key' key); simpl; lia.
    + destruct (String.eqb_spec k key) as [-> | Hk']; [| exact IH].
      destruct (String.eqb_spec key' key) as [-> | _]; [congruence |].
      simpl. lia.
Qed.

Lemma counter_incr_keys (key key' : string) (counts : list (string * Z)) :
  In key (List.map fst (counter_incr key' counts))
  <-> key = key' \/ In key (List.map fst counts).
Proof.
  induction counts as [| [k n] rest IH]; simpl.
  - intuition.
  - destruct (String.eqb_spec k key') as [-> | Hk]; simpl.
    + intuition.
    + rewrite IH. intuition.
Qed.

Lemma counter_incr_NoDup (key : string) (counts : list (string * Z)) :
  List.NoDup (List.map fst counts) ->
  List.NoDup (List.map fst (counter_incr key counts)).
Proof.
  induction counts as [| [k n] rest IH]; simpl; intros Hnodup.
  - constructor; [intros [] | constructor].
  - inversion Hnodup as [| ? ? Hnotin Hrest]; subst.
    destruct (String.eqb_spec k key) as [-> | Hk]; simpl.
    + constructor; assumption.
    + constructor; [| apply IH; exact Hrest].
      rewrite counter_incr_keys. intros [-> | Hin]; [congruence | contradiction].
Qed.

Lemma counter_incr_positive (key : string) (counts : list (string * Z)) :
  List.Forall (fun e => 1 <= snd e) counts ->
  List.Forall (fun e => 1 <= snd e) (counter_incr key counts).
Proof.
  induction counts as [| [k n] rest IH]; simpl; intros Hpos.
  - constructor; [simpl; lia | constructor].
  - inversion Hpos as [| ? ? Hn Hrest]; subst. simpl in Hn.
    destruct (String.eqb k key).
    + constructor; [simpl; lia | exact Hrest].
    + constructor; [exact Hn | apply IH; exact Hrest].
Qed.

Lemma counter_get_entry (key : string) (n : Z) (counts : list (string * Z)) :
  List.NoDup (List.map fst counts) -> In (key, n) counts ->
  counter_get key counts = n.
Proof.
  induction counts as [| [k m] rest IH]; simpl; intros Hnodup Hin; [destruct Hin |].
  inversion Hnodup as [| ? ? Hnotin Hrest]; subst.
  destruct Hin as [Heq | Hin].
  - injection Heq as -> ->. rewrite String.eqb_refl. reflexivity.
  - destruct (String.eqb_spec k key) as [-> | _]; [| apply IH; assumption].
    exfalso. apply Hnotin. apply (in_map fst) in Hin. exact Hin.
Qed.

Lemma counter_get_key (key : string) (counts : list (string * Z)) :
  List.Forall (fun e => 1 <= snd e) counts ->
  In key (List.map fst counts) <-> 1 <= counter_get key counts.
Proof.
  induction counts as [| [k n] rest IH]; simpl; intros Hpos.
  - split; [intros [] | lia].
  - inversion Hpos as [| ? ? Hn Hrest]; subst. simpl in Hn.
    destruct (String.eqb_spec k key) as [-> | Hk].
    + split; [intros _; exact Hn | intros _; left; reflexivity].
    + rewrite <- (IH Hrest). split; [intros [Heq | Hin] | intros Hin].
      * congruence.
      * exact Hin.
      * right. exact Hin.
Qed.

Lemma count_if_cons {A} (p : A -> bool) (x : A) (xs : list A) :
  count_if p (x :: xs) = Z.b2z (p x) + count_if p xs.
Proof.
  unfold count_if, len. simpl. destruct (p x); simpl length; simpl Z.b2z; lia.
Qed.

(** The loop over the themes, for one complaint and any table of themes. *)
Lemma themes_loop (complaint : string) (themes : list (string * list string)) :
  forall counts : list (string * Z),
    counter_ok counts ->
    let counts' :=
      List.fold_left
        (fun counts '(theme, keywords) =>
           if existsb (fun kw => contains kw (lower complaint)) keywords
           then counter_incr theme counts
           else counts)
        themes counts in
    counter_ok counts'
    /\ forall theme,
         counter_get theme counts'
           = counter_get theme counts
             + count_if (entry_hits theme complaint) themes.
Proof.
  induction themes as [| [name keywords] rest IH]; intros counts Hok; simpl.
  - split; [exact Hok |]. intros theme. unfold count_if, len. simpl. lia.
  - set (hit := existsb (fun kw => contains kw (lower complaint)) keywords).
    assert (Hstep : counter_ok (if hit then counter_incr name counts else counts)).
    { destruct hit; [| exact Hok]. destruct Hok as [Hnodup Hpos].
      split; [apply counter_incr_NoDup | apply counter_incr_positive]; assumption. }
    destruct (IH _ Hstep) as [Hok' Hget]. split; [exact Hok' |].
    intros theme. rewrite Hget, count_if_cons.
    unfold entry_hits at 2. simpl fst. simpl snd. fold hit.
    destruct hit.
    + rewrite counter_get_incr, andb_true_r. lia.
    + rewrite andb_false_r. simpl. lia.
Qed.

Lemma count_of_absent_theme (theme complaint : string)
    (themes : list (string * list string)) :
  ~ In theme (List.map fst themes) ->
  count_if (entry_hits theme complaint) themes = 0.
Proof.
  induction themes as [| [name keywords] rest IH]; intros Hnotin.
  - reflexivity.
  - rewrite count_if_cons, IH by (intros Hin; apply Hnotin; right; exact Hin).
    unfold entry_hits. simpl fst.
    destruct (String.eqb_spec name theme) as [-> | _]; [| reflexivity].
    exfalso. apply Hnotin. left. reflexivity.
Qed.

(** With distinct theme names, a complaint counts at most once for a
    theme. *)
Lemma count_of_entry_hits (theme complaint : string)
    (themes : list (string * list string)) :
  List.NoDup (List.map fst themes) ->
  count_if (entry_hits theme complaint) themes
    = Z.b2z (existsb (entry_hits theme complaint) themes).
Proof.
  induction themes as [| [name keywords] rest IH]; intros Hnodup.
  - reflexivity.
  - inversion Hnodup as [| ? ? Hnotin Hrest]; subst.
    rewrite count_if_cons. cbn [existsb].
    destruct (entry_hits theme complaint (name, keywords)) eqn:Hhit.
    + unfold entry_hits in Hhit. apply andb_true_iff in Hhit as [Hname _].
      apply String.eqb_eq in Hname. simpl in Hname. subst name.
      rewrite count_of_absent_theme by exact Hnotin. reflexivity.
    + rewrite IH by exact Hrest. reflexivity.
Qed.

Lemma complaint_themes_distinct : List.NoDup (List.map fst COMPLAINT_THEMES).
Proof.
  simpl. repeat constructor; simpl; intuition discriminate.
Qed.

Lemma count_of_theme_hits (theme complaint : string) :
  count_if (entry_hits theme complaint) COMPLAINT_THEMES
    = Z.b2z (theme_hits theme complaint).
Proof. apply count_of_entry_hits, complaint_themes_distinct. Qed.

(** The loop over the complaints. *)
Lemma complaints_loop (complaints : list string) :
  forall counts : list (string * Z),
    counter_ok counts ->
    let counts' :=
      List.fold_left
        (fun counts complaint =>
           let complaint_lower := lower complaint in
           List.fold_left
             (fun counts '(theme, keywords) =>
                if existsb (fun kw => contains kw complaint_lower) keywords
                then counter_incr theme counts
                else counts)
             COMPLAINT_THEMES counts)
        complaints counts in
    counter_ok counts'
    /\ forall theme,
         counter_get theme counts'
           = counter_get theme counts + theme_count theme complaints.
Proof.
  induction complaints as [| complaint rest IH]; intros counts Hok.
  - split; [exact Hok |]. intros theme. unfold theme_count, count_if, len.
    simpl. lia.
  - destruct (themes_loop complaint COMPLAINT_THEMES counts Hok) as [Hok1 Hget1].
    destruct (IH _ Hok1) as [Hok2 Hget2].
    split; [exact Hok2 |]. intros theme.
    cbn [List.fold_left]. cbv zeta in Hget2 |- *.
    rewrite Hget2, Hget1, count_of_theme_hits.
    unfold theme_count. rewrite count_if_cons. lia.
Qed.

Lemma insert_by_count_perm (x : string * Z) (sorted : list (string * Z)) :
  Permutation (insert_by_count x sorted) (x :: sorted).
Proof.
  induction sorted as [| y rest IH]; simpl; [reflexivity |].
  destruct (snd y <=? snd x); [reflexivity |].
  rewrite IH. apply perm_swap.
Qed.

Lemma most_common_perm (counts : list (string * Z)) :
  Permutation (most_common counts) counts.
Proof.
  induction counts as [| x rest IH]; simpl; [reflexivity |].
  rewrite insert_by_count_perm, IH. reflexivity.
Qed.

Lemma insert_by_count_sorted (x : string * Z) (sorted : list (string * Z)) :
  StronglySorted (fun a b => snd b <= snd a) sorted ->
  StronglySorted (fun a b => snd b <= snd a) (insert_by_count x sorted).
Proof.
  induction sorted as [| y rest IH]; simpl; intros Hsorted.
  - constructor; constructor.
  - inversion Hsorted as [| ? ? Hrest Hy]; subst.
    destruct (Z.leb_spec (snd y) (snd x)) as [Hle | Hlt].
    + constructor; [exact Hsorted |].
      constructor; [exact Hle |].
      rewrite List.Forall_forall in Hy |- *. intros z Hz.
      specialize (Hy z Hz). simpl in Hy. lia.
    + constructor; [apply IH; exact Hrest |].
      rewrite List.Forall_forall in Hy |- *. intros z Hz.
      apply (Permutation_in _ (insert_by_count_perm x rest)) in Hz.
      destruct Hz as [<- | Hz]; [lia | apply Hy; exact Hz].
Qed.

Lemma most_common_sorted (counts : list (string * Z)) :
  StronglySorted (fun a b => snd b <= snd a) (most_common counts).
Proof.
  induction counts as [| x rest IH]; simpl; [constructor |].
  apply insert_by_count_sorted. exact IH.
Qed.

Lemma sorted_keys (count : string -> Z) (sorted : list (string * Z)) :
  StronglySorted (fun a b => snd b <= snd a) sorted ->
  List.Forall (fun e => snd e = count (fst e)) sorted ->
  StronglySorted (fun a b => count b <= count a) (List.map fst sorted).
Proof.
  induction 1 as [| x rest Hrest IH Hx]; intros Hcount; simpl; [constructor |].
  inversion Hcount as [| ? ? Hcx Hcrest]; subst.
  constructor; [apply IH; exact Hcrest |].
  rewrite List.Forall_forall in Hx, Hcrest |- *.
  intros k Hk. apply in_map_iff in Hk as (e & <- & He).
  rewrite <- Hcx, <- (Hcrest e He). apply Hx. exact He.
Qed.

Lemma theme_count_positive (theme : string) (complaints : list string) :
  1 <= theme_count theme complaints
  <-> exists complaint, In complaint complaints
                        /\ theme_hits theme complaint = true.
Proof.
  unfold theme_count, count_if, len. split.
  - intros Hpos.
    destruct (List.filter (theme_hits theme) complaints) as [| c rest] eqn:Hf;
      [simpl in Hpos; lia |].
    assert (Hin : In c (List.filter (theme_hits theme) complaints))
      by (rewrite Hf; left; reflexivity).
    apply filter_In in Hin. exists c. exact Hin.
  - intros (c & Hin & Hhit).
    assert (Hc : In c (List.filter (theme_hits theme) complaints))
      by (apply filter_In; split; assumption).
    destruct (List.filter (theme_hits theme) complaints); [destruct Hc |].
    simpl length. lia.
Qed.

Lemma theme_hits_name (theme complaint : string) :
  theme_hits theme complaint = true ->
  In theme (List.map fst COMPLAINT_THEMES).
Proof.
  unfold theme_hits. rewrite existsb_exists.
  intros (entry & Hentry & Hhit). unfold entry_hits in Hhit.
  apply andb_true_iff in Hhit as [Hname _].
  apply String.eqb_eq in Hname. subst theme.
  apply in_map. exact Hentry.
Qed.

(** X6.  [_categorize_complaints] returns each theme at most once, and a
    theme is returned exactly when some complaint contains, lower-cased,
    one of the theme's key words; so the themes are among the five of
    [COMPLAINT_THEMES].  They are sorted by the number of complaints that
    hit them, most frequent first. *)
Theorem categorize_complaints_themes (complaints : list string) :
  List.NoDup (_categorize_complaints complaints)
  /\ (forall theme,
        In theme (_categorize_complaints complaints)
        <-> exists complaint,
              In complaint complaints /\ theme_hits theme complaint = true)
  /\ (forall theme,
        In theme (_categorize_complaints complaints) ->
        In theme ["reliability"; "professionalism"; "pricing"; "quality";
                  "communication"])
  /\ (length (_categorize_complaints complaints) <= 5)%nat
  /\ StronglySorted
       (fun a b => theme_count b complaints <= theme_count a complaints)
       (_categorize_complaints complaints).
Proof.
  assert (Hempty : counter_ok []) by (split; constructor).
  destruct (complaints_loop complaints [] Hempty) as [[Hnodup Hpos] Hget].
  cbv zeta in Hnodup, Hpos, Hget.
  unfold _categorize_complaints.
  set (theme_counts := List.fold_left _ complaints []) in *.
  assert (Hperm : Permutation (List.map fst (most_common theme_counts))
                              (List.map fst theme_counts))
    by (apply Permutation_map, most_common_perm).
  assert (Hmember : forall theme,
             In theme (List.map fst (most_common theme_counts))
             <-> exists complaint,
                   In complaint complaints /\ theme_hits theme complaint = true).
  { intros theme. rewrite <- theme_count_positive.
    rewrite <- (Z.add_0_l (theme_count theme complaints)).
    change 0 with (counter_get theme []) at 1. rewrite <- Hget.
    rewrite <- (counter_get_key theme theme_counts Hpos).
    split; apply Permutation_in; [exact Hperm | symmetry; exact Hperm]. }
  assert (Hnames : forall theme,
             In theme (List.map fst (most_common theme_counts)) ->
             In theme (List.map fst COMPLAINT_THEMES)).
  { intros theme Hin. apply Hmember in Hin as (complaint & _ & Hhit).
    apply theme_hits_name in Hhit. exact Hhit. }
  assert (Hdistinct : List.NoDup (List.map fst (most_common theme_counts))).
  { apply (Permutation_NoDup (l := List.map fst theme_counts));
      [symmetry; exact Hperm | exact Hnodup]. }
  repeat split.
  - exact Hdistinct.
  - apply Hmember.
  - apply Hmember.
  - exact Hnames.
  - change 5%nat with (length (List.map fst COMPLAINT_THEMES)).
    apply NoDup_incl_length; [exact Hdistinct | exact Hnames].
  - apply sorted_keys; [apply most_common_sorted |].
    rewrite List.Forall_forall. intros [k n] Hin. simpl.
    rewrite <- (Z.add_0_l (theme_count k complaints)).
    change 0 with (counter_get k []) at 1. rewrite <- Hget.
    symmetry. apply counter_get_entry; [exact Hnodup |].
    apply (Permutation_in _ (most_common_perm theme_counts)). exact Hin.
Qed.

End Themes.
(** ** The analysis *)

Section Analysis.

Import OpportunityAnalyzer.
Local Open Scope string_scope.
Local Open Scope Z_scope.

(** What a score that [analyze] returned is made of. *)
Lemma analyze_returns (p : platform) (bs : list Business.t)
    (category location : string) (score : OpportunityScore.t) :
  analyze p (mk bs) category location = Ok score ->
  bs <> []
  /\ markup_error p (analyzing_message category location) = false
  /\ exists avg_reviews avg_rating ratio,
       int_true_divide (sum_ints (List.map Business.review_count bs))
                       (Z.max (len bs) 1) = Ok avg_reviews
       /\ mean_rating (omap rating_truthy bs) = Ok avg_rating
       /\ int_true_divide (count_if lacks_website bs) (Z.max (len bs) 1)
          = Ok ratio
       /\ score
          = OpportunityScore.mk category location (len bs)
              (sum_ints (List.map Business.review_count bs))
              avg_reviews avg_rating
              (count_if is_low_rated bs) (count_if lacks_website bs)
              0 PyFloat.zero
              (slice_to (kept_after (complaints_of bs) []) 10)
              (_categorize_complaints (complaints_of bs))
              (OpportunityScore.market_size_points
                 (sum_ints (List.map Business.review_count bs))
               + OpportunityScore.competition_gap_points (len bs)
               + OpportunityScore.quality_gap_points avg_rating
               + OpportunityScore.digital_gap_points ratio).
Proof.
  intros Hscore.
  assert (Hne : bs <> []) by (intros ->; discriminate Hscore).
  split; [exact Hne |].
  rewrite (analyze_nonempty p bs category location Hne) in Hscore.
  destruct (console_print p _) as [[] |] eqn:Hprint; [| discriminate Hscore].
  split; [exact (console_print_returns _ _ _ Hprint) |].
  rewrite bind_Ok in Hscore.
  fold (complaints_of bs) in Hscore.
  destruct (int_true_divide (sum_ints (List.map Business.review_count bs))
                            (Z.max (len bs) 1)) as [avg_reviews | e] eqn:Havg;
    [| discriminate Hscore].
  rewrite bind_Ok in Hscore.
  destruct (mean_rating (omap rating_truthy bs)) as [avg_rating | e] eqn:Hmean;
    [| discriminate Hscore].
  rewrite bind_Ok, get_top_complaints_eq, bind_Ok in Hscore.
  unfold OpportunityScore.calculate_score, OpportunityScore.website_gap_ratio
    in Hscore.
  cbn [OpportunityScore.businesses_without_website
       OpportunityScore.total_businesses OpportunityScore.total_reviews
       OpportunityScore.avg_rating] in Hscore.
  destruct (int_true_divide (count_if lacks_website bs) (Z.max (len bs) 1))
    as [ratio | e] eqn:Hratio; [| discriminate Hscore].
  rewrite !bind_Ok in Hscore. cbv beta iota zeta in Hscore.
  injection Hscore as <-.
  exists avg_reviews, avg_rating, ratio. repeat split. 
Qed.

(** X7.  A score that [analyze] returns carries the category and the
    location it was called with; it counts at least one business, and
    neither more low-rated businesses nor more businesses without a web
    site than businesses; its two velocity fields are never filled in
    ([reviews_last_30_days] is 0 and [review_velocity] is 0.0); its
    complaints are at most 10 of the businesses' complaints, in their
    order; and its stored score is a multiple of 5 between 20 and 100. *)
Theorem analyze_fields (p : platform) (bs : list Business.t)
    (category location : string) (score : OpportunityScore.t) :
  analyze p (mk bs) category location = Ok score ->
  OpportunityScore.category score = category
  /\ OpportunityScore.location score = location
  /\ OpportunityScore.total_businesses score = len bs
  /\ 1 <= OpportunityScore.total_businesses score
  /\ 0 <= OpportunityScore.low_rated_businesses score
       <= OpportunityScore.total_businesses score
  /\ 0 <= OpportunityScore.businesses_without_website score
       <= OpportunityScore.total_businesses score
  /\ OpportunityScore.reviews_last_30_days score = 0
  /\ OpportunityScore.review_velocity score = PyFloat.zero
  /\ sublist (OpportunityScore.common_complaints score) (complaints_of bs)
  /\ len (OpportunityScore.common_complaints score) <= 10
  /\ OpportunityScore.complaint_themes score
     = _categorize_complaints (complaints_of bs)
  /\ OpportunityScore.opportunity_score score mod 5 = 0
  /\ 20 <= OpportunityScore.opportunity_score score <= 100.
Proof.
  intros Hscore.
  apply analyze_returns in Hscore
    as (Hne & _ & avg_reviews & avg_rating & ratio & _ & _ & _ & ->).
  cbn [OpportunityScore.category OpportunityScore.location
       OpportunityScore.total_businesses OpportunityScore.low_rated_businesses
       OpportunityScore.businesses_without_website
       OpportunityScore.reviews_last_30_days OpportunityScore.review_velocity
       OpportunityScore.common_complaints OpportunityScore.complaint_themes
       OpportunityScore.opportunity_score].
  pose proof (count_if_bounds is_low_rated bs) as Hlow.
  pose proof (count_if_bounds lacks_website bs) as Hweb.
  assert (Hlen : 1 <= len bs).
  { destruct bs as [| b rest]; [congruence |]. unfold len. simpl length. lia. }
  destruct (kept_after_sublist (complaints_of bs) []) as (more & Hkept & Hsub).
  simpl in Hkept.
  destruct (bucket_values_multiple _
              (market_size_points_in
                 (sum_ints (List.map Business.review_count bs))))
    as (k1 & H1 & B1).
  destruct (bucket_values_multiple _ (competition_gap_points_in (len bs)))
    as (k2 & H2 & B2).
  destruct (bucket_values_multiple _ (quality_gap_points_in avg_rating))
    as (k3 & H3 & B3).
  destruct (bucket_values_multiple _ (digital_gap_points_in ratio))
    as (k4 & H4 & B4).
  repeat split; try reflexivity; try lia.
  - rewrite Hkept. etransitivity; [apply slice_to_sublist | exact Hsub].
  - apply slice_to_length. lia.
  - rewrite H1, H2, H3, H4.
    replace (5 * k1 + 5 * k2 + 5 * k3 + 5 * k4) with ((k1 + k2 + k3 + k4) * 5) by lia.
    apply Z_mod_mult.
Qed.

Lemma analyze_fields_witness :
  exists score,
    analyze sample_platform (mk sample_businesses) "lawn care" "Austin, TX"
      = Ok score
    /\ OpportunityScore.reviews_last_30_days score = 0
    /\ len (OpportunityScore.common_complaints score) <= 10.
Proof.
  destruct (analyze sample_platform (mk sample_businesses) "lawn care"
              "Austin, TX")
    as [score | e] eqn:Hscore; [| vm_compute in Hscore; discriminate Hscore].
  exists score. split; [reflexivity |].
  pose proof (analyze_fields sample_platform sample_businesses "lawn care"
                "Austin, TX" score Hscore) as Hfields.
  split; apply Hfields.
Defined.

Lemma complaints_of_nil (bs : list Business.t) :
  List.Forall (fun b => Business.negative_reviews b = []) bs ->
  complaints_of bs = [].
Proof.
  intros Hnone. unfold complaints_of. apply flat_map_nil. intros b Hb.
  rewrite List.Forall_forall in Hnone. rewrite (Hnone b Hb). reflexivity.
Qed.

(** X9.  When no business has a negative review (one with a rating of at
    most 2), the score that [analyze] returns has no complaint and no
    theme: reviews with 3 stars or more are never read for complaints. *)
Theorem analyze_without_negative_reviews (p : platform)
    (bs : list Business.t) (category location : string)
    (score : OpportunityScore.t) :
  List.Forall
    (fun b => List.Forall (fun r => 3 <= Review.rating r) (Business.reviews b))
    bs ->
  analyze p (mk bs) category location = Ok score ->
  OpportunityScore.common_complaints score = []
  /\ OpportunityScore.complaint_themes score = [].
Proof.
  intros Hratings Hscore.
  apply analyze_returns in Hscore as (_ & _ & ? & ? & ? & _ & _ & _ & ->).
  rewrite complaints_of_nil; [split; reflexivity |].
  apply (List.Forall_impl _ (P := fun b =>
           List.Forall (fun r => 3 <= Review.rating r) (Business.reviews b)));
    [| exact Hratings].
  intros b Hb. unfold Business.negative_reviews.
  induction Hb as [| r rs Hr _ IH]; [reflexivity |].
  simpl. unfold Review.is_negative at 1.
  destruct (Z.leb_spec (Review.rating r) 2); [lia | exact IH].
Qed.

Lemma analyze_without_negative_reviews_witness :
  exists score,
    analyze sample_platform (mk [well_reviewed_business]) "lawn care"
      "Austin, TX" = Ok score
    /\ OpportunityScore.common_complaints score = []
    /\ OpportunityScore.complaint_themes score = [].
Proof.
  destruct (analyze sample_platform (mk [well_reviewed_business]) "lawn care"
              "Austin, TX")
    as [score | e] eqn:Hscore; [| vm_compute in Hscore; discriminate Hscore].
  exists score. split; [reflexivity |].
  apply (analyze_without_negative_reviews sample_platform
           [well_reviewed_business] "lawn care" "Austin, TX" score);
    [| exact Hscore].
  constructor; [| constructor].
  unfold well_reviewed_business. simpl.
  repeat (constructor; [simpl; lia |]). constructor.
Defined.

Lemma omap_rating_reloaded (bs : list Business.t) :
  omap rating_truthy (List.map reloaded bs) = omap rating_truthy bs.
Proof.
  induction bs as [| b rest IH]; [reflexivity |].
  cbn [List.map]. change (omap rating_truthy (reloaded b :: List.map reloaded rest))
    with (match rating_truthy (reloaded b) with
          | Some r => r :: omap rating_truthy (List.map reloaded rest)
          | None => omap rating_truthy (List.map reloaded rest)
          end).
  rewrite IH. reflexivity.
Qed.

Lemma count_if_reloaded (p : Business.t -> bool) (bs : list Business.t) :
  (forall b, p (reloaded b) = p b) ->
  count_if p (List.map reloaded bs) = count_if p bs.
Proof.
  intros Hp. induction bs as [| b rest IH]; [reflexivity |].
  cbn [List.map]. rewrite !count_if_cons, IH, Hp. reflexivity.
Qed.

Lemma complaints_of_reloaded (bs : list Business.t) :
  complaints_of (List.map reloaded bs) = complaints_of bs.
Proof.
  unfold complaints_of. induction bs as [| b rest IH]; [reflexivity |].
  cbn [List.map List.flat_map]. rewrite IH. f_equal.
  unfold Business.negative_reviews, reloaded. cbn [Business.reviews].
  induction (Business.reviews b) as [| r rs IHr]; [reflexivity |].
  cbn [List.map List.filter].
  replace (Review.is_negative
             (Review.mk (Review.rating r) (Review.text r) None (Review.author r)))
    with (Review.is_negative r) by reflexivity.
  destruct (Review.is_negative r); [| exact IHr].
  cbn [List.flat_map Review.text]. rewrite IHr. reflexivity.
Qed.

(** The analysis does not read what the scrape file loses (the dates of
    the reviews). *)
Lemma analyze_reloaded (p : platform) (bs : list Business.t)
    (category location : string) :
  analyze p (mk (List.map reloaded bs)) category location
    = analyze p (mk bs) category location.
Proof.
  destruct bs as [| b rest]; [reflexivity |].
  rewrite !analyze_nonempty by discriminate.
  fold (complaints_of (List.map reloaded (b :: rest))).
  fold (complaints_of (b :: rest)).
  rewrite complaints_of_reloaded, omap_rating_reloaded.
  rewrite !count_if_reloaded by (intros []; reflexivity).
  unfold len. rewrite List.length_map, List.map_map.
  reflexivity.
Qed.

(** X8.  Analysing the scrape file gives what analysing the list of
    businesses gives.  For businesses whose ints have at most 4300 digits
    and whose creation times are in the ranges of [datetime], when the file
    can be opened and Rich takes the line that names it, [save_results]
    writes the file, [load_data] reads it, and [analyze] on the analyzer it
    fills returns (or raises) what [analyze] returns on the businesses
    themselves.  The file keeps all that the analysis reads. *)
Theorem analyze_scrape_file (p : platform) (w : world)
    (bs : list Business.t) (filename : option string) (self : t)
    (category location : string) :
  List.Forall (fun b => DateTime.valid (Business.scraped_at b) = true) bs ->
  forallb writable bs = true ->
  len bs <= sys_maxsize ->
  open_error p (scrape_path p w filename) = None ->
  markup_error p
    (GoogleMapsScraper.saved_message (decimal (len bs)) (scrape_path p w filename))
    = false ->
  exists path w' loaded analyzer w'',
    GoogleMapsScraper.save_results p w bs filename = Ok (path, w')
    /\ load_data p w' self path = Ok (loaded, analyzer, w'')
    /\ analyze p analyzer category location
       = analyze p (mk bs) category location.
Proof.
  intros Hvalid Hwritable Hlen Hopen Hprint.
  destruct (save_results_returns p w bs filename Hwritable Hlen Hopen Hprint)
    as [w' Hsaved].
  destruct (save_results_file p w bs filename _ _ Hsaved)
    as (_ & _ & _ & _ & _ & _ & stamp & Hfile).
  eexists _, _, _, _, _.
  split; [exact Hsaved |].
  split; [apply (load_data_file p w' self _ stamp bs Hvalid Hfile) |].
  apply analyze_reloaded.
Qed.

Lemma analyze_scrape_file_witness :
  exists path w' loaded analyzer w'',
    GoogleMapsScraper.save_results sample_platform empty_world
      sample_businesses None = Ok (path, w')
    /\ load_data sample_platform w' (mk []) path = Ok (loaded, analyzer, w'')
    /\ analyze sample_platform analyzer "lawn care" "Austin, TX"
       = analyze sample_platform (mk sample_businesses) "lawn care" "Austin, TX".
Proof.
  apply (analyze_scrape_file sample_platform empty_world sample_businesses
           None (mk []) "lawn care" "Austin, TX").
  - repeat constructor.
  - vm_compute. reflexivity.
  - vm_compute. discriminate.
  - reflexivity.
  - reflexivity.
Defined.

End Analysis.
(** ** The collector: cache, clock and pages *)

Section CollectorRuns.

Import GoogleMapsScraper.
Local Open Scope string_scope.
Local Open Scope Z_scope.

(** X10.  What a search with an API credential returned is what every
    later search under the same cache key returns, whatever its
    [max_results], the platform and the time: the answer comes from the
    cache, the collector stays as it is and the world is not touched (no
    request, no clock reading).  The key is the text [query:location], so
    this holds for every pair that gives the same text, not just for the
    same pair. *)
Theorem search_cached_again (fuel : nat) (p : platform) (self : t) (w : world)
    (query location : string) (max_results : Z)
    (found : list Business.t) (self' : t) (w' : world) :
  no_api_key self = false ->
  search fuel p self w query location max_results = Some (found, self', w') ->
  forall (fuel' : nat) (p' : platform) (w'' : world)
         (query' location' : string) (max_results' : Z),
    cache_key query' location' = cache_key query location ->
    search fuel' p' self' w'' query' location' max_results'
      = Some (found, self', w'').
Proof.
  intros Hkey Hsearch fuel' p' w'' query' location' max_results' Hsame.
  unfold search in Hsearch |- *. rewrite Hsame.
  destruct (results_cache self !! cache_key query location) as [cached |] eqn:Hcache.
  - injection Hsearch as <- <- <-. rewrite Hcache. reflexivity.
  - rewrite Hkey in Hsearch.
    destruct (search_pages fuel p w query location max_results [] 0)
      as [[businesses w1] |]; [| discriminate Hsearch].
    simpl in Hsearch. injection Hsearch as <- <- <-.
    cbn [results_cache]. rewrite lookup_insert_eq. reflexivity.
Qed.

Lemma search_cached_again_witness :
  exists found self' w',
    search 1 one_listing_platform (init (Some "key") None) empty_world
           "lawn:care" "Austin" 20
      = Some (found, self', w')
    /\ found <> []
    /\ search 0 sample_platform self' empty_world "lawn" "care:Austin" 0
       = Some (found, self', empty_world).
Proof.
  destruct (search 1 one_listing_platform (init (Some "key") None) empty_world
                   "lawn:care" "Austin" 20)
    as [[[found self'] w'] |] eqn:Hsearch;
    [| vm_compute in Hsearch; discriminate Hsearch].
  exists found, self', w'. split; [reflexivity |]. split.
  - intros ->. vm_compute in Hsearch. discriminate Hsearch.
  - apply (search_cached_again 1 one_listing_platform (init (Some "key") None)
             empty_world "lawn:care" "Austin" 20 found self' w');
      [reflexivity | exact Hsearch | reflexivity].
Defined.

(** X11.  A search without an API credential makes no request and writes
    no file; it reads the clock five times, once per record, so the i-th
    record carries the i-th reading; and it stores nothing in the cache,
    which stays empty. *)
Theorem demo_search_effects (fuel : nat) (p : platform) (self : t) (w : world)
    (query location : string) (max_results : Z) :
  reachable p self ->
  no_api_key self = true ->
  exists found w',
    search fuel p self w query location max_results = Some (found, self, w')
    /\ requests w' = requests w
    /\ files w' = files w
    /\ ticks w' = (ticks w + 5)%nat
    /\ List.map Business.scraped_at found
       = List.map (fun i => wall_clock p (ticks w + i)%nat) (List.seq 0 5)
    /\ results_cache self = ∅.
Proof.
  intros Hreach Hkey.
  pose proof (reachable_no_key_cache p self Hreach Hkey) as Hcache.
  eexists _, _. split.
  - apply search_demo; [rewrite Hcache; apply lookup_empty | exact Hkey].
  - rewrite get_demo_data_eq. cbn [fst snd requests files ticks List.map List.seq
                                  Business.scraped_at].
    repeat split; try reflexivity. exact Hcache.
Qed.

Lemma demo_search_effects_witness :
  exists found w',
    search 0 sample_platform (init None None) empty_world
           "lawn care" "Austin, TX" 20
      = Some (found, init None None, w')
    /\ requests w' = requests empty_world
    /\ files w' = files empty_world
    /\ ticks w' = (ticks empty_world + 5)%nat
    /\ List.map Business.scraped_at found
       = List.map (fun i => wall_clock sample_platform (ticks empty_world + i)%nat)
                  (List.seq 0 5)
    /\ results_cache (init None None) = ∅.
Proof.
  apply (demo_search_effects 0 sample_platform (init None None) empty_world
           "lawn care" "Austin, TX" 20);
    [apply reachable_init | reflexivity].
Defined.

Lemma parse_results_listings (p : platform) (local_results : list SerpApi.listing)
    (location : string) :
  forall w : world,
    List.map Business.name (fst (parse_results p w local_results location))
      = List.map (fun r => default "Unknown" (SerpApi.title r))
                 (listings local_results)
    /\ ticks (snd (parse_results p w local_results location))
       = (ticks w + length (listings local_results))%nat.
Proof.
  induction local_results as [| entry rest IH]; intros w.
  - simpl. split; [reflexivity | lia].
  - cbn [parse_results].
    destruct entry as [| r].
    + cbn [_parse_result].
      destruct (parse_results p w rest location) as [parsed w1] eqn:Hrest.
      specialize (IH w). rewrite Hrest in IH. exact IH.
    + cbn [_parse_result].
      destruct (_parse_location (default "" (SerpApi.address r)) location)
        as [city state].
      cbn [datetime_now].
      set (w0 := mk_world (S (ticks w)) (requests w) (files w)).
      destruct (parse_results p w0 rest location) as [parsed w1] eqn:Hrest.
      specialize (IH w0). rewrite Hrest in IH. destruct IH as [IHn IHt].
      cbn [fst snd] in *. unfold listings. cbn [omap list_omap].
      fold (listings rest). cbn [List.map length Business.name].
      split; [rewrite IHn; reflexivity |].
      rewrite IHt. unfold w0. cbn [ticks]. lia.
Qed.

Lemma parse_results_length (p : platform) (w : world)
    (local_results : list SerpApi.listing) (location : string) :
  length (fst (parse_results p w local_results location))
    = length (listings local_results).
Proof.
  destruct (parse_results_listings p local_results location w) as [Hnames _].
  apply (f_equal (@length string)) in Hnames.
  rewrite !List.length_map in Hnames. exact Hnames.
Qed.

Lemma listings_length (local_results : list SerpApi.listing) :
  (length (listings local_results) <= length local_results)%nat.
Proof. apply omap_length_le. Qed.

(** X12.  The loop over a page of results appends one business per entry
    that can be parsed, in the order of the page, and skips the others;
    the name of a business is the entry's title, or "Unknown" without one.
    The loop reads the clock once per business, and makes no request. *)
Theorem parse_results_skips_malformed (p : platform) (w : world)
    (local_results : list SerpApi.listing) (location : string) :
  List.map Business.name (fst (parse_results p w local_results location))
    = List.map (fun r => default "Unknown" (SerpApi.title r))
               (listings local_results)
  /\ (length (fst (parse_results p w local_results location))
      <= length local_results)%nat
  /\ ticks (snd (parse_results p w local_results location))
     = (ticks w + length (fst (parse_results p w local_results location)))%nat
  /\ requests (snd (parse_results p w local_results location)) = requests w.
Proof.
  destruct (parse_results_listings p local_results location w) as [Hnames Hticks].
  repeat split.
  - exact Hnames.
  - rewrite parse_results_length. apply listings_length.
  - rewrite parse_results_length. exact Hticks.
  - apply parse_results_requests.
Qed.

Lemma search_pages_enough_fuel (p : platform) (query location : string)
    (max_results : Z) :
  (forall n q s, well_formed (serpapi p n q s) = true) ->
  forall (fuel : nat) (w : world) (businesses : list Business.t) (start : Z),
    (Z.to_nat (max_results - len businesses) < fuel)%nat ->
    exists r, search_pages fuel p w query location max_results businesses start
              = Some r.
Proof.
  intros Hwell. induction fuel as [| fuel IH]; intros w businesses start Hfuel;
    [lia |].
  cbn [search_pages].
  destruct (Z.ltb_spec (len businesses) max_results) as [Hlt | Hge];
    [| eexists; reflexivity].
  cbn [http_get].
  pose proof (Hwell (requests w) (search_string query location) start) as Hpage.
  destruct (serpapi p (requests w) (search_string query location) start)
    as [| local_results]; [eexists; reflexivity |].
  destruct local_results as [| entry rest]; [eexists; reflexivity |].
  set (page := entry :: rest) in *.
  set (w0 := mk_world (ticks w) (S (requests w)) (files w)).
  destruct (parse_results p w0 page location) as [parsed w1] eqn:Hparsed.
  destruct (Z.ltb_spec (len page) 20) as [Hshort | Hfull];
    [eexists; reflexivity |].
  apply IH.
  assert (Hlen : length parsed = length page).
  { pose proof (parse_results_length p w0 page location) as Hl.
    rewrite Hparsed in Hl. simpl in Hl. rewrite Hl.
    simpl in Hpage. apply Nat.eqb_eq in Hpage. exact Hpage. }
  unfold len in *. rewrite length_app, Hlen. lia.
Qed.

(** X13.  When the search API sends no entry that has to be skipped, the
    loop of [search] ends: [max_results] + 1 iterations, or more, are
    enough for [search] to return, because every page that does not end
    the loop adds twenty businesses (and a cached answer or the demo data
    need no iteration at all). *)
Theorem search_returns (p : platform) (self : t) (w : world)
    (query location : string) (max_results : Z) (fuel : nat) :
  (forall n q s, well_formed (serpapi p n q s) = true) ->
  (Z.to_nat max_results < fuel)%nat ->
  exists found self' w',
    search fuel p self w query location max_results = Some (found, self', w').
Proof.
  intros Hwell Hfuel. unfold search.
  destruct (results_cache self !! cache_key query location) as [cached |];
    [eexists _, _, _; reflexivity |].
  destruct (no_api_key self).
  - destruct (_get_demo_data p w query location) as [demo w1].
    eexists _, _, _; reflexivity.
  - destruct (search_pages_enough_fuel p query location max_results Hwell
                fuel w [] 0) as [[businesses w1] Hpages].
    + unfold len. simpl. rewrite Z.sub_0_r. exact Hfuel.
    + rewrite Hpages. simpl. eexists _, _, _; reflexivity.
Qed.

Lemma search_returns_witness :
  exists found self' w',
    search 21 one_listing_platform (init (Some "key") None) empty_world
           "lawn care" "Austin, TX" 20
      = Some (found, self', w').
Proof.
  apply (search_returns one_listing_platform (init (Some "key") None)
           empty_world "lawn care" "Austin, TX" 20 21);
    [intros n q s; reflexivity | simpl; lia].
Defined.

Lemma search_pages_junk (p : platform) (query location : string)
    (max_results : Z) :
  (forall n q s, junk_page (serpapi p n q s) = true) ->
  forall (fuel : nat) (w : world) (businesses : list Business.t) (start : Z),
    len businesses < max_results ->
    search_pages fuel p w query location max_results businesses start = None.
Proof.
  intros Hjunk. induction fuel as [| fuel IH]; intros w businesses start Hlt;
    [reflexivity |].
  cbn [search_pages].
  destruct (Z.ltb_spec (len businesses) max_results) as [_ | Hge]; [| lia].
  cbn [http_get].
  pose proof (Hjunk (requests w) (search_string query location) start) as Hpage.
  destruct (serpapi p (requests w) (search_string query location) start)
    as [| local_results]; [discriminate Hpage |].
  simpl in Hpage. apply andb_true_iff in Hpage as [Hfull Hnone].
  apply Z.leb_le in Hfull. apply Nat.eqb_eq in Hnone.
  destruct local_results as [| entry rest];
    [unfold len in Hfull; simpl in Hfull; lia |].
  set (page := entry :: rest) in *.
  set (w0 := mk_world (ticks w) (S (requests w)) (files w)).
  destruct (parse_results p w0 page location) as [parsed w1] eqn:Hparsed.
  destruct (Z.ltb_spec (len page) 20) as [Hshort | _]; [lia |].
  assert (Hempty : parsed = []).
  { pose proof (parse_results_length p w0 page location) as Hl.
    rewrite Hparsed, Hnone in Hl. simpl in Hl.
    destruct parsed; [reflexivity | discriminate Hl]. }
  rewrite Hempty, app_nil_r. apply IH. exact Hlt.
Qed.

(** X14.  The loop of [search] has no bound of its own: against an API
    that answers every request with a full page (twenty entries or more) of
    entries that are all skipped, the list of businesses never grows and
    the page is never the last, so for a positive [max_results] no number
    of iterations is enough for [search] to return. *)
Theorem search_never_returns (p : platform) (self : t) (w : world)
    (query location : string) (max_results : Z) :
  (forall n q s, junk_page (serpapi p n q s) = true) ->
  no_api_key self = false ->
  results_cache self !! cache_key query location = None ->
  0 < max_results ->
  forall fuel : nat,
    search fuel p self w query location max_results = None.
Proof.
  intros Hjunk Hkey Hcache Hmax fuel. unfold search.
  rewrite Hcache, Hkey.
  rewrite (search_pages_junk p query location max_results Hjunk)
    by (unfold len; simpl; lia).
  reflexivity.
Qed.

Lemma search_never_returns_witness :
  search 1000 junk_platform (init (Some "key") None) empty_world
         "lawn care" "Austin, TX" 20 = None.
Proof.
  apply (search_never_returns junk_platform (init (Some "key") None)
           empty_world "lawn care" "Austin, TX" 20);
    [intros n q s; reflexivity | reflexivity | reflexivity | lia].
Defined.

End CollectorRuns.
(** ** The collector: places and files *)

Section CollectorFiles.

Import GoogleMapsScraper.
Local Open Scope string_scope.
Local Open Scope Z_scope.

Lemma prefix_char (sep c : ascii) (r : string) :
  String.prefix (String sep "") (String c r) = Ascii.eqb c sep.
Proof.
  simpl. destruct (ascii_dec sep c) as [-> | Hne].
  - rewrite Ascii.eqb_refl. destruct r; reflexivity.
  - symmetry. apply Ascii.eqb_neq. congruence.
Qed.

Lemma split_on_not_nil (sep : ascii) (s : string) : split_on sep s <> [].
Proof.
  destruct s as [| c r]; simpl; [discriminate |].
  destruct (Ascii.eqb c sep); [discriminate |].
  destruct (split_on sep r); discriminate.
Qed.

Lemma split_on_without_sep (sep : ascii) (s : string) :
  contains (String sep "") s = false -> split_on sep s = [s].
Proof.
  induction s as [| c r IH]; intros Hnone; [reflexivity |].
  cbn [contains] in Hnone. rewrite prefix_char in Hnone.
  apply orb_false_iff in Hnone as [Hc Hr].
  simpl. rewrite Hc, (IH Hr). reflexivity.
Qed.

Lemma split_on_with_sep (sep : ascii) (s : string) :
  contains (String sep "") s = true -> (2 <= length (split_on sep s))%nat.
Proof.
  induction s as [| c r IH]; intros Hsome; [discriminate Hsome |].
  cbn [contains] in Hsome. rewrite prefix_char in Hsome.
  simpl. destruct (Ascii.eqb c sep).
  - pose proof (split_on_not_nil sep r) as Hne.
    destruct (split_on sep r); [congruence | simpl; lia].
  - simpl in Hsome. specialize (IH Hsome).
    destruct (split_on sep r); simpl in *; lia.
Qed.

(** X15.  For an address without a comma, [_parse_location] falls back on
    the location searched for: the city is its first piece, stripped, and
    the state its second piece, stripped, or "Unknown" when the location
    has no comma either (where the demo records have "NC"). *)
Theorem parse_location_without_comma (address location : string) :
  contains "," address = false ->
  _parse_location address location
    = (strip (PyStr.first (split_on "," location)),
       if contains "," location
       then strip (List.nth 1 (split_on "," location) "")
       else "Unknown")
  /\ (contains "," location = false ->
      _parse_location address location = (strip location, "Unknown")
      /\ demo_state location = "NC").
Proof.
  intros Haddress.
  assert (Hparse :
    _parse_location address location
      = (strip (PyStr.first (split_on "," location)),
         if contains "," location
         then strip (List.nth 1 (split_on "," location) "")
         else "Unknown")).
  { unfold _parse_location.
    rewrite (split_on_without_sep "," address Haddress).
    replace (len [address] >=? 2) with false by reflexivity.
    pose proof (split_on_not_nil "," location) as Hne.
    destruct (contains "," location) eqn:Hlocation.
    - pose proof (split_on_with_sep "," location Hlocation) as Hlen.
      destruct (split_on "," location) as [| p0 rest]; [congruence |].
      replace (len (p0 :: rest) >? 1) with true; [reflexivity |].
      symmetry. unfold len. apply Z.gtb_lt. simpl length in *. lia.
    - rewrite (split_on_without_sep "," location Hlocation). reflexivity. }
  split; [exact Hparse |].
  intros Hlocation. rewrite Hparse. unfold demo_state. rewrite Hlocation.
  rewrite (split_on_without_sep "," location Hlocation). split; reflexivity.
Qed.

Lemma parse_location_without_comma_witness :
  _parse_location "12 Elm Street" "Austin"
    = (strip (PyStr.first (split_on "," "Austin")),
       if contains "," "Austin"
       then strip (List.nth 1 (split_on "," "Austin") "")
       else "Unknown")
  /\ (contains "," "Austin" = false ->
      _parse_location "12 Elm Street" "Austin" = (strip "Austin", "Unknown")
      /\ demo_state "Austin" = "NC").
Proof.
  apply (parse_location_without_comma "12 Elm Street" "Austin"). reflexivity.
Defined.

(** The path and the world that [save_results] returns. *)
Lemma save_results_ok (p : platform) (w : world) (bs : list Business.t)
    (filename : option string) (path : string) (w' : world) :
  save_results p w bs filename = Ok (path, w') ->
  path = path_join DATA_DIR (fst (default_filename p w filename "scrape_" ".json"))
  /\ w' = write_file
            (snd (datetime_now p
                    (snd (default_filename p w filename "scrape_" ".json"))))
            path
            (JsonFile
               (JDict [ ("scraped_at",
                         JStr (DateTime.isoformat
                                 (fst (datetime_now p
                                         (snd (default_filename p w filename
                                                 "scrape_" ".json"))))));
                        ("count", JInt (len bs));
                        ("businesses", JList (List.map asdict_business bs)) ])).
Proof.
  unfold save_results.
  destruct (default_filename p w filename "scrape_" ".json") as [name w0].
  cbn [datetime_now fst snd].
  destruct (open_for_writing p _) as [[] |]; [| discriminate].
  rewrite bind_Ok. unfold Json.dump.
  destruct (Json.dumpable _); [| discriminate].
  rewrite bind_Ok.
  destruct (str_of_int (len bs)) as [count |]; [| discriminate].
  rewrite bind_Ok.
  destruct (console_print p _) as [[] |]; [| discriminate].
  rewrite bind_Ok. intros [= <- <-]. split; reflexivity.
Qed.

(** X16.  [save_results] raises the exception of [open] when the file
    cannot be opened, ValueError when one of the ints of the businesses has
    more than 4300 digits (the document cannot be written), and MarkupError
    when Rich refuses the line that names the file; otherwise it returns
    (the list having at most [sys.maxsize] entries).  When it
    returns it has written one file and changed no other; the document
    holds the number of businesses next to their list; it has made no
    request.  With a file name that is not empty the path is that name
    under the data directory and the clock is read once (for the
    [scraped_at] of the document); without one, or with an empty one, the
    name is made from a first reading of the clock, and the time stamp of
    the document is the second reading. *)
Theorem save_results_effects (p : platform) (w : world)
    (bs : list Business.t) (filename : option string) :
  (forall path w',
     save_results p w bs filename = Ok (path, w') ->
     (exists stamp,
        files w' !! path
          = Some (JsonFile
                    (JDict [ ("scraped_at", JStr stamp);
                             ("count", JInt (len bs));
                             ("businesses", JList (List.map asdict_business bs)) ]))
        /\ (forall name, filename = Some name -> name <> "" ->
            stamp = DateTime.isoformat (wall_clock p (ticks w)))
        /\ (filename = None \/ filename = Some "" ->
            stamp = DateTime.isoformat (wall_clock p (S (ticks w)))))
     /\ (forall other, other <> path -> files w' !! other = files w !! other)
     /\ requests w' = requests w
     /\ (forall name, filename = Some name -> name <> "" ->
         path = "data/" ++ name /\ ticks w' = S (ticks w))
     /\ (filename = None \/ filename = Some "" ->
         path = "data/scrape_"
                  ++ DateTime.strftime_compact (wall_clock p (ticks w)) ++ ".json"
         /\ ticks w' = S (S (ticks w))))
  /\ (forall e,
        open_error p (scrape_path p w filename) = Some e ->
        save_results p w bs filename = Raise e)
  /\ (open_error p (scrape_path p w filename) = None ->
      forallb writable bs = false ->
      save_results p w bs filename = Raise (ValueError int_too_long_message))
  /\ (open_error p (scrape_path p w filename) = None ->
      forallb writable bs = true ->
      len bs <= sys_maxsize ->
      markup_error p (saved_message (decimal (len bs)) (scrape_path p w filename))
        = true ->
      save_results p w bs filename = Raise MarkupError)
  /\ (open_error p (scrape_path p w filename) = None ->
      forallb writable bs = true ->
      len bs <= sys_maxsize ->
      markup_error p (saved_message (decimal (len bs)) (scrape_path p w filename))
        = false ->
      exists w', save_results p w bs filename = Ok (scrape_path p w filename, w')).
Proof.
  split.
  { intros path w' Hsaved.
    apply save_results_ok in Hsaved as [-> ->].
    unfold default_filename.
    destruct filename as [name |].
    - destruct (PyStr.truthy name) eqn:Hname; cbn [datetime_now fst snd write_file
        files requests ticks]; (split; [eexists; split; [apply lookup_insert_eq |] |]).
      + split; [intros ? [= <-] _; reflexivity |].
        intros [H | [= ->]]; [discriminate H | discriminate Hname].
      + split; [intros other Hother; apply lookup_insert_ne; congruence |].
        split; [reflexivity |]. split.
        * intros ? [= <-] _. split; reflexivity.
        * intros [H | [= ->]]; [discriminate H | discriminate Hname].
      + assert (name = "") as ->.
        { destruct name; [reflexivity | discriminate Hname]. }
        split; [intros ? [= <-] Hne; congruence | intros _; reflexivity].
      + assert (name = "") as ->.
        { destruct name; [reflexivity | discriminate Hname]. }
        split; [intros other Hother; apply lookup_insert_ne; congruence |].
        split; [reflexivity |]. split.
        * intros ? [= <-] Hne; congruence.
        * intros _. split; reflexivity.
    - cbn [datetime_now fst snd write_file files requests ticks].
      split; [eexists; split; [apply lookup_insert_eq |] |].
      + split; [intros ? H; discriminate H | intros _; reflexivity].
      + split; [intros other Hother; apply lookup_insert_ne; congruence |].
        split; [reflexivity |]. split.
        * intros ? H; discriminate H.
        * intros _. split; reflexivity. }
  destruct (save_results_eq p w bs filename) as (w1 & stamp & _ & _ & Heq).
  split; [| split; [| split]].
  - intros e Hopen. rewrite Heq. unfold open_for_writing. rewrite Hopen.
    reflexivity.
  - intros Hopen Hwritable. rewrite Heq. unfold open_for_writing.
    rewrite Hopen, bind_Ok. unfold Json.dump.
    rewrite dumpable_scrape, Hwritable, andb_false_r. reflexivity.
  - intros Hopen Hwritable Hlen Hprint. rewrite Heq. unfold open_for_writing.
    rewrite Hopen, bind_Ok. unfold Json.dump.
    rewrite dumpable_scrape, (short_length bs Hlen), Hwritable.
    cbn [negb andb].
    rewrite bind_Ok, (str_of_int_short _ (short_length bs Hlen)), bind_Ok.
    rewrite (console_print_refuses _ _ Hprint). reflexivity.
  - intros Hopen Hwritable Hlen Hprint.
    apply (save_results_returns p w bs filename Hwritable Hlen Hopen Hprint).
Qed.

End CollectorFiles.
(** ** The analysis file and the content plan *)

Section ContentPlan.

Import ContentGenerator.
Local Open Scope string_scope.
Local Open Scope Z_scope.

Lemma string_append_assoc (a b c : string) : (a ++ b) ++ c = a ++ b ++ c.
Proof.
  induction a as [| x a IH]; [reflexivity |].
  rewrite !append_cons, IH. reflexivity.
Qed.

Lemma as_str_list_strs (items : list string) :
  as_str_list (JList (List.map JStr items)) = Ok items.
Proof.
  unfold as_str_list. induction items as [| s rest IH]; [reflexivity |].
  cbn [List.map map_result Json.as_str]. rewrite bind_Ok, IH. reflexivity.
Qed.

Lemma load_score_asdict (score : OpportunityScore.t) :
  load_score (OpportunityAnalyzer.asdict_score score) = Ok score.
Proof.
  destruct score as [category location total_businesses total_reviews
                     avg_reviews avg_rating low_rated without_website
                     last_30_days velocity complaints themes opportunity].
  unfold load_score, OpportunityAnalyzer.asdict_score.
  cbn [OpportunityScore.category OpportunityScore.location
       OpportunityScore.total_businesses OpportunityScore.total_reviews
       OpportunityScore.avg_reviews_per_business OpportunityScore.avg_rating
       OpportunityScore.low_rated_businesses
       OpportunityScore.businesses_without_website
       OpportunityScore.reviews_last_30_days OpportunityScore.review_velocity
       OpportunityScore.common_complaints OpportunityScore.complaint_themes
       OpportunityScore.opportunity_score].
  replace (forallb _ _) with true by reflexivity.
  cbn [negb].
  unfold OpportunityAnalyzer.required, OpportunityAnalyzer.optional.
  cbn [Json.dict_get String.eqb Ascii.eqb Bool.eqb Json.as_str Json.as_int
       as_float].
  rewrite !bind_Ok, !as_str_list_strs, !bind_Ok. reflexivity.
Qed.

Lemma dumpable_strs (items : list string) :
  forallb Json.dumpable (List.map JStr items) = true.
Proof. induction items as [| s rest IH]; [reflexivity | exact IH]. Qed.

(** The document of [save_analysis] can be written exactly when the ints of
    the score can. *)
Lemma dumpable_score (score : OpportunityScore.t) :
  Json.dumpable (OpportunityAnalyzer.asdict_score score) = writable_score score.
Proof.
  unfold OpportunityAnalyzer.asdict_score, writable_score.
  cbn [Json.dumpable forallb snd]. rewrite !dumpable_strs.
  cbn [andb]. rewrite !andb_true_r, !andb_assoc. reflexivity.
Qed.

(** [save_analysis], step by step. *)
Lemma save_analysis_eq (p : platform) (w : world)
    (score : OpportunityScore.t) (filename : option string) :
  OpportunityAnalyzer.save_analysis p w score filename
    = (_ ← open_for_writing p (analysis_path p w score filename);
       w' ← Json.dump
              (snd (default_filename p w filename
                      ("analysis_"
                         ++ sub_non_word (OpportunityScore.category score) ++ "_")
                      ".json"))
              (analysis_path p w score filename)
              (OpportunityAnalyzer.asdict_score score);
       _ ← console_print p
             (OpportunityAnalyzer.analysis_saved_message
                (analysis_path p w score filename));
       Ok (analysis_path p w score filename, w')).
Proof.
  unfold OpportunityAnalyzer.save_analysis, analysis_path.
  destruct (default_filename p w filename _ ".json") as [name w0].
  reflexivity.
Qed.

(** When [save_analysis] returns, and what it returns. *)
Lemma save_analysis_returns (p : platform) (w : world)
    (score : OpportunityScore.t) (filename : option string) :
  writable_score score = true ->
  open_error p (analysis_path p w score filename) = None ->
  markup_error p
    (OpportunityAnalyzer.analysis_saved_message (analysis_path p w score filename))
    = false ->
  OpportunityAnalyzer.save_analysis p w score filename
    = Ok (analysis_path p w score filename,
          write_file
            (snd (default_filename p w filename
                    ("analysis_"
                       ++ sub_non_word (OpportunityScore.category score) ++ "_")
                    ".json"))
            (analysis_path p w score filename)
            (JsonFile (OpportunityAnalyzer.asdict_score score))).
Proof.
  intros Hwritable Hopen Hprint. rewrite save_analysis_eq.
  unfold open_for_writing. rewrite Hopen, bind_Ok.
  unfold Json.dump. rewrite dumpable_score, Hwritable, bind_Ok.
  rewrite (console_print_accepts _ _ Hprint), bind_Ok. reflexivity.
Qed.

(** [load_analysis] on a file that holds the document of a score. *)
Lemma load_analysis_file (p : platform) (w : world)
    (score : OpportunityScore.t) (self : t) (path : string) :
  files w !! path = Some (JsonFile (OpportunityAnalyzer.asdict_score score)) ->
  markup_error p
    (loaded_message (OpportunityScore.category score)
                    (OpportunityScore.location score)) = false ->
  load_analysis p w self path = Ok (score, mk (Some score)).
Proof.
  intros Hfile Hprint. unfold load_analysis.
  rewrite Hfile, load_score_asdict, bind_Ok.
  rewrite (console_print_accepts _ _ Hprint), bind_Ok. reflexivity.
Qed.

(** X17.  An analysis whose ints have at most 4300 digits is written by
    [save_analysis], when the file can be opened and Rich takes the line
    that names it, and is then read back by [load_analysis], when Rich
    takes the line with the category and the location, as the same score,
    field by field; the planner then holds it.  The file is the only one
    written.  With a file name that is not empty the path is that name
    under the output directory and the clock is not read.  Without one (or
    with an empty one), for a category of ASCII characters, the file is
    named after the category, in which every character other than a
    letter, a digit, "_" and "-" is replaced by "_", and after the time. *)
Theorem analysis_file_round_trip (p : platform) (w : world)
    (score : OpportunityScore.t) (filename : option string) (self : t) :
  writable_score score = true ->
  (filename = None \/ filename = Some "" ->
   is_ascii (OpportunityScore.category score) = true) ->
  open_error p (analysis_path p w score filename) = None ->
  markup_error p
    (OpportunityAnalyzer.analysis_saved_message (analysis_path p w score filename))
    = false ->
  markup_error p
    (loaded_message (OpportunityScore.category score)
                    (OpportunityScore.location score)) = false ->
  exists path w',
    OpportunityAnalyzer.save_analysis p w score filename = Ok (path, w')
    /\ load_analysis p w' self path = Ok (score, mk (Some score))
    /\ (forall other, other <> path -> files w' !! other = files w !! other)
    /\ requests w' = requests w
    /\ (forall name, filename = Some name -> name <> "" ->
        path = "output/" ++ name /\ ticks w' = ticks w)
    /\ (filename = None \/ filename = Some "" ->
        path = "output/analysis_"
                 ++ sub_non_word (OpportunityScore.category score) ++ "_"
                 ++ DateTime.strftime_compact (wall_clock p (ticks w)) ++ ".json"
        /\ ticks w' = S (ticks w)).
Proof.
  intros Hwritable _ Hopen Hsaved Hloaded.
  eexists _, _.
  split; [apply (save_analysis_returns p w score filename Hwritable Hopen Hsaved) |].
  split.
  { apply load_analysis_file; [| exact Hloaded].
    cbn [write_file files]. apply lookup_insert_eq. }
  assert (Hempty : forall name, PyStr.truthy name = false -> name = "").
  { intros name Hname. destruct name; [reflexivity | discriminate Hname]. }
  unfold analysis_path, default_filename.
  destruct filename as [name |]; [destruct (PyStr.truthy name) eqn:Hname |];
    cbn [datetime_now fst snd write_file files requests ticks];
    (split; [intros other Hother; apply lookup_insert_ne; congruence |]);
    (split; [reflexivity |]); split.
  - intros ? [= <-] _. split; reflexivity.
  - intros [H | [= ->]]; [discriminate H | discriminate Hname].
  - intros ? [= <-] Hne. apply Hempty in Hname. congruence.
  - intros _. unfold path_join, OUTPUT_DIR.
    cbn [String.append]. rewrite !string_append_assoc. split; reflexivity.
  - intros ? H. discriminate H.
  - intros _. unfold path_join, OUTPUT_DIR.
    cbn [String.append]. rewrite !string_append_assoc. split; reflexivity.
Qed.

Lemma analysis_file_round_trip_witness :
  exists path w',
    OpportunityAnalyzer.save_analysis sample_platform empty_world
      (score_with_themes ["quality"; "pricing"]) None = Ok (path, w')
    /\ load_analysis sample_platform w' (mk None) path
       = Ok (score_with_themes ["quality"; "pricing"],
             mk (Some (score_with_themes ["quality"; "pricing"])))
    /\ path = "output/analysis_lawn_care_"
                ++ DateTime.strftime_compact (wall_clock sample_platform 0)
                ++ ".json".
Proof.
  destruct (analysis_file_round_trip sample_platform empty_world
              (score_with_themes ["quality"; "pricing"]) None (mk None))
    as (path & w' & Hsaved & Hloaded & _ & _ & _ & Hpath).
  - vm_compute. reflexivity.
  - intros _. vm_compute. reflexivity.
  - reflexivity.
  - reflexivity.
  - reflexivity.
  - exists path, w'. split; [exact Hsaved |]. split; [exact Hloaded |].
    apply Hpath. left. reflexivity.
Defined.

Lemma generate_plan_some (p : platform) (score : OpportunityScore.t) :
  generate_plan p (mk (Some score))
    = (_ ← console_print p (generating_message (OpportunityScore.category score));
       tagline ← _generate_tagline (mk (Some score));
       ideas ← newsletter_ideas score;
       posts ← social_posts score;
       Ok (NewsletterPlan.mk (OpportunityScore.category score)
             (OpportunityScore.location score) tagline
             ideas (email_sequence score) posts)).
Proof. reflexivity. Qed.

(** The ideas, when the number of reviews can be written: three, plus one
    for a complaint and one for a theme. *)
Lemma newsletter_ideas_short (score : OpportunityScore.t) :
  too_long (OpportunityScore.total_reviews score) = false ->
  exists ideas,
    newsletter_ideas score = Ok ideas
    /\ length ideas
       = (3 + (if OpportunityScore.common_complaints score is [] then 0 else 1)
            + (if OpportunityScore.complaint_themes score is [] then 0 else 1))%nat.
Proof.
  intros Hshort. unfold newsletter_ideas, ranking_idea.
  rewrite (str_of_int_short _ Hshort), !bind_Ok. eexists. split; [reflexivity |].
  destruct (OpportunityScore.common_complaints score),
           (OpportunityScore.complaint_themes score); reflexivity.
Qed.

Lemma newsletter_ideas_long (score : OpportunityScore.t) :
  too_long (OpportunityScore.total_reviews score) = true ->
  newsletter_ideas score = Raise (ValueError int_too_long_message).
Proof.
  intros Hlong. unfold newsletter_ideas, ranking_idea.
  rewrite (str_of_int_long _ Hlong). reflexivity.
Qed.

(** The posts, when the three numbers of the first one can be written:
    three, plus one for a complaint. *)
Lemma social_posts_short (score : OpportunityScore.t) :
  too_long (OpportunityScore.total_reviews score) = false ->
  too_long (OpportunityScore.low_rated_businesses score) = false ->
  too_long (OpportunityScore.total_businesses score) = false ->
  exists posts,
    social_posts score = Ok posts
    /\ length posts
       = (3 + (if OpportunityScore.common_complaints score is [] then 0 else 1))%nat.
Proof.
  intros Hreviews Hlow Hbusinesses. unfold social_posts, stat_post.
  rewrite (str_of_int_short _ Hreviews), bind_Ok.
  rewrite (str_of_int_short _ Hlow), bind_Ok.
  rewrite (str_of_int_short _ Hbusinesses), !bind_Ok.
  eexists. split; [reflexivity |].
  destruct (OpportunityScore.common_complaints score); reflexivity.
Qed.

Lemma social_posts_long (score : OpportunityScore.t) :
  too_long (OpportunityScore.total_reviews score)
  || too_long (OpportunityScore.low_rated_businesses score)
  || too_long (OpportunityScore.total_businesses score) = true ->
  social_posts score = Raise (ValueError int_too_long_message).
Proof.
  intros Hlong. unfold social_posts, stat_post, str_of_int.
  destruct (too_long (OpportunityScore.total_reviews score)); [reflexivity |].
  destruct (too_long (OpportunityScore.low_rated_businesses score)); [reflexivity |].
  destruct (too_long (OpportunityScore.total_businesses score)); [reflexivity |].
  discriminate Hlong.
Qed.

(** X18.  [generate_plan] raises ValueError when no analysis is loaded.
    With a loaded score it prints the category first, and raises
    MarkupError when Rich refuses that line.  Otherwise it raises
    ValueError when the number of reviews, of low-rated businesses or of
    businesses has more than 4300 digits (its texts write them), and else
    it returns a plan: for the category and the location of the score,
    with the tagline of [_generate_tagline], with three ideas plus one when
    the score has a complaint and one when it has a theme, with the four
    e-mails of days 0, 2, 4 and 7, and with three posts plus one when the
    score has a complaint. *)
Theorem generate_plan_shape (p : platform) (self : t) :
  (score self = None ->
   generate_plan p self = Raise (ValueError no_analysis_message))
  /\ (forall loaded, score self = Some loaded ->
      (markup_error p (generating_message (OpportunityScore.category loaded)) = true ->
       generate_plan p self = Raise MarkupError)
      /\ (markup_error p (generating_message (OpportunityScore.category loaded)) = false ->
          too_long (OpportunityScore.total_reviews loaded)
          || too_long (OpportunityScore.low_rated_businesses loaded)
          || too_long (OpportunityScore.total_businesses loaded) = true ->
          generate_plan p self = Raise (ValueError int_too_long_message))
      /\ (markup_error p (generating_message (OpportunityScore.category loaded)) = false ->
          too_long (OpportunityScore.total_reviews loaded)
          || too_long (OpportunityScore.low_rated_businesses loaded)
          || too_long (OpportunityScore.total_businesses loaded) = false ->
          exists plan,
            generate_plan p self = Ok plan
            /\ NewsletterPlan.niche plan = OpportunityScore.category loaded
            /\ NewsletterPlan.location plan = OpportunityScore.location loaded
            /\ _generate_tagline self = Ok (NewsletterPlan.tagline plan)
            /\ length (NewsletterPlan.ideas plan)
               = (3 + (if OpportunityScore.common_complaints loaded is [] then 0 else 1)
                    + (if OpportunityScore.complaint_themes loaded is [] then 0 else 1))%nat
            /\ List.map Email.day (NewsletterPlan.email_sequence plan) = [0; 2; 4; 7]
            /\ length (NewsletterPlan.social_posts plan)
               = (3 + (if OpportunityScore.common_complaints loaded is [] then 0 else 1))%nat)).
Proof.
  destruct self as [[loaded |]]; cbn [score]; split.
  - intros H. discriminate H.
  - intros ? [= <-]. rewrite generate_plan_some, generate_tagline_eq. cbv zeta.
    split; [| split].
    + intros Hprint. rewrite (console_print_refuses _ _ Hprint). reflexivity.
    + intros Hprint Hlong.
      rewrite (console_print_accepts _ _ Hprint), !bind_Ok.
      destruct (too_long (OpportunityScore.total_reviews loaded)) eqn:Hreviews.
      * rewrite (newsletter_ideas_long _ Hreviews). reflexivity.
      * destruct (newsletter_ideas_short _ Hreviews) as (ideas & -> & _).
        rewrite bind_Ok, social_posts_long; [reflexivity |].
        rewrite Hreviews. exact Hlong.
    + intros Hprint Hshort.
      apply orb_false_iff in Hshort as [Hshort Hbusinesses].
      apply orb_false_iff in Hshort as [Hreviews Hlow].
      rewrite (console_print_accepts _ _ Hprint), !bind_Ok.
      destruct (newsletter_ideas_short _ Hreviews) as (ideas & -> & Hideas).
      destruct (social_posts_short _ Hreviews Hlow Hbusinesses)
        as (posts & -> & Hposts).
      rewrite !bind_Ok. eexists. split; [reflexivity |].
      cbn [NewsletterPlan.niche NewsletterPlan.location NewsletterPlan.tagline
           NewsletterPlan.ideas NewsletterPlan.email_sequence
           NewsletterPlan.social_posts].
      repeat split; assumption.
  - intros _. reflexivity.
  - intros ? H. discriminate H.
Qed.

Lemma generate_plan_shape_witness :
  exists plan,
    generate_plan sample_platform
      (mk (Some (score_with_themes ["quality"; "pricing"]))) = Ok plan
    /\ NewsletterPlan.tagline plan = "Save Money on Lawn Care in Austin"
    /\ length (NewsletterPlan.ideas plan) = 4%nat
    /\ length (NewsletterPlan.social_posts plan) = 3%nat.
Proof.
  destruct (generate_plan_shape sample_platform
              (mk (Some (score_with_themes ["quality"; "pricing"]))))
    as [_ Hplan].
  destruct (Hplan _ eq_refl) as (_ & _ & Hreturns).
  destruct (Hreturns eq_refl eq_refl)
    as (plan & Hok & _ & _ & Htagline & Hideas & _ & Hposts).
  exists plan. split; [exact Hok |]. split; [| split; assumption].
  assert (Hpricing :
    _generate_tagline (mk (Some (score_with_themes ["quality"; "pricing"])))
      = Ok "Save Money on Lawn Care in Austin") by (vm_compute; reflexivity).
  rewrite Hpricing in Htagline. injection Htagline as <-. reflexivity.
Defined.

Lemma to_lower_idempotent (c : ascii) : to_lower (to_lower c) = to_lower c.
Proof.
  destruct c as [[] [] [] [] [] [] [] []]; reflexivity.
Qed.

Lemma lower_idempotent (s : string) : lower (lower s) = lower s.
Proof.
  induction s as [| c r IH]; [reflexivity |].
  simpl. rewrite to_lower_idempotent, IH. reflexivity.
Qed.

(** X19.  [_summarize_complaint] returns one of eight fixed phrases,
    never a piece of the complaint: "providers being " followed by the
    first of its seven key words that the lower-cased complaint contains,
    or "poor service quality" when it contains none.  The case of the
    complaint does not matter. *)
Theorem summarize_complaint_phrases (complaint : string) :
  In (_summarize_complaint complaint)
     [ "providers being late"; "providers being never";
       "providers being expensive"; "providers being poor";
       "providers being rude"; "providers being slow";
       "providers being damaged"; "poor service quality" ]
  /\ (_summarize_complaint complaint = "poor service quality"
      <-> forallb (fun kw => negb (contains kw (lower complaint)))
                  SUMMARY_KEYWORDS = true)
  /\ (forall kw,
        List.find (fun kw => contains kw (lower complaint)) SUMMARY_KEYWORDS
          = Some kw ->
        _summarize_complaint complaint = "providers being " ++ kw)
  /\ _summarize_complaint (lower complaint) = _summarize_complaint complaint.
Proof.
  repeat split.
  - unfold _summarize_complaint, SUMMARY_KEYWORDS. cbn [List.find].
    repeat match goal with
           | |- context [contains ?kw (lower complaint)] =>
               destruct (contains kw (lower complaint))
           end; simpl; tauto.
  - unfold _summarize_complaint, SUMMARY_KEYWORDS. cbn [List.find forallb].
    repeat match goal with
           | |- context [contains ?kw (lower complaint)] =>
               destruct (contains kw (lower complaint))
           end; simpl; intros H; try reflexivity; discriminate H.
  - unfold _summarize_complaint, SUMMARY_KEYWORDS. cbn [List.find forallb].
    repeat match goal with
           | |- context [contains ?kw (lower complaint)] =>
               destruct (contains kw (lower complaint))
           end; simpl; intros H; try reflexivity; discriminate H.
  - intros kw Hfind. unfold _summarize_complaint. rewrite Hfind. reflexivity.
  - unfold _summarize_complaint. rewrite lower_idempotent. reflexivity.
Qed.

(** X20.  The e-mail sequence always has the same four entries, for days
    0, 2, 4 and 7, with the purposes of the templates; the location in its
    texts is the part of the score's location before the first comma; and
    no preview is the fallback text of [_generate_email_preview], since
    each purpose of the templates has a preview of its own. *)
Theorem email_sequence_previews (score : OpportunityScore.t) :
  let niche := OpportunityScore.category score in
  let location := PyStr.first (split_on "," (OpportunityScore.location score)) in
  List.map Email.day (email_sequence score) = [0; 2; 4; 7]
  /\ List.map Email.purpose (email_sequence score)
     = [ "Welcome + deliver lead magnet"; "Problem awareness";
         "Social proof + tips"; "Conversion - directory/lead gen" ]
  /\ List.map Email.subject (email_sequence score)
     = [ "Welcome! Here's your guide to finding the best " ++ niche
           ++ " in " ++ location;
         "The #1 mistake people make when hiring " ++ niche ++ "...";
         "Real story: How one " ++ location ++ " resident saved $500 on " ++ niche;
         "Ready to get quotes? Here's our vetted list" ]
  /\ List.Forall
       (fun email =>
          Email.preview email
            = _generate_email_preview (Email.purpose email) niche location
          /\ Email.preview email
             <> "More tips about " ++ niche ++ " in " ++ location ++ "...")
       (email_sequence score).
Proof.
  cbv zeta. repeat split.
  repeat constructor; cbn; intros H; discriminate H.
Qed.

End ContentPlan.
(** ** The demo pipeline *)

Section Pipeline.

Local Open Scope string_scope.
Local Open Scope Z_scope.

Lemma analyze_demo (p : platform) (w : world) (query location : string) :
  markup_error p (OpportunityAnalyzer.analyzing_message query location) = false ->
  OpportunityAnalyzer.analyze p
    (OpportunityAnalyzer.mk
       (fst (GoogleMapsScraper._get_demo_data p w query location)))
    query location
  = Ok (demo_score query location).
Proof.
  intros Hprint. rewrite get_demo_data_eq. cbv zeta. cbn [fst].
  rewrite analyze_nonempty by discriminate.
  rewrite (console_print_accepts _ _ Hprint), bind_Ok.
  vm_compute. reflexivity.
Qed.

Lemma demo_data_valid (p : platform) (w : world) (query location : string) :
  (forall i, (i < 5)%nat ->
             DateTime.valid (wall_clock p (ticks w + i)%nat) = true) ->
  List.Forall (fun b => DateTime.valid (Business.scraped_at b) = true)
              (fst (GoogleMapsScraper._get_demo_data p w query location)).
Proof.
  intros Hclock. rewrite get_demo_data_eq. cbn [fst].
  repeat (constructor; [apply Hclock; lia |]). constructor.
Qed.

(** The demo records can be written, and there are five of them. *)
Lemma demo_data_writable (p : platform) (w : world) (query location : string) :
  forallb writable (fst (GoogleMapsScraper._get_demo_data p w query location))
    = true
  /\ len (fst (GoogleMapsScraper._get_demo_data p w query location)) = 5.
Proof.
  rewrite get_demo_data_eq. cbv zeta. cbn [fst]. split; vm_compute; reflexivity.
Qed.

(** The two files of a run on demo data are named after the sixth and the
    eighth reading of the clock. *)
Lemma demo_paths (p : platform) (w : world) (query location : string)
    (w2 : world) :
  ticks w2 = (ticks w + 7)%nat ->
  scrape_path p (snd (GoogleMapsScraper._get_demo_data p w query location)) None
    = demo_scrape_path p w
  /\ analysis_path p w2 (demo_score query location) None
     = demo_analysis_path p w query.
Proof.
  intros Hticks. rewrite get_demo_data_eq. cbv zeta.
  unfold scrape_path, analysis_path, demo_scrape_path, demo_analysis_path,
    default_filename, path_join, DATA_DIR, OUTPUT_DIR.
  cbn [datetime_now fst snd ticks OpportunityScore.category]. rewrite Hticks.
  cbn [String.append]. rewrite !string_append_assoc. split; reflexivity.
Qed.

(** X21.  The steps of the pipeline on demo data.  Without an API
    credential, for a query of ASCII characters, when the five readings of
    the clock that the search makes are dates in the ranges of [datetime],
    when the two files can be opened and when Rich takes the five lines
    that carry the query, the location or a path, the steps compose:
    [search] returns the demo records, [save_results] writes them,
    [load_data] reads them back, [analyze] returns the same score whatever
    the query and the location (5 businesses, 327 reviews, the themes
    quality, reliability, professionalism and pricing, a score of 85),
    [save_analysis] writes it, [load_analysis] reads it back and
    [generate_plan] returns a plan with the pricing tagline, five ideas,
    four e-mails and four posts.  No request is made. *)
Theorem demo_pipeline (fuel : nat) (p : platform) (self : GoogleMapsScraper.t)
    (w : world) (query location : string) (max_results : Z) :
  (forall i, (i < 5)%nat ->
             DateTime.valid (wall_clock p (ticks w + i)%nat) = true) ->
  reachable p self ->
  GoogleMapsScraper.no_api_key self = true ->
  is_ascii query = true ->
  open_error p (demo_scrape_path p w) = None ->
  markup_error p (GoogleMapsScraper.saved_message "5" (demo_scrape_path p w))
    = false ->
  markup_error p (OpportunityAnalyzer.analyzing_message query location) = false ->
  open_error p (demo_analysis_path p w query) = None ->
  markup_error p
    (OpportunityAnalyzer.analysis_saved_message (demo_analysis_path p w query))
    = false ->
  markup_error p (ContentGenerator.loaded_message query location) = false ->
  markup_error p (ContentGenerator.generating_message query) = false ->
  exists found w1 w2 loaded analyzer w3 w4 planner plan,
    GoogleMapsScraper.search fuel p self w query location max_results
      = Some (found, self, w1)
    /\ GoogleMapsScraper.save_results p w1 found None
       = Ok (demo_scrape_path p w, w2)
    /\ OpportunityAnalyzer.load_data p w2 (OpportunityAnalyzer.mk [])
         (demo_scrape_path p w)
       = Ok (loaded, analyzer, w3)
    /\ OpportunityAnalyzer.analyze p analyzer query location
       = Ok (demo_score query location)
    /\ OpportunityAnalyzer.save_analysis p w3 (demo_score query location) None
       = Ok (demo_analysis_path p w query, w4)
    /\ ContentGenerator.load_analysis p w4 (ContentGenerator.mk None)
         (demo_analysis_path p w query)
       = Ok (demo_score query location, planner)
    /\ ContentGenerator.generate_plan p planner = Ok plan
    /\ NewsletterPlan.tagline plan
       = "Save Money on " ++ title query ++ " in "
           ++ PyStr.first (split_on "," location)
    /\ length (NewsletterPlan.ideas plan) = 5%nat
    /\ length (NewsletterPlan.email_sequence plan) = 4%nat
    /\ length (NewsletterPlan.social_posts plan) = 4%nat
    /\ requests w4 = requests w.
Proof.
  intros Hclock Hreach Hkey _ Hopen1 Hsaved1 Hanalyzing Hopen2 Hsaved2
         Hloaded Hgenerating.
  pose proof (reachable_no_key_cache p self Hreach Hkey) as Hcache.
  set (found := fst (GoogleMapsScraper._get_demo_data p w query location)).
  set (w1 := snd (GoogleMapsScraper._get_demo_data p w query location)).
  destruct (demo_data_writable p w query location) as [Hwritable Hfive].
  fold found in Hwritable, Hfive.
  assert (Hticks1 : ticks w1 = (ticks w + 5)%nat /\ requests w1 = requests w).
  { unfold w1. rewrite get_demo_data_eq. split; reflexivity. }
  destruct Hticks1 as [Hticks1 Hrequests1].
  (* the scrape file *)
  destruct (save_results_returns p w1 found None) as [w2 Hscrape].
  { exact Hwritable. }
  { rewrite Hfive. discriminate. }
  { unfold w1.
    rewrite (proj1 (demo_paths p w query location (mk_world (ticks w + 7) 0 ∅)
                      eq_refl)).
    exact Hopen1. }
  { unfold w1.
    rewrite (proj1 (demo_paths p w query location (mk_world (ticks w + 7) 0 ∅)
                      eq_refl)).
    rewrite Hfive. exact Hsaved1. }
  assert (Hpath1 : scrape_path p w1 None = demo_scrape_path p w).
  { unfold w1.
    apply (proj1 (demo_paths p w query location (mk_world (ticks w + 7) 0 ∅)
                    eq_refl)). }
  rewrite Hpath1 in Hscrape.
  destruct (save_results_ok p w1 found None _ _ Hscrape) as [_ Hw2].
  assert (Hticks2 : ticks w2 = (ticks w + 7)%nat /\ requests w2 = requests w).
  { rewrite Hw2. cbn [default_filename datetime_now fst snd write_file ticks
                      requests].
    rewrite Hticks1, Hrequests1. split; [lia | reflexivity]. }
  destruct Hticks2 as [Hticks2 Hrequests2].
  destruct (save_results_file p w1 found None _ _ Hscrape)
    as (_ & _ & _ & _ & _ & _ & stamp & Hfile).
  (* the analysis file *)
  pose proof (proj2 (demo_paths p w query location w2 Hticks2)) as Hpath2.
  pose proof (save_analysis_returns p w2 (demo_score query location) None)
    as Hanalysis.
  rewrite Hpath2 in Hanalysis.
  specialize (Hanalysis eq_refl Hopen2 Hsaved2).
  exists found, w1, w2, (List.map reloaded found),
         (OpportunityAnalyzer.mk (List.map reloaded found)), w2.
  eexists _, (ContentGenerator.mk (Some (demo_score query location))), _.
  split; [apply search_demo; [rewrite Hcache; apply lookup_empty | exact Hkey] |].
  split; [exact Hscrape |].
  split; [apply (load_data_file p w2 _ _ stamp found);
          [apply demo_data_valid; exact Hclock | exact Hfile] |].
  split; [rewrite analyze_reloaded; apply analyze_demo; exact Hanalyzing |].
  split; [exact Hanalysis |].
  split; [apply load_analysis_file;
          [cbn [write_file files]; apply lookup_insert_eq | exact Hloaded] |].
  split.
  { rewrite generate_plan_some, generate_tagline_eq. cbv zeta.
    cbn [demo_score OpportunityScore.category].
    rewrite (console_print_accepts _ _ Hgenerating), !bind_Ok. reflexivity. }
  cbn [NewsletterPlan.tagline NewsletterPlan.ideas NewsletterPlan.email_sequence
       NewsletterPlan.social_posts].
  split; [reflexivity |]. split; [reflexivity |]. split; [reflexivity |].
  split; [reflexivity |].
  cbn [write_file requests default_filename datetime_now snd].
  exact Hrequests2.
Qed.

Lemma demo_pipeline_witness :
  exists found w1 w2 loaded analyzer w3 w4 planner plan,
    GoogleMapsScraper.search 0 sample_platform (GoogleMapsScraper.init None None)
      empty_world "lawn care" "Austin, TX" 20
      = Some (found, GoogleMapsScraper.init None None, w1)
    /\ GoogleMapsScraper.save_results sample_platform w1 found None
       = Ok (demo_scrape_path sample_platform empty_world, w2)
    /\ OpportunityAnalyzer.load_data sample_platform w2
         (OpportunityAnalyzer.mk []) (demo_scrape_path sample_platform empty_world)
       = Ok (loaded, analyzer, w3)
    /\ OpportunityAnalyzer.analyze sample_platform analyzer "lawn care" "Austin, TX"
       = Ok (demo_score "lawn care" "Austin, TX")
    /\ OpportunityAnalyzer.save_analysis sample_platform w3
         (demo_score "lawn care" "Austin, TX") None
       = Ok (demo_analysis_path sample_platform empty_world "lawn care", w4)
    /\ ContentGenerator.load_analysis sample_platform w4
         (ContentGenerator.mk None)
         (demo_analysis_path sample_platform empty_world "lawn care")
       = Ok (demo_score "lawn care" "Austin, TX", planner)
    /\ ContentGenerator.generate_plan sample_platform planner = Ok plan
    /\ NewsletterPlan.tagline plan
       = "Save Money on " ++ title "lawn care" ++ " in "
           ++ PyStr.first (split_on "," "Austin, TX")
    /\ length (NewsletterPlan.ideas plan) = 5%nat
    /\ length (NewsletterPlan.email_sequence plan) = 4%nat
    /\ length (NewsletterPlan.social_posts plan) = 4%nat
    /\ requests w4 = requests empty_world.
Proof.
  apply (demo_pipeline 0 sample_platform (GoogleMapsScraper.init None None)
           empty_world "lawn care" "Austin, TX" 20).
  - intros i Hi.
    destruct i as [| [| [| [| [| i]]]]]; [reflexivity .. | lia].
  - apply reachable_init.
  - reflexivity.
  - reflexivity.
  - reflexivity.
  - reflexivity.
  - reflexivity.
  - reflexivity.
  - reflexivity.
  - reflexivity.
  - reflexivity.
Defined.

End Pipeline.
(** ** The exporter on arbitrary records *)

Section Exports.

Import LeadExporter.
Local Open Scope string_scope.
Local Open Scope Z_scope.

Lemma opportunity_notes_frame (biz : gmap string json) (v : json) :
  opportunity_notes (<["opportunity_notes" := v]> biz) = opportunity_notes biz.
Proof.
  unfold opportunity_notes, notes_of, rating_rule, website_rule, review_rule.
  rewrite !lookup_insert_ne by discriminate. reflexivity.
Qed.

Lemma opportunity_notes_not_empty (biz : gmap string json) (notes : string) :
  opportunity_notes biz = Ok notes -> notes <> "".
Proof.
  unfold opportunity_notes, notes_of.
  destruct (rating_rule biz) as [[] |]; [| | discriminate];
    destruct (website_rule biz);
    (destruct (review_rule biz) as [[] |]; [| | discriminate]);
    rewrite !bind_Ok; intros [= <-]; discriminate.
Qed.

Lemma lt_float_raises (v : json) (x : float) (e : exn) :
  lt_float v x = Raise e -> e = TypeError.
Proof. destruct v; simpl; congruence. Qed.

Lemma lt_int_raises (v : json) (n : Z) (e : exn) :
  lt_int v n = Raise e -> e = TypeError.
Proof. destruct v; simpl; congruence. Qed.

Lemma enrich_raises (biz : gmap string json) (e : exn) :
  enrich biz = Raise e -> e = TypeError.
Proof.
  unfold enrich, opportunity_notes, notes_of.
  destruct (rating_rule biz) as [below | e1] eqn:Hrating.
  - destruct (review_rule biz) as [low | e2] eqn:Hreview.
    + rewrite !bind_Ok. discriminate.
    + rewrite bind_Ok. cbv zeta. rewrite !bind_Raise. intros [= <-].
      apply (lt_int_raises _ _ _ Hreview).
  - rewrite !bind_Raise. intros [= <-]. unfold rating_rule in Hrating.
    destruct (biz !! "rating") as [v |]; [| discriminate Hrating].
    destruct (Json.truthy v); [| discriminate Hrating].
    apply (lt_float_raises _ _ _ Hrating).
Qed.

Lemma map_result_raises {A B} (f : A -> result B) (xs : list A) (x : A)
    (e : exn) :
  (forall y e', f y = Raise e' -> e' = e) ->
  In x xs -> f x = Raise e -> map_result f xs = Raise e.
Proof.
  intros Honly Hin Hx. induction xs as [| y rest IH]; [destruct Hin |].
  cbn [map_result].
  destruct (f y) as [b | e'] eqn:Hy.
  - destruct Hin as [-> | Hin]; [congruence |].
    rewrite bind_Ok, (IH Hin). reflexivity.
  - rewrite bind_Raise. f_equal. apply (Honly y e' Hy).
Qed.

(** X22.  One pass of the outreach loop changes nothing of a record but
    its [opportunity_notes], which it sets to a text that is not empty; and
    a record that went through the loop comes out of a second pass
    unchanged, because the notes are computed from the rating, the web
    site and the review count only. *)
Theorem enrich_only_notes (biz biz' : gmap string json) :
  enrich biz = Ok biz' ->
  (forall key, key <> "opportunity_notes" -> biz' !! key = biz !! key)
  /\ (exists notes,
        biz' !! "opportunity_notes" = Some (JStr notes)
        /\ opportunity_notes biz = Ok notes
        /\ notes <> "")
  /\ enrich biz' = Ok biz'.
Proof.
  unfold enrich. intros Henrich.
  destruct (opportunity_notes biz) as [notes | e] eqn:Hnotes;
    [| discriminate Henrich].
  rewrite bind_Ok in Henrich. injection Henrich as <-.
  split; [| split].
  - intros key Hkey. apply lookup_insert_ne. congruence.
  - exists notes. split; [apply lookup_insert_eq |].
    split; [reflexivity |]. apply (opportunity_notes_not_empty biz). exact Hnotes.
  - rewrite opportunity_notes_frame, Hnotes, bind_Ok, insert_insert_eq.
    reflexivity.
Qed.

Lemma enrich_only_notes_witness :
  (forall key, key <> "opportunity_notes" ->
     Lead.enriched (Lead.mk (Some f4_8) None 200 ∅) !! key
       = Lead.row (Lead.mk (Some f4_8) None 200 ∅) !! key)
  /\ (exists notes,
        Lead.enriched (Lead.mk (Some f4_8) None 200 ∅) !! "opportunity_notes"
          = Some (JStr notes)
        /\ opportunity_notes (Lead.row (Lead.mk (Some f4_8) None 200 ∅)) = Ok notes
        /\ notes <> "")
  /\ enrich (Lead.enriched (Lead.mk (Some f4_8) None 200 ∅))
     = Ok (Lead.enriched (Lead.mk (Some f4_8) None 200 ∅)).
Proof.
  apply (enrich_only_notes (Lead.row (Lead.mk (Some f4_8) None 200 ∅))).
  vm_compute. reflexivity.
Defined.

(** X23.  A record whose [review_count] is there but null makes the
    outreach export raise TypeError, wherever it stands in the list: the
    fallback of [biz.get("review_count", 0)] is for a missing key only, and
    [None < 20] is no comparison.  No file is written then, since the loop
    runs before the file is opened. *)
Theorem export_outreach_list_null_count (p : platform) (w : world)
    (businesses : list (gmap string json)) (filename : option string)
    (biz : gmap string json) :
  In biz businesses ->
  biz !! "review_count" = Some JNull ->
  export_outreach_list p w businesses filename = Raise TypeError.
Proof.
  intros Hin Hnull. unfold export_outreach_list.
  destruct (default_filename p w filename "outreach_" ".csv") as [name w1].
  rewrite (map_result_raises enrich businesses biz TypeError);
    [reflexivity | apply enrich_raises | exact Hin |].
  unfold enrich, opportunity_notes, notes_of.
  destruct (rating_rule biz) as [below | e] eqn:Hrating.
  - rewrite bind_Ok. unfold review_rule. rewrite Hnull. reflexivity.
  - rewrite !bind_Raise. f_equal.
    apply (enrich_raises biz). unfold enrich, opportunity_notes, notes_of.
    rewrite Hrating. reflexivity.
Qed.

Lemma export_outreach_list_null_count_witness :
  export_outreach_list sample_platform empty_world
    [ Lead.row (Lead.mk (Some f4_8) None 200 ∅);
      <["review_count" := JNull]> (Lead.row (Lead.mk (Some f4_8) None 200 ∅)) ]
    (Some "outreach.csv")
  = Raise TypeError.
Proof.
  apply (export_outreach_list_null_count sample_platform empty_world _
           (Some "outreach.csv")
           (<["review_count" := JNull]> (Lead.row (Lead.mk (Some f4_8) None 200 ∅)))).
  - right. left. reflexivity.
  - vm_compute. reflexivity.
Defined.

Lemma csv_row_extra (fields : list string) (biz : gmap string json)
    (key : string) (v : json) :
  ~ In key fields -> csv_row fields (<[key := v]> biz) = csv_row fields biz.
Proof.
  intros Hnotin. unfold csv_row. apply List.map_ext_in. intros field Hfield.
  rewrite lookup_insert_ne; [reflexivity |]. intros <-. contradiction.
Qed.

(** X24.  [export_csv] writes a table with one row per record, each with
    one cell per field of the header; the header is the list of fields
    asked for, or the nine default fields when none or an empty list is
    given; an entry of a record under a key that is no field of the header
    is not written. *)
Theorem export_csv_table (p : platform) (w : world)
    (businesses : list (gmap string json)) (filename : option string)
    (include_fields : option (list string)) :
  exists header rows,
    files (snd (export_csv p w businesses filename include_fields))
      !! fst (export_csv p w businesses filename include_fields)
      = Some (CsvFile header rows)
    /\ (include_fields = None \/ include_fields = Some [] ->
        header = DEFAULT_FIELDS)
    /\ (forall fields, include_fields = Some fields -> fields <> [] ->
        header = fields)
    /\ length rows = length businesses
    /\ List.Forall (fun row => length row = length header) rows
    /\ (forall key v,
          ~ In key header ->
          export_csv p w (List.map (insert key v) businesses) filename include_fields
            = export_csv p w businesses filename include_fields).
Proof.
  unfold export_csv.
  destruct (default_filename p w filename "leads_" ".csv") as [name w1].
  set (fields := match include_fields with
                 | Some (f :: fs) => f :: fs
                 | _ => DEFAULT_FIELDS
                 end).
  exists fields, (List.map (csv_row fields) businesses).
  cbn [fst snd write_file files]. split; [apply lookup_insert_eq |].
  split; [| split; [| split; [| split]]].
  - intros [-> | ->]; reflexivity.
  - intros [| f fs] -> Hne; [congruence | reflexivity].
  - apply List.length_map.
  - rewrite List.Forall_forall. intros row Hrow.
    apply in_map_iff in Hrow as (biz & <- & _). apply List.length_map.
  - intros key v Hnotin. rewrite List.map_map.
    rewrite (List.map_ext _ (csv_row fields)); [reflexivity |].
    intros biz. apply csv_row_extra. exact Hnotin.
Qed.

(** X25.  The outreach export is the enrichment followed by a CSV export
    with the outreach fields: when a file name is given, the file that
    [export_outreach_list] writes is the one [export_csv] writes for the
    records as the loop left them. *)
Theorem export_outreach_list_as_csv (p : platform) (w : world)
    (businesses enriched : list (gmap string json)) (name path : string)
    (w' : world) :
  name <> "" ->
  export_outreach_list p w businesses (Some name) = Ok (path, enriched, w') ->
  map_result enrich businesses = Ok enriched
  /\ export_csv p w enriched (Some name) (Some OUTREACH_FIELDS) = (path, w').
Proof.
  intros Hname. unfold export_outreach_list, export_csv, default_filename.
  destruct (PyStr.truthy name) eqn:Htruthy;
    [| destruct name; [congruence | discriminate Htruthy]].
  destruct (map_result enrich businesses) as [done | e]; [| discriminate].
  rewrite bind_Ok. intros [= <- <- <-]. split; reflexivity.
Qed.

Lemma export_outreach_list_as_csv_witness :
  map_result enrich [Lead.row (Lead.mk (Some f4_8) None 200 ∅)]
    = Ok [Lead.enriched (Lead.mk (Some f4_8) None 200 ∅)]
  /\ export_csv sample_platform empty_world
       [Lead.enriched (Lead.mk (Some f4_8) None 200 ∅)]
       (Some "outreach.csv") (Some OUTREACH_FIELDS)
     = (path_join OUTPUT_DIR "outreach.csv",
        write_file empty_world (path_join OUTPUT_DIR "outreach.csv")
          (CsvFile OUTREACH_FIELDS
             (List.map (csv_row OUTREACH_FIELDS)
                [Lead.enriched (Lead.mk (Some f4_8) None 200 ∅)]))).
Proof.
  apply (export_outreach_list_as_csv sample_platform empty_world
           [Lead.row (Lead.mk (Some f4_8) None 200 ∅)] _ "outreach.csv").
  - discriminate.
  - vm_compute. reflexivity.
Defined.

End Exports.
(** ** The database *)

Section Database.

Import LeadDatabase.
Local Open Scope string_scope.
Local Open Scope Z_scope.

(** What a REAL column gives back: a float as it is, but NULL for a NaN
    and 0.0 for -0.0. *)
Example bind_real_values :
  bind_real (Some f4_2) = Some f4_2
  /\ bind_real (Some (S754_zero true)) = Some PyFloat.zero
  /\ bind_real (Some S754_nan) = None
  /\ bind_real (Some (S754_infinity true)) = Some (S754_infinity true)
  /\ bind_real None = None.
Proof. repeat split; reflexivity. Qed.

Lemma insert_reviews_storable (place_id : string) (reviews : list Review.t) :
  forall db : t,
    forallb (fun review => fits_int64 (Review.rating review)) reviews = true ->
    insert_reviews db place_id reviews
      = (mk (LeadDatabase.businesses db)
            (LeadDatabase.reviews db
             ++ List.map
                  (fun review =>
                     mk_review_row place_id (Review.rating review)
                       (Review.text review) (Review.author review))
                  reviews)%list,
         true).
Proof.
  induction reviews as [| review rest IH]; intros db Hfit.
  - simpl. rewrite app_nil_r. destruct db; reflexivity.
  - cbn [forallb] in Hfit. apply andb_true_iff in Hfit as [Hreview Hrest].
    cbn [insert_reviews]. unfold insert_review. rewrite Hreview.
    rewrite (IH _ Hrest). cbn [LeadDatabase.businesses LeadDatabase.reviews List.map].
    rewrite <- app_assoc. reflexivity.
Qed.

Lemma insert_reviews_done (place_id : string) (reviews : list Review.t) :
  forall db : t,
    snd (insert_reviews db place_id reviews)
      = forallb (fun review => fits_int64 (Review.rating review)) reviews.
Proof.
  induction reviews as [| review rest IH]; intros db; [reflexivity |].
  cbn [insert_reviews forallb]. unfold insert_review.
  destruct (fits_int64 (Review.rating review)); [apply IH | reflexivity].
Qed.

Lemma insert_business_done (db : t) (biz : Business.t) :
  snd (insert_business db biz) = storable biz.
Proof.
  unfold insert_business, replace_business, storable.
  destruct (fits_int64 (Business.review_count biz)); [| reflexivity].
  apply insert_reviews_done.
Qed.

Lemma insert_business_storable (db : t) (biz : Business.t) :
  storable biz = true ->
  insert_business db biz
    = (mk (<[Business.place_id biz := row_of biz]> (LeadDatabase.businesses db))
          (LeadDatabase.reviews db ++ review_rows biz)%list,
       true).
Proof.
  unfold storable, insert_business, replace_business. intros Hfit.
  apply andb_true_iff in Hfit as [Hcount Hreviews]. rewrite Hcount.
  rewrite (insert_reviews_storable _ _ _ Hreviews). reflexivity.
Qed.

Lemma insert_loop_count (p : platform) (businesses : list Business.t) :
  forall (db : t) (inserted : Z) (db' : t) (count : Z),
    insert_loop p db businesses inserted = Ok (db', count) ->
    count = inserted + OpportunityAnalyzer.count_if storable businesses.
Proof.
  induction businesses as [| biz rest IH]; intros db inserted db' count Hloop.
  - cbn [insert_loop] in Hloop. injection Hloop as _ <-.
    unfold OpportunityAnalyzer.count_if, len. simpl. lia.
  - cbn [insert_loop] in Hloop.
    pose proof (insert_business_done db biz) as Hdone.
    destruct (insert_business db biz) as [db1 done]. simpl in Hdone. subst done.
    rewrite count_if_cons. destruct (storable biz).
    + apply IH in Hloop. simpl. lia.
    + destruct (console_print p _) as [[] |]; [| discriminate Hloop].
      rewrite bind_Ok in Hloop. apply IH in Hloop. simpl. lia.
Qed.

(** The only exception that leaves the loop is the MarkupError of a
    warning. *)
Lemma insert_loop_raises (p : platform) (businesses : list Business.t) :
  forall (db : t) (inserted : Z) (e : exn),
    insert_loop p db businesses inserted = Raise e ->
    e = MarkupError
    /\ Exists
         (fun biz =>
            storable biz = false
            /\ markup_error p (could_not_insert_message (Business.name biz)) = true)
         businesses.
Proof.
  induction businesses as [| biz rest IH]; intros db inserted e Hloop;
    [discriminate Hloop |].
  cbn [insert_loop] in Hloop.
  pose proof (insert_business_done db biz) as Hdone.
  destruct (insert_business db biz) as [db1 done]. simpl in Hdone. subst done.
  destruct (storable biz) eqn:Hbiz.
  - apply IH in Hloop as [-> Hrest]. split; [reflexivity |].
    apply Exists_cons_tl. exact Hrest.
  - destruct (console_print p _) as [[] | e'] eqn:Hprint.
    + rewrite bind_Ok in Hloop. apply IH in Hloop as [-> Hrest].
      split; [reflexivity |]. apply Exists_cons_tl. exact Hrest.
    + injection Hloop as <-.
      apply console_print_raises in Hprint as [-> Hrefused].
      split; [reflexivity |]. apply Exists_cons_hd. split; assumption.
Qed.

Lemma insert_loop_returns (p : platform) (businesses : list Business.t) :
  forall (db : t) (inserted : Z),
    List.Forall
      (fun biz =>
         storable biz = false ->
         markup_error p (could_not_insert_message (Business.name biz)) = false)
      businesses ->
    exists db',
      insert_loop p db businesses inserted
        = Ok (db', inserted + OpportunityAnalyzer.count_if storable businesses).
Proof.
  induction businesses as [| biz rest IH]; intros db inserted Hprinted.
  - exists db. cbn [insert_loop].
    unfold OpportunityAnalyzer.count_if, len. simpl. rewrite Z.add_0_r.
    reflexivity.
  - apply List.Forall_cons_iff in Hprinted as [Hbiz Hrest].
    cbn [insert_loop].
    pose proof (insert_business_done db biz) as Hdone.
    destruct (insert_business db biz) as [db1 done]. simpl in Hdone. subst done.
    rewrite count_if_cons. destruct (storable biz).
    + destruct (IH db1 (inserted + 1) Hrest) as [db' ->]. exists db'.
      do 2 f_equal; simpl; lia.
    + rewrite (console_print_accepts _ _ (Hbiz eq_refl)), bind_Ok.
      destruct (IH db1 inserted Hrest) as [db' ->]. exists db'.
      do 2 f_equal; simpl; lia.
Qed.

Lemma insert_loop_storable (p : platform) (businesses : list Business.t) :
  forall (db : t) (inserted : Z),
    forallb storable businesses = true ->
    insert_loop p db businesses inserted
      = Ok (mk (upserted (LeadDatabase.businesses db) businesses)
               (LeadDatabase.reviews db
                ++ List.flat_map review_rows businesses)%list,
            inserted + len businesses).
Proof.
  induction businesses as [| biz rest IH]; intros db inserted Hfit.
  - simpl. rewrite app_nil_r. unfold len. simpl. rewrite Z.add_0_r.
    destruct db; reflexivity.
  - cbn [forallb] in Hfit. apply andb_true_iff in Hfit as [Hbiz Hrest].
    cbn [insert_loop]. rewrite (insert_business_storable db biz Hbiz).
    rewrite (IH _ _ Hrest).
    cbn [LeadDatabase.businesses LeadDatabase.reviews List.flat_map].
    unfold upserted. cbn [List.fold_left]. rewrite <- app_assoc.
    do 2 f_equal. unfold len. simpl length. lia.
Qed.

Lemma upserted_elsewhere (businesses : list Business.t) :
  forall (table : gmap string business_row) (key : string),
    ~ In key (List.map Business.place_id businesses) ->
    upserted table businesses !! key = table !! key.
Proof.
  induction businesses as [| biz rest IH]; intros table key Hnotin;
    [reflexivity |].
  unfold upserted. cbn [List.fold_left]. fold (upserted (<[Business.place_id biz := row_of biz]> table) rest).
  rewrite IH by (intros Hin; apply Hnotin; right; exact Hin).
  apply lookup_insert_ne. intros Heq. apply Hnotin. left. exact Heq.
Qed.

Lemma upserted_app (table : gmap string business_row)
    (before after : list Business.t) :
  upserted table (before ++ after) = upserted (upserted table before) after.
Proof. unfold upserted. apply List.fold_left_app. Qed.

Lemma upserted_agree (businesses : list Business.t) :
  forall table table' : gmap string business_row,
    (forall key, ~ In key (List.map Business.place_id businesses) ->
                 table' !! key = table !! key) ->
    upserted table' businesses = upserted table businesses.
Proof.
  induction businesses as [| biz rest IH]; intros table table' Hagree.
  - simpl. apply map_eq. intros key. apply Hagree. intros [].
  - unfold upserted. cbn [List.fold_left].
    apply IH. intros key Hnotin.
    destruct (String.eqb_spec (Business.place_id biz) key) as [<- | Hne].
    + rewrite !lookup_insert_eq. reflexivity.
    + rewrite !lookup_insert_ne by exact Hne.
      apply Hagree. intros [Heq | Hin]; [congruence | contradiction].
Qed.

(** X26.  [insert_businesses] returns the number of businesses all of
    whose integers (the review count and the ratings of the reviews) fit a
    64-bit column; for each of the others its [except] clause prints a
    warning with the name of the business, and the call returns when Rich
    takes every such warning; the only exception that leaves it is the
    MarkupError of a warning.  When all integers fit, the count is the
    length of the list, every business has its row in the table under its
    [place_id], the row of the last business with that [place_id] (each
    float as the REAL column gives it back: NULL for a NaN, 0.0 for -0.0),
    the rows under other keys are untouched, and the reviews of all the
    businesses are appended to the [reviews] table. *)
Theorem insert_businesses_rows (p : platform) (db : t)
    (businesses : list Business.t) :
  (forall db' inserted,
     insert_businesses p db businesses = Ok (db', inserted) ->
     inserted = OpportunityAnalyzer.count_if storable businesses
     /\ 0 <= inserted <= len businesses)
  /\ (forall e,
        insert_businesses p db businesses = Raise e ->
        e = MarkupError
        /\ Exists
             (fun biz =>
                storable biz = false
                /\ markup_error p (could_not_insert_message (Business.name biz))
                   = true)
             businesses)
  /\ (List.Forall
        (fun biz =>
           storable biz = false ->
           markup_error p (could_not_insert_message (Business.name biz)) = false)
        businesses ->
      exists db',
        insert_businesses p db businesses
          = Ok (db', OpportunityAnalyzer.count_if storable businesses))
  /\ (forallb storable businesses = true ->
      exists db',
        insert_businesses p db businesses = Ok (db', len businesses)
        /\ LeadDatabase.reviews db'
           = (LeadDatabase.reviews db ++ List.flat_map review_rows businesses)%list
        /\ (forall key,
              ~ In key (List.map Business.place_id businesses) ->
              LeadDatabase.businesses db' !! key = LeadDatabase.businesses db !! key)
        /\ (forall before biz after,
              businesses = (before ++ biz :: after)%list ->
              ~ In (Business.place_id biz) (List.map Business.place_id after) ->
              LeadDatabase.businesses db' !! Business.place_id biz
                = Some (row_of biz))).
Proof.
  unfold insert_businesses. split; [| split; [| split]].
  - intros db' inserted Hloop. apply insert_loop_count in Hloop.
    pose proof (count_if_bounds storable businesses). lia.
  - intros e Hloop. apply (insert_loop_raises p businesses db 0 e Hloop).
  - intros Hprinted.
    destruct (insert_loop_returns p businesses db 0 Hprinted) as [db' Hloop].
    exists db'. rewrite Hloop. reflexivity.
  - intros Hfit. rewrite (insert_loop_storable p businesses db 0 Hfit).
    eexists. split; [reflexivity |].
    cbn [LeadDatabase.businesses LeadDatabase.reviews].
    split; [reflexivity |]. split.
    + intros key Hnotin. apply upserted_elsewhere. exact Hnotin.
    + intros before biz after -> Hlast.
      rewrite upserted_app. unfold upserted at 1. cbn [List.fold_left].
      fold (upserted (<[Business.place_id biz := row_of biz]>
                        (upserted (LeadDatabase.businesses db) before)) after).
      rewrite upserted_elsewhere by exact Hlast.
      apply lookup_insert_eq.
Qed.

(** X27.  Importing the same businesses a second time leaves the
    [businesses] table as the first import left it, but appends their
    reviews to the [reviews] table once more: the businesses are replaced
    under their [place_id], the reviews are plain inserts. *)
Theorem insert_businesses_twice (p : platform) (db : t)
    (businesses : list Business.t) :
  forallb storable businesses = true ->
  exists once twice,
    insert_businesses p db businesses = Ok (once, len businesses)
    /\ insert_businesses p once businesses = Ok (twice, len businesses)
    /\ LeadDatabase.businesses twice = LeadDatabase.businesses once
    /\ LeadDatabase.reviews twice
       = (LeadDatabase.reviews db ++ List.flat_map review_rows businesses
            ++ List.flat_map review_rows businesses)%list.
Proof.
  intros Hfit. unfold insert_businesses.
  rewrite (insert_loop_storable p businesses db 0 Hfit).
  eexists _, _. split; [reflexivity |].
  rewrite (insert_loop_storable p businesses _ 0 Hfit).
  split; [reflexivity |].
  cbn [LeadDatabase.businesses LeadDatabase.reviews].
  split; [| rewrite <- app_assoc; reflexivity].
  apply upserted_agree. intros key Hnotin.
  apply upserted_elsewhere. exact Hnotin.
Qed.

Lemma insert_businesses_twice_witness :
  exists once twice,
    insert_businesses sample_platform init sample_businesses
      = Ok (once, len sample_businesses)
    /\ insert_businesses sample_platform once sample_businesses
       = Ok (twice, len sample_businesses)
    /\ LeadDatabase.businesses twice = LeadDatabase.businesses once
    /\ LeadDatabase.reviews twice
       = (LeadDatabase.reviews init ++ List.flat_map review_rows sample_businesses
            ++ List.flat_map review_rows sample_businesses)%list.
Proof.
  apply (insert_businesses_twice sample_platform init sample_businesses).
  vm_compute. reflexivity.
Defined.

Lemma insert_reviews_partial (place_id : string)
    (before after : list Review.t) (review : Review.t) :
  forall db : t,
    forallb (fun r => fits_int64 (Review.rating r)) before = true ->
    fits_int64 (Review.rating review) = false ->
    insert_reviews db place_id (before ++ review :: after)
      = (mk (LeadDatabase.businesses db)
            (LeadDatabase.reviews db
             ++ List.map
                  (fun r =>
                     mk_review_row place_id (Review.rating r) (Review.text r)
                       (Review.author r))
                  before)%list,
         false).
Proof.
  induction before as [| r rest IH]; intros db Hbefore Hreview.
  - cbn [app insert_reviews List.map]. unfold insert_review. rewrite Hreview.
    rewrite app_nil_r. destruct db; reflexivity.
  - cbn [forallb] in Hbefore. apply andb_true_iff in Hbefore as [Hr Hrest].
    cbn [app insert_reviews]. unfold insert_review at 1. rewrite Hr.
    rewrite (IH _ Hrest Hreview).
    cbn [LeadDatabase.businesses LeadDatabase.reviews List.map].
    rewrite <- app_assoc. reflexivity.
Qed.

(** X28.  A business that [insert_businesses] reports as failed can
    still be written in part.  When its review count does not fit a 64-bit
    column, nothing of it is written; but when a rating of one of its reviews
    does not fit, its row is in the [businesses] table (each float as the
    REAL column gives it back) and the reviews before that one are in the
    [reviews] table, and the business is not counted.  When Rich takes the
    warning, [insert_businesses] returns and nothing undoes what was
    written; when it does not, the call raises MarkupError. *)
Theorem insert_business_partial (p : platform) (db : t) (biz : Business.t)
    (before after : list Review.t) (review : Review.t) :
  (fits_int64 (Business.review_count biz) = false ->
   insert_business db biz = (db, false))
  /\ (fits_int64 (Business.review_count biz) = true ->
      Business.reviews biz = (before ++ review :: after)%list ->
      forallb (fun r => fits_int64 (Review.rating r)) before = true ->
      fits_int64 (Review.rating review) = false ->
      insert_business db biz
        = (mk (<[Business.place_id biz := row_of biz]> (LeadDatabase.businesses db))
              (LeadDatabase.reviews db
               ++ List.map
                    (fun r =>
                       mk_review_row (Business.place_id biz) (Review.rating r)
                         (Review.text r) (Review.author r))
                    before)%list,
           false))
  /\ (storable biz = false ->
      markup_error p (could_not_insert_message (Business.name biz)) = false ->
      insert_businesses p db [biz] = Ok (fst (insert_business db biz), 0))
  /\ (storable biz = false ->
      markup_error p (could_not_insert_message (Business.name biz)) = true ->
      insert_businesses p db [biz] = Raise MarkupError).
Proof.
  split; [| split].
  - unfold insert_business, replace_business. intros ->. reflexivity.
  - unfold insert_business, replace_business. intros -> -> Hbefore Hreview.
    rewrite (insert_reviews_partial _ before after review _ Hbefore Hreview).
    reflexivity.
  - unfold insert_businesses. cbn [insert_loop].
    pose proof (insert_business_done db biz) as Hdone.
    destruct (insert_business db biz) as [db1 done]. simpl in Hdone. subst done.
    split; intros -> Hprint.
    + rewrite (console_print_accepts _ _ Hprint), bind_Ok. reflexivity.
    + rewrite (console_print_refuses _ _ Hprint). reflexivity.
Qed.

Lemma insert_business_partial_witness :
  insert_business init overrated_business
    = (mk (<[Business.place_id overrated_business := row_of overrated_business]>
             (LeadDatabase.businesses init))
          (LeadDatabase.reviews init
           ++ List.map
                (fun r =>
                   mk_review_row (Business.place_id overrated_business)
                     (Review.rating r) (Review.text r) (Review.author r))
                [Review.mk 5 "Excellent service!" None None])%list,
       false)
  /\ insert_businesses sample_platform init [overrated_business]
     = Ok (fst (insert_business init overrated_business), 0).
Proof.
  destruct (insert_business_partial sample_platform init overrated_business
              [Review.mk 5 "Excellent service!" None None] []
              (Review.mk (2 ^ 63) "Off the scale." None None))
    as (_ & Hpartial & Hreturns & _).
  split.
  - apply Hpartial; reflexivity.
  - apply Hreturns; reflexivity.
Defined.

End Database.
(** ** Loading, and the overlap of two complaints *)

Section Loading.

Import OpportunityAnalyzer.
Local Open Scope string_scope.
Local Open Scope Z_scope.

(** X29.  What [load_data] does with a file it cannot use.  A path
    without a file raises FileNotFoundError; a document that is a list
    raises AttributeError (it has no [get]); and a document without a
    [businesses] key is read as an empty list of businesses, on which
    [analyze] then raises its ValueError. *)
Theorem load_data_edges (p : platform) (w : world) (self : t)
    (filepath : string) :
  (files w !! filepath = None ->
   load_data p w self filepath = Raise FileNotFoundError)
  /\ (forall items,
        files w !! filepath = Some (JsonFile (JList items)) ->
        load_data p w self filepath = Raise AttributeError)
  /\ (forall entries category location,
        files w !! filepath = Some (JsonFile (JDict entries)) ->
        Json.dict_get "businesses" entries = None ->
        load_data p w self filepath = Ok ([], mk [], w)
        /\ analyze p (mk []) category location
           = Raise (ValueError no_businesses_message)).
Proof.
  unfold load_data. split; [| split].
  - intros ->. reflexivity.
  - intros items ->. reflexivity.
  - intros entries category location -> Hmissing.
    cbn [Json.get]. rewrite Hmissing. split; reflexivity.
Qed.

Lemma overlap_symmetric (a b : gset string) : overlap a b = overlap b a.
Proof.
  unfold overlap.
  rewrite (leibniz_equiv _ _ (intersection_comm a b)).
  rewrite (leibniz_equiv _ _ (union_comm a b)).
  reflexivity.
Qed.

(** X30.  The test for near-duplicates is symmetric in the two
    complaints; a complaint with at least one word is a near-duplicate of
    itself; and two complaints without a common word never are
    near-duplicates, their overlap being 0.0. *)
Theorem near_duplicate_symmetric (c existing : string) :
  near_duplicate c existing = near_duplicate existing c
  /\ (word_set c <> ∅ -> near_duplicate c c = true)
  /\ (word_set c ∩ word_set existing = ∅ ->
      overlap (word_set c) (word_set existing) = Ok PyFloat.zero
      /\ near_duplicate c existing = false).
Proof.
  split; [| split].
  - unfold near_duplicate. rewrite overlap_symmetric. reflexivity.
  - intros Hwords. apply near_duplicate_same_words; [reflexivity | exact Hwords].
  - intros Hdisjoint.
    assert (Hoverlap :
      overlap (word_set c) (word_set existing) = Ok PyFloat.zero).
    { rewrite overlap_returns, Hdisjoint, size_empty.
      destruct (Z.max (Z.of_nat (size (word_set c ∪ word_set existing))) 1)
        eqn:Hmax; try lia.
      reflexivity. }
    split; [exact Hoverlap |].
    unfold near_duplicate. rewrite Hoverlap. reflexivity.
Qed.

End Loading.
